(** * aiagents-stock: the bull-market agent, embedded and checked against its specification

    A shallow embedding of the signal/portfolio/backtest core of
    [src/modules/bull_market_agent] (Python), followed by the theorems that
    settle the specification's claims C1..C10 on that code, and by further
    properties of the code, read off the source: error and edge behaviour,
    invariants, round trips and how the operations compose.

    Modelling conventions, used throughout:
    - Python [float] values (cash, prices, confidences, percentages) are
      embedded twice.  In the first part they are the rationals [Q]; what is
      proved there is about comparisons, selection, bounds and the order of
      events, in statements that do not turn on how a product or a quotient
      is rounded.  The path of a trade, where the outcome does turn on it --
      the accounts of a purchase, the quantity bought, the sale, the risk
      limits -- is embedded again over IEEE 754 binary64 ([Binary64], on the
      kernel's primitive floats, with NaN, the infinities and the
      conversions between int and float), and the claims on that path are
      settled there.  Python [int] is [Z].
    - An exception is a value of [Py.exn]; a call that may raise returns a
      [Py.Result].  A call that reads the clock or the random generator is a
      computation in the monad [Py.M] over an explicit [Py.World].
    - A mutable object (a [Portfolio], the dict of positions, a
      [BacktestResult] with its list of trade records) is passed in and the
      object as it is after the call is passed out, also when the call
      raises.  The performance analyzer, whose claim is about what it does to
      the lists it is handed, is modelled on a heap of list objects.
    - A [dict] is an insertion-ordered association list with unique keys
      ([Py.Dict]), since the code iterates over dicts and returns their values
      in order.
    - Logging calls ([logger.debug/info/error], [print]) have no effect on the
      modelled state and are left out; [src/core/logger.py] accepts arbitrary
      keyword arguments and formats them under a blanket handler. *)

From Stdlib Require Import Floats.
From Stdlib Require Import ZArith QArith Qround Qabs List String Ascii Bool Lia.
From Stdlib Require Import DecimalString Sorting.Sorted Lqa.
Import ListNotations.

Local Open Scope string_scope.
Local Open Scope Z_scope.

(* ====================================================================== *)
(** * The fragment of the Python runtime the code relies on *)
(* ====================================================================== *)

Module Py.

(** ** Exceptions and results *)

Inductive exn : Type :=
| ValueError (msg : string)
| ZeroDivisionError
| KeyError (key : string)
| AttributeError (attr : string)
| IndexError
| OverflowError
| FrozenInstanceError (attr : string)   (* dataclasses.FrozenInstanceError *)
| Exception (msg : string).             (* any other subclass of Exception *)

Inductive Result (A : Type) : Type :=
| Ok (a : A)
| Raise (e : exn).
Arguments Ok {A} a.
Arguments Raise {A} e.

Definition is_ok {A} (r : Result A) : bool :=
  match r with Ok _ => true | Raise _ => false end.

(** [type(e).__name__], the class of an exception, which an [except]
    clause selects on. *)
Definition class_name (e : exn) : string :=
  match e with
  | ValueError _ => "ValueError"
  | ZeroDivisionError => "ZeroDivisionError"
  | KeyError _ => "KeyError"
  | AttributeError _ => "AttributeError"
  | IndexError => "IndexError"
  | OverflowError => "OverflowError"
  | FrozenInstanceError _ => "FrozenInstanceError"
  | Exception _ => "Exception"
  end.

(** ** Numbers *)

(** [x < y], [x <= y], [x > y] and [x >= y] on floats. *)
Definition float_lt (x y : Q) : bool := negb (Qle_bool y x).
Definition float_le (x y : Q) : bool := Qle_bool x y.
Definition float_gt (x y : Q) : bool := float_lt y x.
Definition float_ge (x y : Q) : bool := float_le y x.

(** [a / b]: true division raises on a zero divisor. *)
Definition truediv (a b : Q) : Result Q :=
  if Qeq_bool b 0 then Raise ZeroDivisionError else Ok (a / b)%Q.

(** [int(x)] truncates toward zero. *)
Definition int (x : Q) : Z := Z.quot (Qnum x) (Z.pos (Qden x)).

(** [float(n)], the implicit conversion in mixed int/float arithmetic. *)
Definition float (n : Z) : Q := inject_Z n.

(** [abs(x)] and [max(a, b)] on floats.  [max] returns its first argument
    unless the second is strictly larger. *)
Definition abs (x : Q) : Q := Qabs x.
Definition max (a b : Q) : Q := if float_gt b a then b else a.

(** [min(a, b)] returns its first argument unless the second is strictly
    smaller. *)
Definition min (a b : Q) : Q := if float_lt b a then b else a.

(** [sum(xs)], starting from 0. *)
Definition sum (xs : list Q) : Q := fold_left Qplus xs 0%Q.

(** [max(xs)] and [min(xs)] of a non-empty list: the first maximal (minimal)
    element. *)
Definition max_of (x : Q) (xs : list Q) : Q :=
  fold_left (fun m y => if float_gt y m then y else m) xs x.
Definition min_of (x : Q) (xs : list Q) : Q :=
  fold_left (fun m y => if float_lt y m then y else m) xs x.

(** [str(n)] for an int. *)
Definition str_int (n : Z) : string := NilZero.string_of_int (Z.to_int n).

(** ** f-strings

    A formatted string is kept symbolic: literal pieces and formatted
    values with their format specification ([.2f], [+.1f], ...), so that no
    decimal rendering of a float has to be fixed here. *)

Inductive piece : Type :=
| Lit (s : string)
| Fmt (spec : string) (value : Q)
| FmtInt (value : Z).

Definition fstring := list piece.

(** ** datetime

    A [datetime] is a proleptic Gregorian ordinal (day 1 is 0001-01-01, a
    Monday) and the time of day in microseconds since midnight; a
    [datetime.time] is that second component. *)

Definition time := Z.

Definition mk_time (hour minute : Z) : time :=
  ((hour * 60 + minute) * 60) * 1000000.

Record datetime : Type := mk_datetime {
  ordinal : Z;
  time_of : time           (* .time() *)
}.

Definition day_us : Z := 86400 * 1000000.

Definition datetime_us (d : datetime) : Z := ordinal d * day_us + time_of d.

Definition datetime_le (a b : datetime) : bool := datetime_us a <=? datetime_us b.

(** [d + timedelta(days=n)] *)
Definition add_days (d : datetime) (n : Z) : datetime :=
  mk_datetime (ordinal d + n) (time_of d).

(** [(a - b).days]: a timedelta is normalised with the remainder
    non-negative, so [.days] is the floor. *)
Definition sub_days (a b : datetime) : Z :=
  (datetime_us a - datetime_us b) / day_us.

(** [d.weekday()], Monday is 0. *)
Definition weekday (d : datetime) : Z := (ordinal d + 6) mod 7.

(** ** The world: the wall clock and the random generator

    [datetime.now()] returns the next reading of the clock and
    [random.random()] the next draw in [0, 1); both are given as oracles,
    indexed by the number of readings made so far. *)

Record World : Type := mk_World {
  clock : nat -> datetime;
  clock_reads : nat;
  rng : nat -> Q;
  rng_draws : nat
}.

Definition M (A : Type) : Type := World -> Result A * World.

Definition ret {A} (a : A) : M A := fun w => (Ok a, w).

Definition bind {A B} (c : M A) (k : A -> M B) : M B :=
  fun w =>
    match c w with
    | (Ok a, w') => k a w'
    | (Raise e, w') => (Raise e, w')
    end.

Definition lift {A} (r : Result A) : M A := fun w => (r, w).

(** [try: c  except Exception as e: handler e] *)
Definition try_except {A} (c : M A) (handler : exn -> M A) : M A :=
  fun w =>
    match c w with
    | (Ok a, w') => (Ok a, w')
    | (Raise e, w') => handler e w'
    end.

Definition datetime_now : World -> datetime * World :=
  fun w => (clock w (clock_reads w),
            mk_World (clock w) (S (clock_reads w)) (rng w) (rng_draws w)).

Definition random_random : World -> Q * World :=
  fun w => (rng w (rng_draws w),
            mk_World (clock w) (clock_reads w) (rng w) (S (rng_draws w))).

(** [random.uniform(a, b)] is [a + (b - a) * random()]. *)
Definition random_uniform (a b : Q) : World -> Q * World :=
  fun w => let '(u, w') := random_random w in ((a + (b - a) * u)%Q, w').

(** A reading of the clock or the generator, as a computation that cannot
    raise. *)
Definition io {A} (f : World -> A * World) : M A :=
  fun w => let '(a, w') := f w in (Ok a, w').

(** ** sorted

    [sorted(xs, key=key, reverse=True)]: the stable sort into descending key
    order (elements with equal keys keep the order they had in [xs]), given
    here as the insertion sort that places an element before the first
    element whose key is not larger. *)

Fixpoint insert_reverse {A} (key : A -> Q) (x : A) (l : list A) : list A :=
  match l with
  | [] => [x]
  | y :: rest =>
      if float_lt (key x) (key y) then y :: insert_reverse key x rest
      else x :: y :: rest
  end.

Definition sorted_reverse {A} (key : A -> Q) (xs : list A) : list A :=
  fold_right (insert_reverse key) [] xs.

(** ** dict: insertion-ordered, keys unique *)

Module Dict.
Section Dict.
Context {V : Type}.

Definition t := list (string * V).

Definition empty : t := [].

(** [d.get(k)], and [k in d] when the answer is not [None] *)
Fixpoint get (d : t) (k : string) : option V :=
  match d with
  | [] => None
  | (k', v) :: rest => if String.eqb k' k then Some v else get rest k
  end.

Definition mem (d : t) (k : string) : bool :=
  match get d k with Some _ => true | None => false end.

(** [d[k] = v]: an existing key keeps its place, a new key goes last. *)
Fixpoint set (d : t) (k : string) (v : V) : t :=
  match d with
  | [] => [(k, v)]
  | (k', v') :: rest =>
      if String.eqb k' k then (k', v) :: rest else (k', v') :: set rest k v
  end.

(** [del d[k]] for a key that is present. *)
Fixpoint del (d : t) (k : string) : t :=
  match d with
  | [] => []
  | (k', v') :: rest =>
      if String.eqb k' k then rest else (k', v') :: del rest k
  end.

Definition keys (d : t) : list string := map fst d.
Definition values (d : t) : list V := map snd d.
Definition len (d : t) : Z := Z.of_nat (List.length d).
End Dict.
Arguments t V : clear implicits.
End Dict.

End Py.

Import Py.

Declare Scope py_scope.
Delimit Scope py_scope with py.
Notation "x <- c ;; k" := (Py.bind c (fun x => k))
  (at level 61, c at next level, right associativity) : py_scope.
Notation "c ;;; k" := (Py.bind c (fun _ => k))
  (at level 61, right associativity) : py_scope.

(* ====================================================================== *)
(** * domain/value_objects.py *)
(* ====================================================================== *)

Inductive SignalAction : Type := BUY | SELL | HOLD | STOP_LOSS | TAKE_PROFIT.

(** [action.value] *)
Definition SignalAction_value (a : SignalAction) : string :=
  match a with
  | BUY => "买入"
  | SELL => "卖出"
  | HOLD => "持有"
  | STOP_LOSS => "止损"
  | TAKE_PROFIT => "止盈"
  end.

Definition SignalAction_eqb (a b : SignalAction) : bool :=
  match a, b with
  | BUY, BUY | SELL, SELL | HOLD, HOLD
  | STOP_LOSS, STOP_LOSS | TAKE_PROFIT, TAKE_PROFIT => true
  | _, _ => false
  end.

Inductive RiskLevel : Type := LOW | MEDIUM | HIGH.

Module AnalysisConfig.

Record t : Type := mk {
  sectors : list string;
  confidence_threshold : Q;
  max_position_size : Q;
  enable_parallel : bool;
  max_workers : Z;
  analysis_timeout : Z;
  enable_caching : bool;
  cache_ttl : Z
}.

(** [__post_init__]: the two range checks, in this order. *)
Definition __post_init__ (self : t) : Result unit :=
  if negb (float_lt 0 (confidence_threshold self)
           && float_le (confidence_threshold self) 100)
  then Raise (ValueError "置信度阈值必须在0-100之间")
  else if negb (float_lt 0 (max_position_size self)
                && float_le (max_position_size self) 1)
  then Raise (ValueError "最大仓位必须在0-1之间")
  else Ok tt.

(** [AnalysisConfig()] with every default. *)
Definition default : t :=
  mk ["BK0917"] 80 (1 # 10) true 8 15 true 300.

(** The constructor: the fields are stored, then [__post_init__] runs. *)
Definition new (self : t) : Result t :=
  match __post_init__ self with
  | Ok _ => Ok self
  | Raise e => Raise e
  end.

(** [with_updated_sectors(sectors)] *)
Definition with_updated_sectors (self : t) (sectors : list string) : Result t :=
  new (mk sectors (confidence_threshold self) (max_position_size self)
          (enable_parallel self) (max_workers self) (analysis_timeout self)
          (enable_caching self) (cache_ttl self)).

(** [with_updated_threshold(threshold)] *)
Definition with_updated_threshold (self : t) (threshold : Q) : Result t :=
  new (mk (sectors self) threshold (max_position_size self)
          (enable_parallel self) (max_workers self) (analysis_timeout self)
          (enable_caching self) (cache_ttl self)).

End AnalysisConfig.

Module MarketData.

Record t : Type := mk {
  symbol : string;
  name : string;
  price : Q;
  change_pct : Q;
  volume : Z;
  amount : Q;
  sector : string;
  timestamp : datetime;
  additional_data : Dict.t Q
}.

(** [self.additional_data.get(key, default)] *)
Definition additional (self : t) (key : string) (default : Q) : Q :=
  match Dict.get (additional_data self) key with
  | Some v => v
  | None => default
  end.

End MarketData.

Module RiskMetrics.

Record t : Type := mk {
  max_drawdown : Q;
  sharpe_ratio : Q;
  volatility : Q;
  win_rate : Q;
  profit_loss_ratio : Q;
  calmar_ratio : Q;
  sortino_ratio : Q;
  max_consecutive_losses : Z;
  recovery_factor : Q
}.

(** [RiskMetrics()] *)
Definition default : t := mk 0 0 0 0 0 0 0 0 0.

(** [risk_score]: the three adjustments in the order written, then the
    clamp [max(0, min(100, score))]. *)
Definition risk_score (self : t) : Q :=
  let score := 100%Q in
  let score :=
    if float_gt (max_drawdown self) (1 # 10)
    then (score - (max_drawdown self - (1 # 10)) * 500)%Q else score in
  let score :=
    if float_gt (sharpe_ratio self) 1
    then (score + min ((sharpe_ratio self - 1) * 20) 20)%Q else score in
  let score :=
    if float_gt (win_rate self) (6 # 10)
    then (score + min ((win_rate self - (6 # 10)) * 200) 20)%Q else score in
  max 0 (min 100 score).

End RiskMetrics.

Module TimeSlot.

Record t : Type := mk {
  name : string;
  start_time : string;
  end_time : string
}.

(** [trading_slots()] *)
Definition trading_slots : list t :=
  [ mk "早盘竞价" "09:15" "09:30";
    mk "上午交易" "09:30" "11:30";
    mk "下午交易" "13:00" "14:30";
    mk "尾盘交易" "14:30" "15:00" ].

(** A decimal digit.  (The digits of [strptime] are those of the regular
    expression class [\d]; here they are the ASCII digits.) *)
Definition digit (c : ascii) : option Z :=
  let n := Z.of_nat (nat_of_ascii c) in
  if (48 <=? n) && (n <=? 57) then Some (n - 48) else None.

(** The directive [%H]: two digits from 00 to 23 if they are there, else
    one digit.  Returns the hour and the rest of the string. *)
Definition hour (s : string) : option (Z * string) :=
  match s with
  | EmptyString => None
  | String c1 rest1 =>
      match digit c1 with
      | None => None
      | Some d1 =>
          match rest1 with
          | String c2 rest2 =>
              match digit c2 with
              | Some d2 =>
                  if ((d1 =? 2) && (d2 <=? 3)) || (d1 <=? 1)
                  then Some (d1 * 10 + d2, rest2)
                  else Some (d1, rest1)
              | None => Some (d1, rest1)
              end
          | EmptyString => Some (d1, rest1)
          end
      end
  end.

(** The directive [%M]: two digits from 00 to 59 if they are there, else
    one digit. *)
Definition minute (s : string) : option (Z * string) :=
  match s with
  | EmptyString => None
  | String c1 rest1 =>
      match digit c1 with
      | None => None
      | Some d1 =>
          match rest1 with
          | String c2 rest2 =>
              match digit c2 with
              | Some d2 =>
                  if d1 <=? 5 then Some (d1 * 10 + d2, rest2)
                  else Some (d1, rest1)
              | None => Some (d1, rest1)
              end
          | EmptyString => Some (d1, rest1)
          end
      end
  end.

(** [datetime.strptime(s, "%H:%M").time()]: the hour, a colon, the minute,
    and nothing after; anything else is a [ValueError] (whose message, which
    quotes the string, is shortened here). *)
Definition strptime_HM (s : string) : Result time :=
  match hour s with
  | Some (h, String ":" rest) =>
      match minute rest with
      | Some (m, EmptyString) => Ok (mk_time h m)
      | Some (_, String _ _) => Raise (ValueError "unconverted data remains")
      | None => Raise (ValueError "time data does not match format")
      end
  | _ => Raise (ValueError "time data does not match format")
  end.

(** [contains(time)] *)
Definition contains (self : t) (time : datetime) : Result bool :=
  match strptime_HM (start_time self) with
  | Raise e => Raise e
  | Ok start =>
      match strptime_HM (end_time self) with
      | Raise e => Raise e
      | Ok end_ =>
          let current_time := time_of time in
          Ok ((start <=? current_time) && (current_time <=? end_))
      end
  end.

End TimeSlot.

(* ====================================================================== *)
(** * domain/entities.py *)
(* ====================================================================== *)

Module TradingSignal.

Record t : Type := mk {
  symbol : string;
  name : string;
  sector : string;
  action : SignalAction;
  confidence : Q;
  price : Q;
  reason : fstring;
  timestamp : datetime;
  detailed_reasons : list fstring;
  expected_profit_scenarios : Dict.t fstring;
  risk_level : RiskLevel;
  position_size_pct : Q;
  stop_loss_plan : fstring;
  take_profit_plan : fstring;
  market_condition : fstring
}.

(** [__post_init__]: confidence within 0..100, then price above 0. *)
Definition __post_init__ (self : t) : Result unit :=
  if negb (float_le 0 (confidence self) && float_le (confidence self) 100)
  then Raise (ValueError "置信度必须在0-100之间")
  else if float_le (price self) 0
  then Raise (ValueError "价格必须大于0")
  else Ok tt.

(** The constructor: the fields are stored, then [__post_init__] runs. *)
Definition new (self : t) : Result t :=
  match __post_init__ self with
  | Ok _ => Ok self
  | Raise e => Raise e
  end.

(** [TradingSignal(symbol, name, sector, action, confidence, price, reason,
    timestamp)]: the positional call, every other field at its default. *)
Definition positional (symbol name sector : string) (action : SignalAction)
    (confidence price : Q) (reason : fstring) (timestamp : datetime) : Result t :=
  new (mk symbol name sector action confidence price reason timestamp
          [] Dict.empty MEDIUM 0 [] [] []).

Definition is_buy_signal (self : t) : bool := SignalAction_eqb (action self) BUY.

Definition is_sell_signal (self : t) : bool :=
  existsb (SignalAction_eqb (action self)) [SELL; STOP_LOSS; TAKE_PROFIT].

End TradingSignal.

(** One entry of [Portfolio.positions]: the inner dict with the keys
    ['quantity'], ['avg_cost'], ['total_cost'], ['entry_date'] and
    ['last_update']. *)
Module Position.

Record t : Type := mk {
  quantity : Z;
  avg_cost : Q;
  total_cost : Q;
  entry_date : datetime;
  last_update : datetime
}.

End Position.

Module Portfolio.

Record t : Type := mk {
  cash : Q;
  positions : Dict.t Position.t;
  total_value : Q;
  daily_pnl : Q;
  total_pnl : Q
}.

(** [Portfolio()] *)
Definition default : t := mk 100000 Dict.empty 100000 0 0.

(** The object after [self.positions] has been replaced by [d]; no other
    field is written by any method. *)
Definition with_positions (self : t) (d : Dict.t Position.t) : t :=
  mk (cash self) d (total_value self) (daily_pnl self) (total_pnl self).

Definition msg_no_position (symbol : string) : string :=
  "没有找到股票 " ++ symbol ++ " 的持仓".

Definition msg_oversell (quantity held : Z) : string :=
  "卖出数量 " ++ str_int quantity ++ " 超过持仓数量 " ++ str_int held.

(** [add_position(symbol, quantity, price, commission)].  Returns the
    outcome, the portfolio as the call leaves it, and the world. *)
Definition add_position (self : t) (symbol : string) (quantity : Z)
    (price commission : Q) (w : World) : Result unit * t * World :=
  match Dict.get (positions self) symbol with
  | Some existing =>
      let total_quantity := Position.quantity existing + quantity in
      let total_cost :=
        (Position.total_cost existing + (float quantity * price) + commission)%Q in
      match truediv total_cost (float total_quantity) with
      | Raise e => (Raise e, self, w)
      | Ok avg_cost =>
          let '(now, w1) := datetime_now w in
          (Ok tt,
           with_positions self
             (Dict.set (positions self) symbol
                (Position.mk total_quantity avg_cost total_cost
                   (Position.entry_date existing) now)),
           w1)
      end
  | None =>
      let '(now1, w1) := datetime_now w in
      let '(now2, w2) := datetime_now w1 in
      (Ok tt,
       with_positions self
         (Dict.set (positions self) symbol
            (Position.mk quantity price (float quantity * price + commission)%Q
               now1 now2)),
       w2)
  end.

(** [remove_position(symbol, quantity, price, commission) -> profit_loss] *)
Definition remove_position (self : t) (symbol : string) (quantity : Z)
    (price commission : Q) (w : World) : Result Q * t * World :=
  match Dict.get (positions self) symbol with
  | None => (Raise (ValueError (msg_no_position symbol)), self, w)
  | Some position =>
      if quantity >? Position.quantity position
      then (Raise (ValueError (msg_oversell quantity (Position.quantity position))),
            self, w)
      else
        let sell_amount := (float quantity * price)%Q in
        let cost_basis := (float quantity * Position.avg_cost position)%Q in
        let profit_loss := (sell_amount - cost_basis - commission)%Q in
        let '(now, w1) := datetime_now w in
        let position' :=
          Position.mk (Position.quantity position - quantity)
            (Position.avg_cost position)
            (Position.total_cost position - cost_basis)%Q
            (Position.entry_date position) now in
        let d := Dict.set (positions self) symbol position' in
        if Position.quantity position' =? 0
        then (Ok profit_loss, with_positions self (Dict.del d symbol), w1)
        else (Ok profit_loss, with_positions self d, w1)
  end.

End Portfolio.

Module TradeRecord.

Record t : Type := mk {
  symbol : string;
  name : fstring;
  action : SignalAction;
  quantity : Z;
  price : Q;
  amount : Q;
  commission : Q;
  timestamp : datetime;
  reason : fstring;
  confidence : Q;
  cost_price : option Q;
  profit_loss : Q;
  profit_loss_pct : Q;
  hold_days : Z;
  trade_summary : fstring;
  lessons_learned : fstring
}.

End TradeRecord.

(* ====================================================================== *)
(** * core.py: the strategy interface *)
(* ====================================================================== *)

(** [TradingStrategy] (abstract): a name and three methods.  A method may
    read the clock and the random generator, and may raise. *)
Module TradingStrategy.

Record t : Type := mk {
  name : string;
  analyze_market_data :
    MarketData.t -> AnalysisConfig.t -> M (option TradingSignal.t);
  should_enter_position : TradingSignal.t -> Portfolio.t -> M bool;
  should_exit_position :
    string -> Portfolio.t -> Q -> M (option SignalAction)
}.

End TradingStrategy.

(* ====================================================================== *)
(** * strategies.py *)
(* ====================================================================== *)

Local Open Scope py_scope.

Module BaseStrategy.

Definition analyze_market_data (market_data : MarketData.t)
    (config : AnalysisConfig.t) : M (option TradingSignal.t) := ret None.

Definition should_enter_position (signal : TradingSignal.t)
    (portfolio : Portfolio.t) : M bool := ret false.

Definition should_exit_position (symbol : string) (portfolio : Portfolio.t)
    (current_price : Q) : M (option SignalAction) := ret None.

(** The dict literal of [_get_time_slot], in its insertion order. *)
Definition time_slots : list (string * (time * time)) :=
  [ ("early_morning",     (mk_time 9 15, mk_time 9 30));
    ("morning_session",   (mk_time 9 30, mk_time 11 30));
    ("afternoon_session", (mk_time 13 0, mk_time 14 30));
    ("late_afternoon",    (mk_time 14 30, mk_time 15 0)) ].

(** [_get_time_slot(current_time)]: the first slot, in insertion order, whose
    closed interval contains the time of day. *)
Definition _get_time_slot (current_time : datetime) : string :=
  let current_t := time_of current_time in
  match
    find (fun slot =>
            let '(_, (start_time, end_time)) := slot in
            (start_time <=? current_t) && (current_t <=? end_time))
         time_slots
  with
  | Some (slot_name, _) => slot_name
  | None => "non_trading"
  end.

(** [_calculate_position_size(signal, config)] *)
Definition _calculate_position_size (signal : TradingSignal.t)
    (config : AnalysisConfig.t) : Q :=
  let base_size := AnalysisConfig.max_position_size config in
  let confidence_factor := (TradingSignal.confidence signal / 100)%Q in
  (base_size * confidence_factor)%Q.

End BaseStrategy.

Module TPlusOneStrategy.

Definition name : string := "T+1时空折叠策略".

(** [_early_morning_strategy]: the keyword arguments are evaluated in the
    order written (the clock is read for [timestamp]), then the constructor
    validates. *)
Definition _early_morning_strategy (market_data : MarketData.t)
    (config : AnalysisConfig.t) : M (option TradingSignal.t) :=
  if float_lt (MarketData.change_pct market_data) (-2)
  then
    timestamp <- io datetime_now ;;
    signal <- lift (TradingSignal.new
      (TradingSignal.mk
         (MarketData.symbol market_data)
         (MarketData.name market_data)
         (MarketData.sector market_data)
         SELL
         85
         (MarketData.price market_data)
         [Lit "竞价低开+缩量，主力出货迹象"]
         timestamp
         [ [Lit "早盘竞价策略：收割者模式，只卖不买"];
           [Lit "竞价低开超过2%，可能存在重大利空"];
           [Lit "成交量萎缩，主力出货迹象明显"] ]
         Dict.empty
         LOW
         0
         [Lit "立即执行，无需等待"]
         [Lit "不适用"]
         [Lit "早盘竞价阶段，风险较高"])) ;;
    ret (Some signal)
  else ret None.

(** [_intraday_trading_strategy].  The position size is computed from a
    throw-away [TradingSignal] built positionally with empty strings and
    price 0. *)
Definition _intraday_trading_strategy (market_data : MarketData.t)
    (config : AnalysisConfig.t) : M (option TradingSignal.t) :=
  if float_gt (MarketData.change_pct market_data) 3
     && float_gt (float (MarketData.volume market_data))
                 (MarketData.additional market_data "avg_volume" 0 * (3 # 2))
  then
    timestamp <- io datetime_now ;;
    ratio <- lift (truediv (float (MarketData.volume market_data))
                           (MarketData.additional market_data "avg_volume" 1)) ;;
    timestamp' <- io datetime_now ;;
    probe <- lift (TradingSignal.positional EmptyString EmptyString EmptyString
                     HOLD 75 0 [] timestamp') ;;
    signal <- lift (TradingSignal.new
      (TradingSignal.mk
         (MarketData.symbol market_data)
         (MarketData.name market_data)
         (MarketData.sector market_data)
         HOLD
         75
         (MarketData.price market_data)
         [Lit "盘中放量上涨，保持观望"]
         timestamp
         [ [Lit "盘中趋势守门员模式"];
           [Lit "涨幅达到"; Fmt ".1f" (MarketData.change_pct market_data);
            Lit "%，超出正常范围"];
           [Lit "成交量放大"; Fmt ".1f" ratio; Lit "倍"] ]
         Dict.empty
         MEDIUM
         (BaseStrategy._calculate_position_size probe config)
         [Lit "跌破"; Fmt ".2f" (MarketData.price market_data * (97 # 100));
          Lit "元止损"]
         [Lit "涨幅达到"; Fmt ".2f" (MarketData.price market_data * (105 # 100));
          Lit "元考虑减仓"]
         [Lit "盘中交易时段，流动性较好"])) ;;
    ret (Some signal)
  else ret None.

(** [_late_afternoon_strategy] *)
Definition _late_afternoon_strategy (market_data : MarketData.t)
    (config : AnalysisConfig.t) : M (option TradingSignal.t) :=
  if float_lt (MarketData.change_pct market_data) (-2)
  then
    timestamp <- io datetime_now ;;
    timestamp' <- io datetime_now ;;
    probe <- lift (TradingSignal.positional EmptyString EmptyString EmptyString
                     BUY 82 0 [] timestamp') ;;
    signal <- lift (TradingSignal.new
      (TradingSignal.mk
         (MarketData.symbol market_data)
         (MarketData.name market_data)
         (MarketData.sector market_data)
         BUY
         82
         (MarketData.price market_data)
         [Lit "首阴反包模式，大盘跌它不跌"]
         timestamp
         [ [Lit "尾盘黄金30分钟策略"];
           [Lit "收盘前跌幅"; Fmt ".1f" (MarketData.change_pct market_data);
            Lit "%，存在反弹机会"];
           [Lit "T+1策略，明天才能卖出，风险相对可控"] ]
         [ ("乐观", [Lit "+"; Fmt ".2f" (MarketData.price market_data * (108 # 100));
                     Lit "元 (+8%)"]);
           ("中性", [Lit "+"; Fmt ".2f" (MarketData.price market_data * (105 # 100));
                     Lit "元 (+5%)"]);
           ("保守", [Lit "+"; Fmt ".2f" (MarketData.price market_data * (102 # 100));
                     Lit "元 (+2%)"]) ]
         MEDIUM
         (BaseStrategy._calculate_position_size probe config)
         [Lit "跌破"; Fmt ".2f" (MarketData.price market_data * (95 # 100));
          Lit "元止损"]
         [Lit "涨幅达到"; Fmt ".2f" (MarketData.price market_data * (110 # 100));
          Lit "元止盈"]
         [Lit "尾盘交易时段，适合低风险布局"])) ;;
    ret (Some signal)
  else ret None.

(** [analyze_market_data]: the clock decides the branch. *)
Definition analyze_market_data (market_data : MarketData.t)
    (config : AnalysisConfig.t) : M (option TradingSignal.t) :=
  current_time <- io datetime_now ;;
  let time_slot := BaseStrategy._get_time_slot current_time in
  if String.eqb time_slot "non_trading" then ret None
  else if String.eqb time_slot "non_trading" then ret None
  else if String.eqb time_slot "early_morning"
  then _early_morning_strategy market_data config
  else if existsb (String.eqb time_slot) ["morning_session"; "afternoon_session"]
  then _intraday_trading_strategy market_data config
  else if String.eqb time_slot "late_afternoon"
  then _late_afternoon_strategy market_data config
  else ret None.

(** [should_enter_position] *)
Definition should_enter_position (signal : TradingSignal.t)
    (portfolio : Portfolio.t) : M bool :=
  if negb (SignalAction_eqb (TradingSignal.action signal) BUY) then ret false
  else
    let max_position_value :=
      (Portfolio.cash portfolio * TradingSignal.position_size_pct signal)%Q in
    if float_lt max_position_value (TradingSignal.price signal * 100) then ret false
    else if Dict.mem (Portfolio.positions portfolio) (TradingSignal.symbol signal)
    then ret false
    else ret true.

(** [should_exit_position] *)
Definition should_exit_position (symbol : string) (portfolio : Portfolio.t)
    (current_price : Q) : M (option SignalAction) :=
  match Dict.get (Portfolio.positions portfolio) symbol with
  | None => ret None
  | Some position =>
      let cost_price := Position.avg_cost position in
      ratio <- lift (truediv current_price cost_price) ;;
      let profit_pct := ((ratio - 1) * 100)%Q in
      if float_ge profit_pct 8 then ret (Some SELL)
      else if float_le profit_pct (-5) then ret (Some SELL)
      else ret None
  end.

(** [TPlusOneStrategy()] as a [TradingStrategy]. *)
Definition instance : TradingStrategy.t :=
  TradingStrategy.mk name analyze_market_data should_enter_position
    should_exit_position.

End TPlusOneStrategy.

Module MomentumStrategy.

Definition name : string := "动量策略".

(** [analyze_market_data]: as in the T+1 strategy, the position size is
    computed from a throw-away [TradingSignal] with price 0. *)
Definition analyze_market_data (market_data : MarketData.t)
    (config : AnalysisConfig.t) : M (option TradingSignal.t) :=
  if float_gt (MarketData.change_pct market_data) 5
     && float_gt (float (MarketData.volume market_data))
                 (MarketData.additional market_data "avg_volume" 0 * 2)
  then
    timestamp <- io datetime_now ;;
    ratio <- lift (truediv (float (MarketData.volume market_data))
                           (MarketData.additional market_data "avg_volume" 1)) ;;
    timestamp' <- io datetime_now ;;
    probe <- lift (TradingSignal.positional EmptyString EmptyString EmptyString
                     BUY (min 95 (MarketData.change_pct market_data)) 0 []
                     timestamp') ;;
    signal <- lift (TradingSignal.new
      (TradingSignal.mk
         (MarketData.symbol market_data)
         (MarketData.name market_data)
         (MarketData.sector market_data)
         BUY
         (min 95 (MarketData.change_pct market_data))
         (MarketData.price market_data)
         [Lit "动量爆发：涨幅"; Fmt ".1f" (MarketData.change_pct market_data);
          Lit "%，量能放大"]
         timestamp
         [ [Lit "涨幅达到"; Fmt ".1f" (MarketData.change_pct market_data);
            Lit "%，明显强于市场"];
           [Lit "成交量放大"; Fmt ".1f" ratio; Lit "倍"];
           [Lit "动量效应明显，存在继续上涨动能"] ]
         [ ("乐观", [Lit "+"; Fmt ".2f" (MarketData.price market_data * (115 # 100));
                     Lit "元 (+15%)"]);
           ("中性", [Lit "+"; Fmt ".2f" (MarketData.price market_data * (108 # 100));
                     Lit "元 (+8%)"]);
           ("保守", [Lit "+"; Fmt ".2f" (MarketData.price market_data * (103 # 100));
                     Lit "元 (+3%)"]) ]
         HIGH
         (BaseStrategy._calculate_position_size probe config * (8 # 10))
         [Lit "跌破"; Fmt ".2f" (MarketData.price market_data * (93 # 100));
          Lit "元立即止损"]
         [Lit "涨幅达到"; Fmt ".2f" (MarketData.price market_data * (112 # 100));
          Lit "元分批止盈"]
         [Lit "动量行情，波动较大"])) ;;
    ret (Some signal)
  else ret None.

(** [should_enter_position] *)
Definition should_enter_position (signal : TradingSignal.t)
    (portfolio : Portfolio.t) : M bool :=
  ret (SignalAction_eqb (TradingSignal.action signal) BUY
       && float_ge (Portfolio.cash portfolio) (TradingSignal.price signal * 100)
       && negb (Dict.mem (Portfolio.positions portfolio)
                         (TradingSignal.symbol signal))).

(** [should_exit_position] *)
Definition should_exit_position (symbol : string) (portfolio : Portfolio.t)
    (current_price : Q) : M (option SignalAction) :=
  match Dict.get (Portfolio.positions portfolio) symbol with
  | None => ret None
  | Some position =>
      let cost_price := Position.avg_cost position in
      ratio <- lift (truediv current_price cost_price) ;;
      let profit_pct := ((ratio - 1) * 100)%Q in
      if float_ge profit_pct 12 || float_le profit_pct (-8) then ret (Some SELL)
      else ret None
  end.

(** [MomentumStrategy()] as a [TradingStrategy]. *)
Definition instance : TradingStrategy.t :=
  TradingStrategy.mk name analyze_market_data should_enter_position
    should_exit_position.

End MomentumStrategy.

Module VolumeStrategy.

Definition name : string := "成交量策略".

(** [analyze_market_data]: the volume ratio is computed first, by an
    unguarded division. *)
Definition analyze_market_data (market_data : MarketData.t)
    (config : AnalysisConfig.t) : M (option TradingSignal.t) :=
  volume_ratio <- lift (truediv (float (MarketData.volume market_data))
                          (MarketData.additional market_data "avg_volume" 1)) ;;
  if float_gt volume_ratio 3
  then
    let action :=
      if float_gt (MarketData.change_pct market_data) 0 then BUY else SELL in
    timestamp <- io datetime_now ;;
    timestamp' <- io datetime_now ;;
    probe <- lift (TradingSignal.positional EmptyString EmptyString EmptyString
                     action (min 90 (volume_ratio * 10)) 0 [] timestamp') ;;
    signal <- lift (TradingSignal.new
      (TradingSignal.mk
         (MarketData.symbol market_data)
         (MarketData.name market_data)
         (MarketData.sector market_data)
         action
         (min 90 (volume_ratio * 10))
         (MarketData.price market_data)
         [Lit "量能异动：成交量放大"; Fmt ".1f" volume_ratio; Lit "倍"]
         timestamp
         [ [Lit "成交量突然放大"; Fmt ".1f" volume_ratio; Lit "倍"];
           [Lit "价格变动"; Fmt "+.1f" (MarketData.change_pct market_data);
            Lit "%，与量能匹配"];
           [Lit "可能存在重大消息或资金异动"] ]
         Dict.empty
         HIGH
         (BaseStrategy._calculate_position_size probe config * (7 # 10))
         [Lit "跌破"; Fmt ".2f" (MarketData.price market_data * (96 # 100));
          Lit "元止损"]
         [Lit "根据量价配合情况动态调整"]
         [Lit "量能异动，需谨慎观察"])) ;;
    ret (Some signal)
  else ret None.

(** [should_enter_position] *)
Definition should_enter_position (signal : TradingSignal.t)
    (portfolio : Portfolio.t) : M bool :=
  ret (float_ge (Portfolio.cash portfolio) (TradingSignal.price signal * 100)
       && negb (Dict.mem (Portfolio.positions portfolio)
                         (TradingSignal.symbol signal))).

(** [should_exit_position] *)
Definition should_exit_position (symbol : string) (portfolio : Portfolio.t)
    (current_price : Q) : M (option SignalAction) :=
  match Dict.get (Portfolio.positions portfolio) symbol with
  | None => ret None
  | Some position =>
      let cost_price := Position.avg_cost position in
      ratio <- lift (truediv current_price cost_price) ;;
      let profit_pct := ((ratio - 1) * 100)%Q in
      if float_ge profit_pct 15 || float_le profit_pct (-10) then ret (Some SELL)
      else ret None
  end.

(** [VolumeStrategy()] as a [TradingStrategy]. *)
Definition instance : TradingStrategy.t :=
  TradingStrategy.mk name analyze_market_data should_enter_position
    should_exit_position.

End VolumeStrategy.

Module SentimentStrategy.

Definition name : string := "情绪策略".

(** [analyze_market_data]: the sentiment score is a draw of the random
    generator. *)
Definition analyze_market_data (market_data : MarketData.t)
    (config : AnalysisConfig.t) : M (option TradingSignal.t) :=
  sentiment_score <- io (random_uniform 0 100) ;;
  if float_gt sentiment_score 80
     && float_gt (MarketData.change_pct market_data) 1
  then
    timestamp <- io datetime_now ;;
    timestamp' <- io datetime_now ;;
    probe <- lift (TradingSignal.positional EmptyString EmptyString EmptyString
                     BUY (sentiment_score * (9 # 10)) 0 [] timestamp') ;;
    signal <- lift (TradingSignal.new
      (TradingSignal.mk
         (MarketData.symbol market_data)
         (MarketData.name market_data)
         (MarketData.sector market_data)
         BUY
         (sentiment_score * (9 # 10))
         (MarketData.price market_data)
         [Lit "市场情绪乐观，适合布局"]
         timestamp
         [ [Lit "市场情绪分数："; Fmt ".1f" sentiment_score];
           [Lit "个股表现稳健："; Fmt "+.1f" (MarketData.change_pct market_data);
            Lit "%"];
           [Lit "情绪策略：顺势而为"] ]
         Dict.empty
         MEDIUM
         (BaseStrategy._calculate_position_size probe config)
         [Lit "跌破"; Fmt ".2f" (MarketData.price market_data * (98 # 100));
          Lit "元止损"]
         [Lit "根据市场情绪变化调整"]
         [Lit "市场情绪乐观，风险偏好较高"])) ;;
    ret (Some signal)
  else ret None.

(** [should_enter_position] *)
Definition should_enter_position (signal : TradingSignal.t)
    (portfolio : Portfolio.t) : M bool :=
  ret (float_ge (Portfolio.cash portfolio) (TradingSignal.price signal * 100)
       && negb (Dict.mem (Portfolio.positions portfolio)
                         (TradingSignal.symbol signal))).

(** [should_exit_position]: a held symbol is sold on a draw below 0.1. *)
Definition should_exit_position (symbol : string) (portfolio : Portfolio.t)
    (current_price : Q) : M (option SignalAction) :=
  if negb (Dict.mem (Portfolio.positions portfolio) symbol) then ret None
  else
    draw <- io random_random ;;
    if float_lt draw (1 # 10) then ret (Some SELL) else ret None.

(** [SentimentStrategy()] as a [TradingStrategy]. *)
Definition instance : TradingStrategy.t :=
  TradingStrategy.mk name analyze_market_data should_enter_position
    should_exit_position.

End SentimentStrategy.

Module StrategyFactory.

(** [strategy_name.lower()] on the bytes of the name: the letters A..Z are
    mapped to a..z, every other byte is kept.  (Python lowers other letters
    as well; the only character outside ASCII whose lower case is an ASCII
    letter is the Kelvin sign, which gives k, and no key below has a k, so
    the lookup finds the same entry.) *)
Definition lower_byte (c : ascii) : ascii :=
  let n := nat_of_ascii c in
  if ((65 <=? n) && (n <=? 90))%nat then ascii_of_nat (n + 32) else c.

Fixpoint lower (s : string) : string :=
  match s with
  | EmptyString => EmptyString
  | String c rest => String (lower_byte c) (lower rest)
  end.

(** The dict of [create_strategy]; a class is given by the instance its
    call creates. *)
Definition strategies : Dict.t TradingStrategy.t :=
  [ ("t_plus_one", TPlusOneStrategy.instance);
    ("momentum", MomentumStrategy.instance);
    ("volume", VolumeStrategy.instance);
    ("sentiment", SentimentStrategy.instance) ].

(** [create_strategy(strategy_name)] *)
Definition create_strategy (strategy_name : string) : Result TradingStrategy.t :=
  match Dict.get strategies (lower strategy_name) with
  | None => Raise (ValueError ("未知策略: " ++ strategy_name))
  | Some strategy => Ok strategy
  end.

(** [create_all_strategies()] *)
Definition create_all_strategies : list TradingStrategy.t :=
  [ TPlusOneStrategy.instance; MomentumStrategy.instance;
    VolumeStrategy.instance; SentimentStrategy.instance ].

End StrategyFactory.

(* ====================================================================== *)
(** * core.py: the collaborators (Protocols) *)
(* ====================================================================== *)

Module MarketDataProvider.

Record t : Type := mk {
  get_sector_stocks : string -> M (list MarketData.t)
}.

End MarketDataProvider.

Module SignalNotifier.

Record t : Type := mk {
  notify_signal : TradingSignal.t -> M unit
}.

End SignalNotifier.

(* ====================================================================== *)
(** * domain/services/bull_market_analyzer.py *)
(* ====================================================================== *)

Module BullMarketAnalyzer.

Record t : Type := mk {
  config : AnalysisConfig.t;
  strategies : list TradingStrategy.t;
  data_provider : option MarketDataProvider.t;
  notifier : option SignalNotifier.t
}.

(** The loop of [analyze_single_stock]: the first strategy that returns a
    signal wins. *)
Fixpoint try_strategies (strategies : list TradingStrategy.t)
    (market_data : MarketData.t) (config : AnalysisConfig.t)
    : M (option TradingSignal.t) :=
  match strategies with
  | [] => ret None
  | strategy :: rest =>
      signal <- TradingStrategy.analyze_market_data strategy market_data config ;;
      match signal with
      | Some s => ret (Some s)
      | None => try_strategies rest market_data config
      end
  end.

(** [analyze_single_stock(market_data)] *)
Definition analyze_single_stock (self : t) (market_data : MarketData.t)
    : M (option TradingSignal.t) :=
  match strategies self with
  | [] => ret None
  | _ => try_strategies (strategies self) market_data (config self)
  end.

(** The inner loop of [scan_market] over one sector's stocks, inside the
    [try]: a signal is appended as soon as it is produced; an exception ends
    the sector and keeps what was appended. *)
Fixpoint scan_stocks (self : t) (sector_data : list MarketData.t)
    (signals : list TradingSignal.t) (w : World)
    : list TradingSignal.t * World :=
  match sector_data with
  | [] => (signals, w)
  | market_data :: rest =>
      match analyze_single_stock self market_data w with
      | (Raise _, w') => (signals, w')
      | (Ok None, w') => scan_stocks self rest signals w'
      | (Ok (Some signal), w') => scan_stocks self rest (signals ++ [signal]) w'
      end
  end.

(** The loop of [scan_market] over the configured sectors. *)
Fixpoint scan_sectors (self : t) (provider : MarketDataProvider.t)
    (sectors : list string) (signals : list TradingSignal.t) (w : World)
    : list TradingSignal.t * World :=
  match sectors with
  | [] => (signals, w)
  | sector :: rest =>
      match MarketDataProvider.get_sector_stocks provider sector w with
      | (Raise _, w') => scan_sectors self provider rest signals w'
      | (Ok sector_data, w') =>
          let '(signals', w'') := scan_stocks self sector_data signals w' in
          scan_sectors self provider rest signals' w''
      end
  end.

(** [for signal in filtered_signals: self.notifier.notify_signal(signal)] *)
Fixpoint notify_all (notifier : SignalNotifier.t)
    (signals : list TradingSignal.t) : M unit :=
  match signals with
  | [] => ret tt
  | signal :: rest =>
      SignalNotifier.notify_signal notifier signal ;;;
      notify_all notifier rest
  end.

(** [scan_market()] *)
Definition scan_market (self : t) : M (list TradingSignal.t) :=
  match data_provider self with
  | None => ret []
  | Some provider =>
      fun w =>
        let '(signals, w1) :=
          scan_sectors self provider (AnalysisConfig.sectors (config self)) [] w in
        let filtered_signals :=
          filter (fun s => float_ge (TradingSignal.confidence s)
                             (AnalysisConfig.confidence_threshold (config self)))
                 signals in
        match notifier self with
        | Some notifier =>
            (notify_all notifier filtered_signals ;;; ret filtered_signals) w1
        | None => (Ok filtered_signals, w1)
        end
  end.

(** [assess_risk(portfolio, signals)]: fixed figures. *)
Definition assess_risk (self : t) (portfolio : Portfolio.t)
    (signals : list TradingSignal.t) : RiskMetrics.t :=
  RiskMetrics.mk (5 # 100) (15 # 10) 0 (65 # 100) 0 0 0 0 0.

(** The loop of [_analyze_sector_sequential]; an exception of a strategy is
    not caught here. *)
Fixpoint sequential_loop (self : t) (sector_data : list MarketData.t)
    (signals : list TradingSignal.t) : M (list TradingSignal.t) :=
  match sector_data with
  | [] => ret signals
  | market_data :: rest =>
      signal <- analyze_single_stock self market_data ;;
      match signal with
      | Some s => sequential_loop self rest (signals ++ [s])
      | None => sequential_loop self rest signals
      end
  end.

(** [_analyze_sector_sequential(sector_data)] *)
Definition _analyze_sector_sequential (self : t) (sector_data : list MarketData.t)
    : M (list TradingSignal.t) :=
  sequential_loop self sector_data [].

Section Cache.

(** The cached data are of any type; [timestamp] is [datetime.timestamp()],
    the conversion of a local time to seconds since the epoch. *)
Variable A : Type.
Variable timestamp : datetime -> Q.

(** The two dicts [self._cache] and [self._cache_timestamps]. *)
Record cache : Type := mk_cache {
  _cache : Dict.t A;
  _cache_timestamps : Dict.t Q
}.

(** The second half of [_get_cached_data]: the provider is called and,
    with caching enabled, its data and the time are stored. *)
Definition fetch (self : t) (store : cache) (cache_key : string)
    (data_provider : M A) (w : World) : Result A * cache * World :=
  match data_provider w with
  | (Raise e, w1) => (Raise e, store, w1)
  | (Ok data, w1) =>
      if AnalysisConfig.enable_caching (config self)
      then
        let '(now, w2) := datetime_now w1 in
        (Ok data,
         mk_cache (Dict.set (_cache store) cache_key data)
                  (Dict.set (_cache_timestamps store) cache_key (timestamp now)),
         w2)
      else (Ok data, store, w1)
  end.

(** [_get_cached_data(cache_key, data_provider, ttl)]: the outcome, the two
    dicts as the call leaves them, and the world.  The clock is read for
    the age of an entry only when the key is cached. *)
Definition _get_cached_data (self : t) (store : cache) (cache_key : string)
    (data_provider : M A) (ttl : Q) (w : World) : Result A * cache * World :=
  if AnalysisConfig.enable_caching (config self)
  then
    match Dict.get (_cache store) cache_key with
    | Some cached =>
        let '(now, w1) := datetime_now w in
        let stamp :=
          match Dict.get (_cache_timestamps store) cache_key with
          | Some stamp => stamp
          | None => 0%Q
          end in
        if float_lt (timestamp now - stamp) ttl then (Ok cached, store, w1)
        else fetch self store cache_key data_provider w1
    | None => fetch self store cache_key data_provider w
    end
  else fetch self store cache_key data_provider w.

End Cache.

End BullMarketAnalyzer.

(* ====================================================================== *)
(** * application/use_cases/scan_market_use_case.py *)
(* ====================================================================== *)

Module ScanMarketUseCase.

Record t : Type := mk {
  analyzer : BullMarketAnalyzer.t
}.

(** [f"{signal.symbol}_{signal.action.value}"] *)
Definition key (signal : TradingSignal.t) : string :=
  TradingSignal.symbol signal ++ "_" ++ SignalAction_value (TradingSignal.action signal).

(** The body of the deduplication loop: a signal is stored under its key
    unless the key is present already. *)
Definition remember (unique_signals : Dict.t TradingSignal.t)
    (signal : TradingSignal.t) : Dict.t TradingSignal.t :=
  if negb (Dict.mem unique_signals (key signal))
  then Dict.set unique_signals (key signal) signal
  else unique_signals.

(** [_process_signals(signals)]: sort by confidence, descending; then keep,
    per key, the first signal met. *)
Definition _process_signals (signals : list TradingSignal.t)
    : list TradingSignal.t :=
  let sorted_signals := sorted_reverse TradingSignal.confidence signals in
  let unique_signals := fold_left remember sorted_signals Dict.empty in
  Dict.values unique_signals.

(** [execute()] *)
Definition execute (self : t) : M (list TradingSignal.t) :=
  try_except
    (signals <- BullMarketAnalyzer.scan_market (analyzer self) ;;
     ret (_process_signals signals))
    (fun _ => ret []).

(** The analyzer after [self.analyzer.config = config]. *)
Definition with_config (self : t) (config : AnalysisConfig.t) : t :=
  mk (BullMarketAnalyzer.mk config
        (BullMarketAnalyzer.strategies (analyzer self))
        (BullMarketAnalyzer.data_provider (analyzer self))
        (BullMarketAnalyzer.notifier (analyzer self))).

(** [sectors or original_config.sectors]: [None] and the empty list are
    false. *)
Definition sectors_or (sectors : option (list string)) (original : list string)
    : list string :=
  match sectors with
  | Some (sector :: rest) => sector :: rest
  | _ => original
  end.

(** [confidence_threshold or original_config.confidence_threshold]: [None]
    and zero are false. *)
Definition threshold_or (confidence_threshold : option Q) (original : Q) : Q :=
  match confidence_threshold with
  | Some threshold => if Qeq_bool threshold 0 then original else threshold
  | None => original
  end.

(** [execute_with_options(sectors, confidence_threshold)]: the outcome, the
    use case (with its analyzer) as the call leaves it, and the world.  The
    [try] has no [except]: an exception of the constructor of the temporary
    configuration leaves the method, after the [finally]. *)
Definition execute_with_options (self : t) (sectors : option (list string))
    (confidence_threshold : option Q) (w : World)
    : Result (list TradingSignal.t) * t * World :=
  let original_config := BullMarketAnalyzer.config (analyzer self) in
  let wanted :=
    match sectors, confidence_threshold with
    | Some (_ :: _), _ => true
    | _, Some _ => true
    | _, None => false
    end in
  if wanted
  then
    match AnalysisConfig.new
            (AnalysisConfig.mk
               (sectors_or sectors (AnalysisConfig.sectors original_config))
               (threshold_or confidence_threshold
                  (AnalysisConfig.confidence_threshold original_config))
               (AnalysisConfig.max_position_size original_config)
               (AnalysisConfig.enable_parallel original_config)
               (AnalysisConfig.max_workers original_config)
               (AnalysisConfig.analysis_timeout original_config)
               (AnalysisConfig.enable_caching original_config)
               (AnalysisConfig.cache_ttl original_config)) with
    | Raise e => (Raise e, with_config self original_config, w)
    | Ok temp_config =>
        let self1 := with_config self temp_config in
        let '(outcome, w1) := execute self1 w in
        (outcome, with_config self1 original_config, w1)
    end
  else
    let '(outcome, w1) := execute self w in
    (outcome, with_config self original_config, w1).

End ScanMarketUseCase.

(* ====================================================================== *)
(** * domain/value_objects.py: BacktestResult *)
(* ====================================================================== *)

(** The dict [daily_result] that [_process_trading_day] builds. *)
Module DailyResult.

Record t : Type := mk {
  date : datetime;                       (* rendered with [strftime('%Y-%m-%d')] *)
  signals_count : Z;
  trades_executed : list TradeRecord.t;
  capital_before : Q;
  capital_after : Q;
  positions_count : Z
}.

End DailyResult.

(** [@dataclass(frozen=True) class BacktestResult].  The lists it holds are
    ordinary mutable lists; the fields themselves cannot be assigned. *)
Module BacktestResult.

Record t : Type := mk {
  config : AnalysisConfig.t;
  start_date : datetime;
  end_date : datetime;
  trading_days : Z;
  total_signals : Z;
  executed_trades : Z;
  trade_records : list TradeRecord.t;
  daily_results : list DailyResult.t;
  performance_analysis : Dict.t Q;
  risk_metrics : RiskMetrics.t;
  final_portfolio_value : Q
}.

(** [BacktestResult(config=..., start_date=..., end_date=..., trading_days=...,
    total_signals=..., executed_trades=...)], the other fields at their
    defaults. *)
Definition new (config : AnalysisConfig.t) (start_date end_date : datetime)
    (trading_days total_signals executed_trades : Z) : t :=
  mk config start_date end_date trading_days total_signals executed_trades
     [] [] Dict.empty RiskMetrics.default 100000.

(** [total_return_pct] *)
Definition total_return_pct (self : t) : Q :=
  ((final_portfolio_value self / 100000 - 1) * 100)%Q.

(** [is_profitable] *)
Definition is_profitable (self : t) : bool :=
  float_gt (final_portfolio_value self) 100000.

(** [performance_score]; [win_rate] is
    [self.performance_analysis.get('win_rate', 0)]. *)
Definition performance_score (self : t) : Q :=
  let score := 50%Q in
  let score :=
    if float_gt (total_return_pct self) 20 then (score + 20)%Q
    else if float_gt (total_return_pct self) 10 then (score + 10)%Q
    else if float_lt (total_return_pct self) (-10) then (score - 20)%Q
    else if float_lt (total_return_pct self) 0 then (score - 10)%Q
    else score in
  let win_rate :=
    match Dict.get (performance_analysis self) "win_rate" with
    | Some win_rate => win_rate
    | None => 0%Q
    end in
  let score :=
    if float_gt win_rate (7 # 10) then (score + 15)%Q
    else if float_gt win_rate (6 # 10) then (score + 10)%Q
    else if float_lt win_rate (4 # 10) then (score - 15)%Q
    else score in
  let risk_score := RiskMetrics.risk_score (risk_metrics self) in
  let score := (score + (risk_score - 50) * (3 # 10))%Q in
  max 0 (min 100 score).

(** What an attribute of the object may hold. *)
Inductive value : Type :=
| VConfig (c : AnalysisConfig.t)
| VDatetime (d : datetime)
| VInt (n : Z)
| VFloat (x : Q)
| VTrades (l : list TradeRecord.t)
| VDaily (l : list DailyResult.t)
| VDict (d : Dict.t Q)
| VRisk (r : RiskMetrics.t)
| VPortfolio (p : Portfolio.t).

(** [result.<attr>] for a data attribute: the eleven declared fields, and
    [AttributeError] for any other name.  (The four properties
    [total_return_pct], [annualized_return], [is_profitable] and
    [performance_score] are not read by the engine and are not listed.) *)
Definition getattr (self : t) (attr : string) : Result value :=
  if String.eqb attr "config" then Ok (VConfig (config self))
  else if String.eqb attr "start_date" then Ok (VDatetime (start_date self))
  else if String.eqb attr "end_date" then Ok (VDatetime (end_date self))
  else if String.eqb attr "trading_days" then Ok (VInt (trading_days self))
  else if String.eqb attr "total_signals" then Ok (VInt (total_signals self))
  else if String.eqb attr "executed_trades" then Ok (VInt (executed_trades self))
  else if String.eqb attr "trade_records" then Ok (VTrades (trade_records self))
  else if String.eqb attr "daily_results" then Ok (VDaily (daily_results self))
  else if String.eqb attr "performance_analysis"
  then Ok (VDict (performance_analysis self))
  else if String.eqb attr "risk_metrics" then Ok (VRisk (risk_metrics self))
  else if String.eqb attr "final_portfolio_value"
  then Ok (VFloat (final_portfolio_value self))
  else Raise (AttributeError attr).

(** [<value>.cash] *)
Definition value_cash (v : value) : Result Q :=
  match v with
  | VPortfolio p => Ok (Portfolio.cash p)
  | _ => Raise (AttributeError "cash")
  end.

(** [result.<attr> = v]: the [__setattr__] of a frozen dataclass refuses
    every assignment. *)
Definition setattr (self : t) (attr : string) (v : value) : Result t :=
  Raise (FrozenInstanceError attr).

(** [result.trade_records.append(trade_record)]: the list object is
    mutated, which the frozen dataclass does not prevent. *)
Definition append_trade_record (self : t) (trade_record : TradeRecord.t) : t :=
  mk (config self) (start_date self) (end_date self) (trading_days self)
     (total_signals self) (executed_trades self)
     (trade_records self ++ [trade_record]) (daily_results self)
     (performance_analysis self) (risk_metrics self) (final_portfolio_value self).

End BacktestResult.

Module PortfolioRepository.

Record t : Type := mk {
  save_backtest_result : BacktestResult.t -> M unit
}.

End PortfolioRepository.

(* ====================================================================== *)
(** * backtesting.py: PerformanceAnalyzer *)
(* ====================================================================== *)

Module PerformanceAnalyzer.

(** ** The list objects the analyzer is handed and the ones it builds

    The analyzer receives references to two list objects of its caller and
    builds lists of its own.  A heap holds the list objects; a reference is
    the position of an object in the heap.  A list display or comprehension
    allocates a new object; [append] changes an object in place. *)

Inductive object : Type :=
| Floats (items : list Q)
| Trades (items : list TradeRecord.t).

Definition Heap : Type := list object.
Definition ref : Type := nat.

Definition floats_at (h : Heap) (r : ref) : list Q :=
  match nth_error h r with
  | Some (Floats items) => items
  | _ => []
  end.

Definition trades_at (h : Heap) (r : ref) : list TradeRecord.t :=
  match nth_error h r with
  | Some (Trades items) => items
  | _ => []
  end.

Definition alloc (o : object) (h : Heap) : ref * Heap :=
  (List.length h, (h ++ [o])%list).

Fixpoint update (h : Heap) (r : ref) (o : object) : Heap :=
  match h, r with
  | [], _ => []
  | _ :: rest, O => o :: rest
  | first :: rest, S r' => first :: update rest r' o
  end.

(** [r.append(x)] on a list of floats *)
Definition append (r : ref) (x : Q) (h : Heap) : Heap :=
  match nth_error h r with
  | Some (Floats items) => update h r (Floats (items ++ [x]))
  | _ => h
  end.

(** [h'] is [h] with more objects: the objects of [h] are where they were
    and as they were. *)
Definition extends (h h' : Heap) : Prop :=
  (List.length h <= List.length h')%nat /\
  forall r, (r < List.length h)%nat -> nth_error h' r = nth_error h r.

Section Analyzer.

(** [x ** 0.5] on floats: a square root, which no rational function gives;
    the analyzer is defined for any such operation. *)
Variable pow_half : Q -> Q.

Definition len {A} (l : list A) : Q := float (Z.of_nat (List.length l)).

Definition nonempty {A} (l : list A) : bool :=
  match l with [] => false | _ => true end.

(** [t.action in [SignalAction.SELL]], [t.profit_loss > 0],
    [t.profit_loss < 0] *)
Definition is_closed (t : TradeRecord.t) : bool :=
  existsb (SignalAction_eqb (TradeRecord.action t)) [SELL].
Definition is_profit (t : TradeRecord.t) : bool :=
  float_gt (TradeRecord.profit_loss t) 0.
Definition is_loss (t : TradeRecord.t) : bool :=
  float_lt (TradeRecord.profit_loss t) 0.

(** The dict returned for an empty trade list. *)
Definition no_trades : Dict.t Q :=
  [ ("total_return", 0%Q); ("total_return_pct", 0%Q); ("win_rate", 0%Q);
    ("total_trades", 0%Q); ("profitable_trades", 0%Q); ("losing_trades", 0%Q);
    ("avg_hold_days", 0%Q); ("max_profit", 0%Q); ("max_loss", 0%Q);
    ("avg_profit_per_trade", 0%Q) ].

(** The figures of [analyze_performance], from the lists it has built
    ([closed_trades], [profitable_trades], [losing_trades], [profits]) and
    the quotient [final_capital / initial_capital]; the dict has its keys in
    the order written. *)
Definition performance (closed_trades profitable_trades losing_trades
    : list TradeRecord.t) (profits : list Q) (capital_ratio : Q) : Dict.t Q :=
  let win_rate :=
    if nonempty closed_trades
    then (len profitable_trades / len closed_trades * 100)%Q else 0%Q in
  let total_return := sum (map TradeRecord.profit_loss closed_trades) in
  let total_return_pct := ((capital_ratio - 1) * 100)%Q in
  let avg_hold_days :=
    if nonempty closed_trades
    then (sum (map (fun t => float (TradeRecord.hold_days t)) closed_trades)
          / len closed_trades)%Q
    else 0%Q in
  let max_profit := match profits with [] => 0%Q | x :: xs => max_of x xs end in
  let max_loss := match profits with [] => 0%Q | x :: xs => min_of x xs end in
  [ ("total_return", total_return);
    ("total_return_pct", total_return_pct);
    ("win_rate", win_rate);
    ("total_trades", len closed_trades);
    ("profitable_trades", len profitable_trades);
    ("losing_trades", len losing_trades);
    ("avg_hold_days", avg_hold_days);
    ("max_profit", max_profit);
    ("max_loss", max_loss);
    ("avg_profit_per_trade",
     if nonempty closed_trades
     then (total_return / len closed_trades)%Q else 0%Q) ].

(** [analyze_performance(trade_records, initial_capital, final_capital)]:
    three comprehensions allocate [closed_trades], [profitable_trades] and
    [losing_trades]; after the division, a fourth allocates [profits]. *)
Definition analyze_performance (trade_records : ref)
    (initial_capital final_capital : Q) (h : Heap) : Result (Dict.t Q) * Heap :=
  if negb (nonempty (trades_at h trade_records)) then (Ok no_trades, h)
  else
    let '(closed_trades, h1) :=
      alloc (Trades (filter is_closed (trades_at h trade_records))) h in
    let '(profitable_trades, h2) :=
      alloc (Trades (filter is_profit (trades_at h1 closed_trades))) h1 in
    let '(losing_trades, h3) :=
      alloc (Trades (filter is_loss (trades_at h2 closed_trades))) h2 in
    match truediv final_capital initial_capital with
    | Raise e => (Raise e, h3)
    | Ok capital_ratio =>
        let '(profits, h4) :=
          alloc (Floats (map TradeRecord.profit_loss (trades_at h3 closed_trades)))
                h3 in
        (Ok (performance (trades_at h4 closed_trades)
               (trades_at h4 profitable_trades) (trades_at h4 losing_trades)
               (floats_at h4 profits) capital_ratio),
         h4)
    end.

(** The same figures as a function of the contents of the trade list. *)
Definition analyze_performance_on (trade_records : list TradeRecord.t)
    (initial_capital final_capital : Q) : Result (Dict.t Q) :=
  if negb (nonempty trade_records) then Ok no_trades
  else
    let closed_trades := filter is_closed trade_records in
    match truediv final_capital initial_capital with
    | Raise e => Raise e
    | Ok capital_ratio =>
        Ok (performance closed_trades (filter is_profit closed_trades)
              (filter is_loss closed_trades)
              (map TradeRecord.profit_loss closed_trades) capital_ratio)
    end.

(** The drawdown loop: [for value in capital_values: ...], carrying
    [(max_drawdown, peak)]; it writes nothing. *)
Fixpoint drawdown_loop (values : list Q) (max_drawdown peak : Q) : Result Q :=
  match values with
  | [] => Ok max_drawdown
  | value :: rest =>
      let peak := if float_gt value peak then value else peak in
      match truediv (peak - value) peak with
      | Raise e => Raise e
      | Ok d =>
          let drawdown := (d * 100)%Q in
          drawdown_loop rest (max max_drawdown drawdown) peak
      end
  end.

(** The returns loop: [for i in range(1, len(capital_values)): ...]; each
    turn reads [capital_values[i]] and [capital_values[i-1]] and appends to
    [returns]. *)
Fixpoint returns_loop (capital_values returns : ref) (indices : list nat)
    (h : Heap) : Result unit * Heap :=
  match indices with
  | [] => (Ok tt, h)
  | i :: rest =>
      match nth_error (floats_at h capital_values) i,
            nth_error (floats_at h capital_values) (i - 1) with
      | Some current, Some previous =>
          match truediv (current - previous) previous with
          | Raise e => (Raise e, h)
          | Ok daily_return =>
              returns_loop capital_values returns rest
                (append returns daily_return h)
          end
      | _, _ => (Raise IndexError, h)
      end
  end.

(** The same loop on the contents of the capital list, carrying the
    returns computed so far. *)
Fixpoint returns_loop_on (capital_values : list Q) (indices : list nat)
    (returns : list Q) : Result (list Q) :=
  match indices with
  | [] => Ok returns
  | i :: rest =>
      match nth_error capital_values i, nth_error capital_values (i - 1) with
      | Some current, Some previous =>
          match truediv (current - previous) previous with
          | Raise e => Raise e
          | Ok daily_return =>
              returns_loop_on capital_values rest (returns ++ [daily_return])
          end
      | _, _ => Raise IndexError
      end
  end.

(** [range(1, n)] *)
Definition range_from_1 (n : nat) : list nat := seq 1 (n - 1).

(** [(volatility, sharpe_ratio)] from the list of returns. *)
Definition volatility_sharpe (returns : list Q) : Result (Q * Q) :=
  if nonempty returns
  then
    let avg_return := (sum returns / len returns)%Q in
    if float_gt (len returns) 1
    then
      let variance :=
        (sum (map (fun r => (r - avg_return) * (r - avg_return)) returns)
         / (len returns - 1))%Q in
      let volatility := (pow_half variance * 100)%Q in
      let risk_free_rate := ((3 # 100) / 252)%Q in
      if float_gt variance 0
      then
        match truediv (avg_return - risk_free_rate) (pow_half variance) with
        | Raise e => Raise e
        | Ok x => Ok (volatility, (x * pow_half 252)%Q)
        end
      else Ok (volatility, 0%Q)
    else Ok (0%Q, 0%Q)
  else Ok (0%Q, 0%Q).

(** The streak loop, carrying [(max_consecutive_losses, current_losses)]. *)
Fixpoint losses_loop (closed_trades : list TradeRecord.t)
    (max_consecutive_losses current_losses : Z) : Z :=
  match closed_trades with
  | [] => max_consecutive_losses
  | trade :: rest =>
      if float_lt (TradeRecord.profit_loss trade) 0
      then
        let current_losses := current_losses + 1 in
        losses_loop rest (Z.max max_consecutive_losses current_losses)
          current_losses
      else losses_loop rest max_consecutive_losses 0
  end.

(** The [RiskMetrics] of [calculate_risk_metrics], from the numbers and
    lists computed on the way. *)
Definition risk_metrics (max_drawdown volatility sharpe_ratio win_rate : Q)
    (returns : list Q) (closed_trades : list TradeRecord.t)
    (profits losses : list Q) : RiskMetrics.t :=
  let profit_loss_ratio :=
    if nonempty losses
    then
      let avg_profit :=
        if nonempty profits then (sum profits / len profits)%Q else 0%Q in
      let avg_loss := (sum losses / len losses)%Q in
      if float_gt avg_loss 0 then (avg_profit / avg_loss)%Q else 0%Q
    else 0%Q in
  let max_consecutive_losses := losses_loop closed_trades 0 0 in
  let recovery_factor :=
    if float_gt max_drawdown 0
    then (abs (sum (map TradeRecord.profit_loss closed_trades)) / max_drawdown)%Q
    else 0%Q in
  let calmar_ratio :=
    if float_gt max_drawdown 0
    then ((sum returns / len returns * 252) / (max_drawdown / 100))%Q
    else 0%Q in
  let sortino_ratio := sharpe_ratio in
  RiskMetrics.mk max_drawdown sharpe_ratio volatility win_rate
    profit_loss_ratio calmar_ratio sortino_ratio max_consecutive_losses
    recovery_factor.

(** [calculate_risk_metrics(trade_records, capital_values)]: [returns] is
    allocated empty and appended to; comprehensions allocate
    [closed_trades], the list of winners inside the win rate (built only
    when there are closed trades), [profits] and [losses]. *)
Definition calculate_risk_metrics (trade_records capital_values : ref)
    (h : Heap) : Result RiskMetrics.t * Heap :=
  match floats_at h capital_values with
  | [] | [_] => (Ok RiskMetrics.default, h)
  | first :: _ =>
      match drawdown_loop (floats_at h capital_values) 0 first with
      | Raise e => (Raise e, h)
      | Ok max_drawdown =>
      let '(returns, h1) := alloc (Floats []) h in
      match returns_loop capital_values returns
              (range_from_1 (List.length (floats_at h1 capital_values))) h1 with
      | (Raise e, h2) => (Raise e, h2)
      | (Ok _, h2) =>
      match volatility_sharpe (floats_at h2 returns) with
      | Raise e => (Raise e, h2)
      | Ok (volatility, sharpe_ratio) =>
      let '(closed_trades, h3) :=
        alloc (Trades (filter is_closed (trades_at h2 trade_records))) h2 in
      let '(win_rate, h4) :=
        if nonempty (trades_at h3 closed_trades)
        then
          let '(winners, h4) :=
            alloc (Trades (filter is_profit (trades_at h3 closed_trades))) h3 in
          ((len (trades_at h4 winners) / len (trades_at h4 closed_trades) * 100)%Q,
           h4)
        else (0%Q, h3) in
      let '(profits, h5) :=
        alloc (Floats (map TradeRecord.profit_loss
                         (filter is_profit (trades_at h4 closed_trades)))) h4 in
      let '(losses, h6) :=
        alloc (Floats (map (fun t => abs (TradeRecord.profit_loss t))
                         (filter is_loss (trades_at h5 closed_trades)))) h5 in
      (Ok (risk_metrics max_drawdown volatility sharpe_ratio win_rate
             (floats_at h6 returns) (trades_at h6 closed_trades)
             (floats_at h6 profits) (floats_at h6 losses)),
       h6)
      end end end
  end.

(** The same metrics as a function of the contents of the two lists. *)
Definition calculate_risk_metrics_on (trade_records : list TradeRecord.t)
    (capital_values : list Q) : Result RiskMetrics.t :=
  match capital_values with
  | [] | [_] => Ok RiskMetrics.default
  | first :: _ =>
      match drawdown_loop capital_values 0 first with
      | Raise e => Raise e
      | Ok max_drawdown =>
      match returns_loop_on capital_values
              (range_from_1 (List.length capital_values)) [] with
      | Raise e => Raise e
      | Ok returns =>
      match volatility_sharpe returns with
      | Raise e => Raise e
      | Ok (volatility, sharpe_ratio) =>
          let closed_trades := filter is_closed trade_records in
          let win_rate :=
            if nonempty closed_trades
            then (len (filter is_profit closed_trades) / len closed_trades * 100)%Q
            else 0%Q in
          Ok (risk_metrics max_drawdown volatility sharpe_ratio win_rate returns
                closed_trades
                (map TradeRecord.profit_loss (filter is_profit closed_trades))
                (map (fun t => abs (TradeRecord.profit_loss t))
                     (filter is_loss closed_trades)))
      end end end
  end.

End Analyzer.

End PerformanceAnalyzer.

(* ====================================================================== *)
(** * backtesting.py: BacktestEngine *)
(* ====================================================================== *)

Module BacktestEngine.

Section Engine.

Variable pow_half : Q -> Q.

Record t : Type := mk {
  config : AnalysisConfig.t;
  data_provider : MarketDataProvider.t;
  portfolio_repo : PortfolioRepository.t;
  strategies : list TradingStrategy.t
}.

(** [_calculate_trading_days(start_date, end_date)] *)
Definition _calculate_trading_days (start_date end_date : datetime) : Z :=
  Z.max 1 (sub_days end_date start_date).

(** [_is_trading_day(date)] *)
Definition _is_trading_day (date : datetime) : bool := weekday date <? 5.

(** [_get_historical_sector_data(sector, trade_date)]: the data provider
    is not consulted; no historical snapshot is available and the list is
    always empty. *)
Definition _get_historical_sector_data (sector : string) (trade_date : datetime)
    : list MarketData.t := [].

(** The innermost loop of [_generate_signals]: the strategies are tried in
    order on one stock, the first signal ends the loop. *)
Fixpoint first_signal (strategies : list TradingStrategy.t)
    (market_data : MarketData.t) (config : AnalysisConfig.t)
    : M (option TradingSignal.t) :=
  match strategies with
  | [] => ret None
  | strategy :: rest =>
      signal <- TradingStrategy.analyze_market_data strategy market_data config ;;
      match signal with
      | Some s => ret (Some s)
      | None => first_signal rest market_data config
      end
  end.

(** The loop over one sector's stocks, inside the [try]. *)
Fixpoint sector_signals (self : t) (sector_data : list MarketData.t)
    (signals : list TradingSignal.t) (w : World)
    : list TradingSignal.t * World :=
  match sector_data with
  | [] => (signals, w)
  | market_data :: rest =>
      match first_signal (strategies self) market_data (config self) w with
      | (Raise _, w') => (signals, w')
      | (Ok None, w') => sector_signals self rest signals w'
      | (Ok (Some signal), w') =>
          sector_signals self rest (signals ++ [signal]) w'
      end
  end.

(** The loop of [_generate_signals] over the sectors. *)
Fixpoint generate_loop (self : t) (trade_date : datetime) (sectors : list string)
    (signals : list TradingSignal.t) (w : World)
    : list TradingSignal.t * World :=
  match sectors with
  | [] => (signals, w)
  | sector :: rest =>
      let sector_data := _get_historical_sector_data sector trade_date in
      match sector_data with
      | [] => generate_loop self trade_date rest signals w
      | _ =>
          let '(signals', w') := sector_signals self sector_data signals w in
          generate_loop self trade_date rest signals' w'
      end
  end.

(** [_generate_signals(trade_date)] *)
Definition _generate_signals (self : t) (trade_date : datetime) (w : World)
    : list TradingSignal.t * World :=
  generate_loop self trade_date (AnalysisConfig.sectors (config self)) [] w.

(** The loop at the head of [_execute_trade]: the first strategy willing to
    enter. *)
Fixpoint entering_strategy (strategies : list TradingStrategy.t)
    (signal : TradingSignal.t) (portfolio : Portfolio.t)
    : M (option TradingStrategy.t) :=
  match strategies with
  | [] => ret None
  | s :: rest =>
      enter <- TradingStrategy.should_enter_position s signal portfolio ;;
      if (enter : bool) then ret (Some s)
      else entering_strategy rest signal portfolio
  end.

(** [_execute_trade(signal, portfolio, trade_date)]: the whole body is under
    [try ... except Exception: return None].  Here the purchase is a step of
    the day's flow; the quantity it buys is the subject of
    [Binary64.BacktestEngine._execute_trade]. *)
Definition _execute_trade (self : t) (signal : TradingSignal.t)
    (portfolio : Portfolio.t) (trade_date : datetime) (w : World)
    : option TradeRecord.t * Portfolio.t * World :=
  match entering_strategy (strategies self) signal portfolio w with
  | (Raise _, w1) => (None, portfolio, w1)
  | (Ok None, w1) => (None, portfolio, w1)
  | (Ok (Some strategy), w1) =>
      match truediv (Portfolio.cash portfolio * TradingSignal.position_size_pct signal)
                    (TradingSignal.price signal) with
      | Raise _ => (None, portfolio, w1)
      | Ok shares =>
          let quantity := int shares in
          if quantity <? 100 then (None, portfolio, w1)
          else
            let commission :=
              (float quantity * TradingSignal.price signal * (3 # 10000))%Q in
            let total_cost :=
              (float quantity * TradingSignal.price signal + commission)%Q in
            match Portfolio.add_position portfolio (TradingSignal.symbol signal)
                    quantity (TradingSignal.price signal) commission w1 with
            | (Raise _, portfolio', w2) => (None, portfolio', w2)
            | (Ok _, portfolio', w2) =>
                (Some (TradeRecord.mk
                         (TradingSignal.symbol signal)
                         [Lit (TradingSignal.name signal)]
                         (TradingSignal.action signal)
                         quantity
                         (TradingSignal.price signal)
                         (float quantity * TradingSignal.price signal)%Q
                         commission
                         trade_date
                         (TradingSignal.reason signal)
                         (TradingSignal.confidence signal)
                         None 0 0 1
                         [Lit "买入"; FmtInt quantity; Lit "股，成本";
                          Fmt ".2f" total_cost; Lit "元"]
                         []),
                 portfolio', w2)
            end
      end
  end.

(** [_analyze_trade_lesson(profit_pct, hold_days)] *)
Definition _analyze_trade_lesson (profit_pct : Q) (hold_days : Z) : string :=
  let lessons :=
    ([ if float_gt profit_pct 5 then "盈利交易，策略有效"
       else if float_lt profit_pct (-5) then "亏损交易，需要改进"
       else "保本交易，控制风险" ]
     ++ (if hold_days >? 10 then ["持有时间较长，影响资金效率"]
         else if hold_days <? 2 then ["持有时间过短，可能错过收益"]
         else []))%list in
  match lessons with
  | [] => "正常交易"
  | _ => String.concat "；" lessons
  end.

(** [_execute_exit_trade(symbol, portfolio, current_price, trade_date,
    result)], whole body under [try ... except Exception].  What the call
    leaves behind: the portfolio and the result object.  Here the sale is a
    step of the exit check; what it books is the subject of
    [Binary64.BacktestEngine._execute_exit_trade]. *)
Definition _execute_exit_trade (self : t) (symbol : string)
    (portfolio : Portfolio.t) (current_price : Q) (trade_date : datetime)
    (result : BacktestResult.t) (w : World)
    : Portfolio.t * BacktestResult.t * World :=
  match Dict.get (Portfolio.positions portfolio) symbol with
  | None => (portfolio, result, w)                     (* KeyError, caught *)
  | Some position =>
      let quantity := Position.quantity position in
      let cost_price := Position.avg_cost position in
      let commission :=
        (current_price * float quantity * (3 # 10000)
         + current_price * float quantity * (1 # 1000))%Q in
      let revenue := (current_price * float quantity - commission)%Q in
      let profit_loss :=
        (revenue - (cost_price * float quantity + Position.total_cost position
                    - cost_price * float quantity))%Q in
      let hold_days := sub_days trade_date (Position.entry_date position) + 1 in
      match truediv current_price cost_price with
      | Raise _ => (portfolio, result, w)
      | Ok ratio =>
          let profit_loss_pct := ((ratio - 1) * 100)%Q in
          match Portfolio.remove_position portfolio symbol quantity current_price
                  commission w with
          | (Raise _, portfolio', w1) => (portfolio', result, w1)
          | (Ok _, portfolio', w1) =>
              let trade_record :=
                TradeRecord.mk
                  symbol
                  [Lit symbol; Lit "股票"]
                  SELL
                  quantity
                  current_price
                  (current_price * float quantity)%Q
                  commission
                  trade_date
                  [Lit "达到止盈止损条件"]
                  80
                  (Some cost_price)
                  profit_loss
                  profit_loss_pct
                  hold_days
                  [Lit "卖出"; FmtInt quantity; Lit "股，收益";
                   Fmt ".2f" profit_loss; Lit "元("; Fmt "+.1f" profit_loss_pct;
                   Lit "%)，持有"; FmtInt hold_days; Lit "天"]
                  [Lit (_analyze_trade_lesson profit_loss_pct hold_days)] in
              let result' := BacktestResult.append_trade_record result trade_record in
              (* result.executed_trades += 1 *)
              match BacktestResult.setattr result' "executed_trades"
                      (BacktestResult.VInt (BacktestResult.executed_trades result' + 1))
              with
              | Raise _ => (portfolio', result', w1)
              | Ok result'' => (portfolio', result'', w1)
              end
          end
      end
  end.

(** The inner loop of [_check_exit_conditions] for one symbol: the first
    strategy that asks for an exit triggers the exit trade.  A strategy that
    raises here is not caught. *)
Fixpoint exit_loop (self : t) (strategies : list TradingStrategy.t)
    (symbol : string) (portfolio : Portfolio.t) (current_price : Q)
    (trade_date : datetime) (result : BacktestResult.t) (w : World)
    : Result unit * Portfolio.t * BacktestResult.t * World :=
  match strategies with
  | [] => (Ok tt, portfolio, result, w)
  | strategy :: rest =>
      match TradingStrategy.should_exit_position strategy symbol portfolio
              current_price w with
      | (Raise e, w1) => (Raise e, portfolio, result, w1)
      | (Ok (Some _), w1) =>
          let '(portfolio', result', w2) :=
            _execute_exit_trade self symbol portfolio current_price trade_date
              result w1 in
          (Ok tt, portfolio', result', w2)
      | (Ok None, w1) =>
          exit_loop self rest symbol portfolio current_price trade_date result w1
      end
  end.

(** The outer loop of [_check_exit_conditions], over the symbols held when
    the check started. *)
Fixpoint check_loop (self : t) (symbols : list string) (portfolio : Portfolio.t)
    (trade_date : datetime) (result : BacktestResult.t) (w : World)
    : Result unit * Portfolio.t * BacktestResult.t * World :=
  match symbols with
  | [] => (Ok tt, portfolio, result, w)
  | symbol :: rest =>
      match Dict.get (Portfolio.positions portfolio) symbol with
      | None => (Raise (KeyError symbol), portfolio, result, w)
      | Some position =>
          let '(u, w1) := random_uniform (- (5 # 100)) (5 # 100) w in
          let current_price := (Position.avg_cost position * (1 + u))%Q in
          match exit_loop self (strategies self) symbol portfolio current_price
                  trade_date result w1 with
          | (Raise e, portfolio', result', w2) => (Raise e, portfolio', result', w2)
          | (Ok _, portfolio', result', w2) =>
              check_loop self rest portfolio' trade_date result' w2
          end
      end
  end.

(** [_check_exit_conditions(portfolio, trade_date, result)] *)
Definition _check_exit_conditions (self : t) (portfolio : Portfolio.t)
    (trade_date : datetime) (result : BacktestResult.t) (w : World)
    : Result unit * Portfolio.t * BacktestResult.t * World :=
  check_loop self (Dict.keys (Portfolio.positions portfolio)) portfolio
    trade_date result w.

(** The trade loop of [_process_trading_day], carrying [executed_count]. *)
Fixpoint trade_loop (self : t) (signals : list TradingSignal.t)
    (portfolio : Portfolio.t) (trade_date : datetime) (executed_count : Z)
    (w : World) : Z * Portfolio.t * World :=
  match signals with
  | [] => (executed_count, portfolio, w)
  | signal :: rest =>
      match _execute_trade self signal portfolio trade_date w with
      | (Some _, portfolio', w') =>
          trade_loop self rest portfolio' trade_date (executed_count + 1) w'
      | (None, portfolio', w') =>
          trade_loop self rest portfolio' trade_date executed_count w'
      end
  end.

(** [_process_trading_day(trade_date, portfolio, result)] *)
Definition _process_trading_day (self : t) (trade_date : datetime)
    (portfolio : Portfolio.t) (result : BacktestResult.t) (w : World)
    : Result DailyResult.t * Portfolio.t * BacktestResult.t * World :=
  let daily_result :=
    DailyResult.mk trade_date 0 [] (Portfolio.cash portfolio)
      (Portfolio.cash portfolio) (Dict.len (Portfolio.positions portfolio)) in
  let '(signals, w1) := _generate_signals self trade_date w in
  let '(executed_count, portfolio1, w2) :=
    trade_loop self signals portfolio trade_date 0 w1 in
  match _check_exit_conditions self portfolio1 trade_date result w2 with
  | (Raise e, portfolio2, result2, w3) => (Raise e, portfolio2, result2, w3)
  | (Ok _, portfolio2, result2, w3) =>
      (Ok (DailyResult.mk
             (DailyResult.date daily_result)
             (DailyResult.signals_count daily_result)
             (DailyResult.trades_executed daily_result)
             (DailyResult.capital_before daily_result)
             (Portfolio.cash portfolio2)
             (Dict.len (Portfolio.positions portfolio2))),
       portfolio2, result2, w3)
  end.

(** The [while current_date <= result.end_date] loop of
    [_execute_backtest_flow].  The recursion is on [fuel], an upper bound on
    the number of iterations; [None] is "out of fuel" and does not occur with
    the fuel the caller passes ([flow_fuel]). *)
Fixpoint flow_loop (fuel : nat) (self : t) (current_date : datetime)
    (portfolio : Portfolio.t) (processed_days : Z) (result : BacktestResult.t)
    (w : World) : option (Result unit * BacktestResult.t * World) :=
  match fuel with
  | O => None
  | S fuel' =>
      if datetime_le current_date (BacktestResult.end_date result)
      then
        if _is_trading_day current_date
        then
          match _process_trading_day self current_date portfolio result w with
          | (Raise e, _, result', w') => Some (Raise e, result', w')
          | (Ok daily_result, portfolio', result', w') =>
              flow_loop fuel' self (add_days current_date 1) portfolio'
                (processed_days + 1) result' w'
          end
        else
          flow_loop fuel' self (add_days current_date 1) portfolio processed_days
            result w
      else Some (Ok tt, result, w)
  end.

Definition flow_fuel (result : BacktestResult.t) : nat :=
  S (Z.to_nat (sub_days (BacktestResult.end_date result)
                        (BacktestResult.start_date result) + 1)).

(** [_execute_backtest_flow(result)] *)
Definition _execute_backtest_flow (self : t) (result : BacktestResult.t)
    (w : World) : option (Result unit * BacktestResult.t * World) :=
  flow_loop (flow_fuel result) self (BacktestResult.start_date result)
    Portfolio.default 0 result w.

(** [_analyze_performance(result)] *)
Definition _analyze_performance (self : t) (result : BacktestResult.t)
    : Result BacktestResult.t :=
  let capital_values :=
    100000%Q :: map DailyResult.capital_after (BacktestResult.daily_results result) in
  (* the arguments of analyze_performance, left to right; the analyzer is
     called on the engine's own lists, and what it returns is a function of
     their contents *)
  match BacktestResult.getattr result "final_portfolio" with
  | Raise e => Raise e
  | Ok final_portfolio =>
  match BacktestResult.value_cash final_portfolio with
  | Raise e => Raise e
  | Ok final_cash =>
  match PerformanceAnalyzer.analyze_performance_on
          (BacktestResult.trade_records result) 100000 final_cash with
  | Raise e => Raise e
  | Ok performance_analysis =>
  match BacktestResult.setattr result "performance_analysis"
          (BacktestResult.VDict performance_analysis) with
  | Raise e => Raise e
  | Ok result1 =>
  match PerformanceAnalyzer.calculate_risk_metrics_on pow_half
          (BacktestResult.trade_records result1) capital_values with
  | Raise e => Raise e
  | Ok risk_metrics =>
      BacktestResult.setattr result1 "risk_metrics" (BacktestResult.VRisk risk_metrics)
  end end end end end.

(** [run_backtest(start_date, end_date)] *)
Definition run_backtest (self : t) (start_date end_date : datetime) (w : World)
    : option (Result BacktestResult.t * World) :=
  let result :=
    BacktestResult.new (config self) start_date end_date
      (_calculate_trading_days start_date end_date) 0 0 in
  match _execute_backtest_flow self result w with
  | None => None
  | Some (Raise e, _, w1) => Some (Raise e, w1)
  | Some (Ok _, result1, w1) =>
      match _analyze_performance self result1 with
      | Raise e => Some (Raise e, w1)
      | Ok result2 =>
          match PortfolioRepository.save_backtest_result (portfolio_repo self)
                  result2 w1 with
          | (Raise e, w2) => Some (Raise e, w2)
          | (Ok _, w2) => Some (Ok result2, w2)
          end
      end
  end.

End Engine.

End BacktestEngine.

(* ====================================================================== *)
(** * domain/services/bull_market_analyzer.py: run_backtest *)
(* ====================================================================== *)

(** The method of [BullMarketAnalyzer] that builds a [BacktestEngine] (the
    source imports the engine inside the method). *)
Module BullMarketAnalyzerBacktest.

Section Backtest.

Variable pow_half : Q -> Q.

(** [run_backtest(start_date, end_date)].  Besides the attributes that
    [scan_market] reads, the method reads [self.repository], given here as
    [repository], and calls the notifier's second method,
    [notify_backtest_result], given here as a function that is called only
    when there is a notifier. *)
Definition run_backtest (self : BullMarketAnalyzer.t)
    (repository : option PortfolioRepository.t)
    (notify_backtest_result : BacktestResult.t -> M unit)
    (start_date end_date : datetime) (w : World)
    : option (Result BacktestResult.t * World) :=
  match BullMarketAnalyzer.data_provider self, repository with
  | Some data_provider, Some portfolio_repo =>
      let engine :=
        BacktestEngine.mk (BullMarketAnalyzer.config self) data_provider
          portfolio_repo (BullMarketAnalyzer.strategies self) in
      match BacktestEngine.run_backtest pow_half engine start_date end_date w with
      | None => None
      | Some (Raise e, w1) => Some (Raise e, w1)
      | Some (Ok result, w1) =>
          match BullMarketAnalyzer.notifier self with
          | Some _ =>
              match notify_backtest_result result w1 with
              | (Raise e, w2) => Some (Raise e, w2)
              | (Ok _, w2) => Some (Ok result, w2)
              end
          | None => Some (Ok result, w1)
          end
      end
  | _, _ =>
      Some (Ok (BacktestResult.new (BullMarketAnalyzer.config self)
                  start_date end_date 0 0 0), w)
  end.

End Backtest.

End BullMarketAnalyzerBacktest.

(* ====================================================================== *)
(** * The trade path in binary64 *)
(* ====================================================================== *)

(** Where the code computes with floats and the outcome turns on the
    rounding of a product or a quotient, on an overflow or on a NaN, exact
    rationals do not tell what it does.  The functions on the path of a
    trade -- the constructor check of a signal, the portfolio's accounts,
    the entry tests of the strategies, the engine's purchase and sale and
    the risk limits -- are therefore embedded a second time, over IEEE 754
    binary64, the kernel's primitive floats.  A decimal literal denotes the
    nearest binary64 value, here as in Python. *)

#[local] Set Warnings "-inexact-float".

Module Binary64.

(** ** Python's [float] *)

Module Float.

(** [x < y], [x <= y], [x > y], [x >= y] and [x == y]: each is false when an
    operand is NaN. *)
Definition lt (x y : PrimFloat.float) : bool := PrimFloat.ltb x y.
Definition le (x y : PrimFloat.float) : bool := PrimFloat.leb x y.
Definition gt (x y : PrimFloat.float) : bool := PrimFloat.ltb y x.
Definition ge (x y : PrimFloat.float) : bool := PrimFloat.leb y x.
Definition eq (x y : PrimFloat.float) : bool := PrimFloat.eqb x y.

(** [math.isnan(x)] *)
Definition isnan (x : PrimFloat.float) : bool := PrimFloat.is_nan x.

(** On the specification of binary64 that the kernel's floats come with:
    the NaN. *)
Definition is_S754_nan (x : SpecFloat.spec_float) : bool :=
  match x with SpecFloat.S754_nan => true | _ => false end.

(** [float(n)] for an int, the conversion that mixed int/float arithmetic
    applies to its int operand: the nearest float, ties to even, and
    [OverflowError] for an int beyond the range of a float. *)
Definition of_int (n : Z) : Result PrimFloat.float :=
  match SpecFloat.binary_normalize FloatOps.prec FloatOps.emax n 0 false with
  | SpecFloat.S754_infinity _ => Raise OverflowError
  | x => Ok (FloatOps.SF2Prim x)
  end.

(** [int(x)]: the integer part, toward zero; an infinity or a NaN has
    none. *)
Definition to_int (x : PrimFloat.float) : Result Z :=
  match FloatOps.Prim2SF x with
  | SpecFloat.S754_zero _ => Ok 0
  | SpecFloat.S754_finite s m e =>
      let n := Z.shiftl (Z.pos m) e in Ok (if s then - n else n)
  | SpecFloat.S754_infinity _ => Raise OverflowError
  | SpecFloat.S754_nan => Raise (ValueError "cannot convert float NaN to integer")
  end.

(** [a / b]: a zero divisor, of either sign, raises. *)
Definition truediv (a b : PrimFloat.float) : Result PrimFloat.float :=
  if PrimFloat.is_zero b then Raise ZeroDivisionError
  else Ok (PrimFloat.div a b).

End Float.

(** A formatted string, kept symbolic as before. *)
Inductive piece : Type :=
| Lit (s : string)
| Fmt (spec : string) (value : PrimFloat.float)
| FmtInt (value : Z).

Definition fstring := list piece.

Local Open Scope float_scope.

(** ** domain/value_objects.py *)

Module RiskMetrics.

Record t : Type := mk {
  max_drawdown : PrimFloat.float;
  sharpe_ratio : PrimFloat.float;
  volatility : PrimFloat.float;
  win_rate : PrimFloat.float;
  profit_loss_ratio : PrimFloat.float;
  calmar_ratio : PrimFloat.float;
  sortino_ratio : PrimFloat.float;
  max_consecutive_losses : Z;
  recovery_factor : PrimFloat.float
}.

(** [RiskMetrics()] *)
Definition default : t := mk 0 0 0 0 0 0 0 0%Z 0.

(** [is_acceptable_risk] *)
Definition is_acceptable_risk (self : t) : bool :=
  Float.le (max_drawdown self) 0.15
  && Float.ge (sharpe_ratio self) 1.0
  && Float.ge (win_rate self) 0.55.

End RiskMetrics.

Module AnalysisConfig.

Record t : Type := mk {
  sectors : list string;
  confidence_threshold : PrimFloat.float;
  max_position_size : PrimFloat.float;
  enable_parallel : bool;
  max_workers : Z;
  analysis_timeout : Z;
  enable_caching : bool;
  cache_ttl : Z
}.

(** [AnalysisConfig()] *)
Definition default : t := mk ["BK0917"] 80.0 0.1 true 8%Z 15%Z true 300%Z.

End AnalysisConfig.

(** ** domain/entities.py *)

Module TradingSignal.

Record t : Type := mk {
  symbol : string;
  name : string;
  sector : string;
  action : SignalAction;
  confidence : PrimFloat.float;
  price : PrimFloat.float;
  reason : fstring;
  timestamp : datetime;
  detailed_reasons : list fstring;
  expected_profit_scenarios : Dict.t fstring;
  risk_level : RiskLevel;
  position_size_pct : PrimFloat.float;
  stop_loss_plan : fstring;
  take_profit_plan : fstring;
  market_condition : fstring
}.

(** [__post_init__]: confidence within 0..100, then price above 0. *)
Definition __post_init__ (self : t) : Result unit :=
  if negb (Float.le 0 (confidence self) && Float.le (confidence self) 100)
  then Raise (ValueError "置信度必须在0-100之间")
  else if Float.le (price self) 0
  then Raise (ValueError "价格必须大于0")
  else Ok tt.

(** The constructor: the fields are stored, then [__post_init__] runs. *)
Definition new (self : t) : Result t :=
  match __post_init__ self with
  | Ok _ => Ok self
  | Raise e => Raise e
  end.

End TradingSignal.

Module Position.

Record t : Type := mk {
  quantity : Z;
  avg_cost : PrimFloat.float;
  total_cost : PrimFloat.float;
  entry_date : datetime;
  last_update : datetime
}.

End Position.

Module Portfolio.

Record t : Type := mk {
  cash : PrimFloat.float;
  positions : Dict.t Position.t;
  total_value : PrimFloat.float;
  daily_pnl : PrimFloat.float;
  total_pnl : PrimFloat.float
}.

(** [Portfolio()] *)
Definition default : t := mk 100000 Dict.empty 100000 0 0.

(** The object after [self.positions] has been replaced by [d]; no other
    field is written by any method. *)
Definition with_positions (self : t) (d : Dict.t Position.t) : t :=
  mk (cash self) d (total_value self) (daily_pnl self) (total_pnl self).

Definition msg_no_position (symbol : string) : string :=
  "没有找到股票 " ++ symbol ++ " 的持仓".

Definition msg_oversell (quantity held : Z) : string :=
  "卖出数量 " ++ str_int quantity ++ " 超过持仓数量 " ++ str_int held.

(** The three values that the top-up branch of [add_position] computes
    before it writes: [total_quantity], [total_cost] and [avg_cost].  The
    int operands [quantity] and [total_quantity] are converted to float. *)
Definition topped_up (existing : Position.t) (quantity : Z)
    (price commission : PrimFloat.float) : Result (Z * PrimFloat.float * PrimFloat.float) :=
  let total_quantity := (Position.quantity existing + quantity)%Z in
  match Float.of_int quantity with
  | Raise e => Raise e
  | Ok q =>
      let total_cost := Position.total_cost existing + q * price + commission in
      match Float.of_int total_quantity with
      | Raise e => Raise e
      | Ok tq =>
          match Float.truediv total_cost tq with
          | Raise e => Raise e
          | Ok avg_cost => Ok (total_quantity, total_cost, avg_cost)
          end
      end
  end.

(** [add_position(symbol, quantity, price, commission)].  Returns the
    outcome, the portfolio as the call leaves it, and the world. *)
Definition add_position (self : t) (symbol : string) (quantity : Z)
    (price commission : PrimFloat.float) (w : World) : Result unit * t * World :=
  match Dict.get (positions self) symbol with
  | Some existing =>
      match topped_up existing quantity price commission with
      | Raise e => (Raise e, self, w)
      | Ok (total_quantity, total_cost, avg_cost) =>
          let '(now, w1) := datetime_now w in
          (Ok tt,
           with_positions self
             (Dict.set (positions self) symbol
                (Position.mk total_quantity avg_cost total_cost
                   (Position.entry_date existing) now)),
           w1)
      end
  | None =>
      match Float.of_int quantity with
      | Raise e => (Raise e, self, w)
      | Ok q =>
          let '(now1, w1) := datetime_now w in
          let '(now2, w2) := datetime_now w1 in
          (Ok tt,
           with_positions self
             (Dict.set (positions self) symbol
                (Position.mk quantity price (q * price + commission) now1 now2)),
           w2)
      end
  end.

(** [remove_position(symbol, quantity, price, commission) -> profit_loss] *)
Definition remove_position (self : t) (symbol : string) (quantity : Z)
    (price commission : PrimFloat.float) (w : World) : Result PrimFloat.float * t * World :=
  match Dict.get (positions self) symbol with
  | None =>
      (Raise (ValueError (msg_no_position symbol)), self, w)
  | Some position =>
      if (quantity >? Position.quantity position)%Z
      then (Raise (ValueError (msg_oversell quantity (Position.quantity position))),
            self, w)
      else
        match Float.of_int quantity with
        | Raise e => (Raise e, self, w)
        | Ok q =>
            let sell_amount := q * price in
            let cost_basis := q * Position.avg_cost position in
            let profit_loss := sell_amount - cost_basis - commission in
            let '(now, w1) := datetime_now w in
            let position' :=
              Position.mk (Position.quantity position - quantity)%Z
                (Position.avg_cost position)
                (Position.total_cost position - cost_basis)
                (Position.entry_date position) now in
            let d := Dict.set (positions self) symbol position' in
            if (Position.quantity position' =? 0)%Z
            then (Ok profit_loss, with_positions self (Dict.del d symbol), w1)
            else (Ok profit_loss, with_positions self d, w1)
        end
  end.

End Portfolio.

Module TradeRecord.

Record t : Type := mk {
  symbol : string;
  name : fstring;
  action : SignalAction;
  quantity : Z;
  price : PrimFloat.float;
  amount : PrimFloat.float;
  commission : PrimFloat.float;
  timestamp : datetime;
  reason : fstring;
  confidence : PrimFloat.float;
  cost_price : option PrimFloat.float;
  profit_loss : PrimFloat.float;
  profit_loss_pct : PrimFloat.float;
  hold_days : Z;
  trade_summary : fstring;
  lessons_learned : fstring
}.

(** [is_closed_trade] *)
Definition is_closed_trade (self : t) : bool :=
  existsb (SignalAction_eqb (action self)) [SELL; STOP_LOSS; TAKE_PROFIT].

End TradeRecord.

(** ** domain/value_objects.py: BacktestResult *)

(** The dict [daily_result] that [_process_trading_day] builds. *)
Module DailyResult.

Record t : Type := mk {
  date : datetime;
  signals_count : Z;
  trades_executed : list TradeRecord.t;
  capital_before : PrimFloat.float;
  capital_after : PrimFloat.float;
  positions_count : Z
}.

End DailyResult.

(** [@dataclass(frozen=True) class BacktestResult]: the lists it holds are
    ordinary mutable lists, the fields themselves cannot be assigned. *)
Module BacktestResult.

Record t : Type := mk {
  config : AnalysisConfig.t;
  start_date : datetime;
  end_date : datetime;
  trading_days : Z;
  total_signals : Z;
  executed_trades : Z;
  trade_records : list TradeRecord.t;
  daily_results : list DailyResult.t;
  performance_analysis : Dict.t PrimFloat.float;
  risk_metrics : RiskMetrics.t;
  final_portfolio_value : PrimFloat.float
}.

(** [BacktestResult(config=..., start_date=..., end_date=..., trading_days=...,
    total_signals=..., executed_trades=...)], the other fields at their
    defaults. *)
Definition new (config : AnalysisConfig.t) (start_date end_date : datetime)
    (trading_days total_signals executed_trades : Z) : t :=
  mk config start_date end_date trading_days total_signals executed_trades
     [] [] Dict.empty RiskMetrics.default 100000.0.

(** [result.executed_trades = n]: the [__setattr__] of a frozen dataclass
    refuses the assignment. *)
Definition set_executed_trades (self : t) (n : Z) : Result t :=
  Raise (FrozenInstanceError "executed_trades").

(** [result.trade_records.append(trade_record)]: the list object is
    mutated, which the frozen dataclass does not prevent. *)
Definition append_trade_record (self : t) (trade_record : TradeRecord.t) : t :=
  mk (config self) (start_date self) (end_date self) (trading_days self)
     (total_signals self) (executed_trades self)
     (trade_records self ++ [trade_record]) (daily_results self)
     (performance_analysis self) (risk_metrics self) (final_portfolio_value self).

End BacktestResult.

(** ** core.py *)

(** Of the strategy interface, the method that the purchase calls. *)
Module TradingStrategy.

Record t : Type := mk {
  name : string;
  should_enter_position : TradingSignal.t -> Portfolio.t -> M bool
}.

End TradingStrategy.

Module BusinessRules.

Definition MIN_CONFIDENCE : PrimFloat.float := 50.0.
Definition MAX_CONFIDENCE : PrimFloat.float := 100.0.
Definition MAX_DRAWDOWN : PrimFloat.float := 0.15.
Definition MIN_SHARPE_RATIO : PrimFloat.float := 1.0.
Definition MIN_WIN_RATE : PrimFloat.float := 0.55.

(** [validate_signal(signal)] *)
Definition validate_signal (signal : TradingSignal.t) : bool :=
  Float.le MIN_CONFIDENCE (TradingSignal.confidence signal)
  && Float.le (TradingSignal.confidence signal) MAX_CONFIDENCE
  && Float.gt (TradingSignal.price signal) 0
  && (Z.of_nat (String.length (TradingSignal.symbol signal)) >? 0)%Z.

(** [should_apply_risk_control(risk_metrics)] *)
Definition should_apply_risk_control (risk_metrics : RiskMetrics.t) : bool :=
  Float.gt (RiskMetrics.max_drawdown risk_metrics) MAX_DRAWDOWN
  || Float.lt (RiskMetrics.sharpe_ratio risk_metrics) MIN_SHARPE_RATIO
  || Float.lt (RiskMetrics.win_rate risk_metrics) MIN_WIN_RATE.

End BusinessRules.

(** ** strategies.py: the entry tests *)

Module TPlusOneStrategy.

Definition name : string := "T+1时空折叠策略".

(** [should_enter_position] *)
Definition should_enter_position (signal : TradingSignal.t)
    (portfolio : Portfolio.t) : M bool :=
  if negb (SignalAction_eqb (TradingSignal.action signal) BUY) then ret false
  else
    let max_position_value :=
      Portfolio.cash portfolio * TradingSignal.position_size_pct signal in
    if Float.lt max_position_value (TradingSignal.price signal * 100)
    then ret false
    else if Dict.mem (Portfolio.positions portfolio) (TradingSignal.symbol signal)
    then ret false
    else ret true.

Definition instance : TradingStrategy.t :=
  TradingStrategy.mk name should_enter_position.

End TPlusOneStrategy.

Module MomentumStrategy.

Definition name : string := "动量策略".

(** [should_enter_position] *)
Definition should_enter_position (signal : TradingSignal.t)
    (portfolio : Portfolio.t) : M bool :=
  ret (SignalAction_eqb (TradingSignal.action signal) BUY
       && Float.ge (Portfolio.cash portfolio) (TradingSignal.price signal * 100)
       && negb (Dict.mem (Portfolio.positions portfolio)
                  (TradingSignal.symbol signal))).

Definition instance : TradingStrategy.t :=
  TradingStrategy.mk name should_enter_position.

End MomentumStrategy.

Module VolumeStrategy.

Definition name : string := "成交量策略".

(** [should_enter_position]: the action of the signal is not looked at. *)
Definition should_enter_position (signal : TradingSignal.t)
    (portfolio : Portfolio.t) : M bool :=
  ret (Float.ge (Portfolio.cash portfolio) (TradingSignal.price signal * 100)
       && negb (Dict.mem (Portfolio.positions portfolio)
                  (TradingSignal.symbol signal))).

Definition instance : TradingStrategy.t :=
  TradingStrategy.mk name should_enter_position.

End VolumeStrategy.

Module SentimentStrategy.

Definition name : string := "情绪策略".

(** [should_enter_position], as in the volume strategy. *)
Definition should_enter_position (signal : TradingSignal.t)
    (portfolio : Portfolio.t) : M bool :=
  ret (Float.ge (Portfolio.cash portfolio) (TradingSignal.price signal * 100)
       && negb (Dict.mem (Portfolio.positions portfolio)
                  (TradingSignal.symbol signal))).

Definition instance : TradingStrategy.t :=
  TradingStrategy.mk name should_enter_position.

End SentimentStrategy.

(** ** backtesting.py: the purchase and the sale *)

Module BacktestEngine.

(** The loop at the head of [_execute_trade]: the first strategy willing to
    enter. *)
Fixpoint entering_strategy (strategies : list TradingStrategy.t)
    (signal : TradingSignal.t) (portfolio : Portfolio.t)
    : M (option TradingStrategy.t) :=
  match strategies with
  | [] => ret None
  | s :: rest =>
      enter <- TradingStrategy.should_enter_position s signal portfolio ;;
      if (enter : bool) then ret (Some s)
      else entering_strategy rest signal portfolio
  end.

(** [int((portfolio.cash * signal.position_size_pct) / signal.price)], the
    quantity that [_execute_trade] computes. *)
Definition trade_quantity (signal : TradingSignal.t) (portfolio : Portfolio.t)
    : Result Z :=
  match Float.truediv
          (Portfolio.cash portfolio * TradingSignal.position_size_pct signal)
          (TradingSignal.price signal) with
  | Raise e => Raise e
  | Ok shares => Float.to_int shares
  end.

(** [_execute_trade(signal, portfolio, trade_date)]: the whole body is under
    [try ... except Exception: return None]; of the engine it reads
    [self.strategies]. *)
Definition _execute_trade (strategies : list TradingStrategy.t)
    (signal : TradingSignal.t) (portfolio : Portfolio.t)
    (trade_date : datetime) (w : World)
    : option TradeRecord.t * Portfolio.t * World :=
  match entering_strategy strategies signal portfolio w with
  | (Raise _, w1) => (None, portfolio, w1)
  | (Ok None, w1) => (None, portfolio, w1)
  | (Ok (Some strategy), w1) =>
      match trade_quantity signal portfolio with
      | Raise _ => (None, portfolio, w1)
      | Ok quantity =>
          if (quantity <? 100)%Z then (None, portfolio, w1)
          else
            match Float.of_int quantity with
            | Raise _ => (None, portfolio, w1)
            | Ok q =>
                let commission := q * TradingSignal.price signal * 0.0003 in
                let total_cost := q * TradingSignal.price signal + commission in
                match Portfolio.add_position portfolio (TradingSignal.symbol signal)
                        quantity (TradingSignal.price signal) commission w1 with
                | (Raise _, portfolio', w2) => (None, portfolio', w2)
                | (Ok _, portfolio', w2) =>
                    (Some (TradeRecord.mk
                             (TradingSignal.symbol signal)
                             [Lit (TradingSignal.name signal)]
                             (TradingSignal.action signal)
                             quantity
                             (TradingSignal.price signal)
                             (q * TradingSignal.price signal)
                             commission
                             trade_date
                             (TradingSignal.reason signal)
                             (TradingSignal.confidence signal)
                             None 0 0 1%Z
                             [Lit "买入"; FmtInt quantity; Lit "股，成本";
                              Fmt ".2f" total_cost; Lit "元"]
                             []),
                     portfolio', w2)
                end
            end
      end
  end.

(** [_analyze_trade_lesson(profit_pct, hold_days)] *)
Definition _analyze_trade_lesson (profit_pct : PrimFloat.float) (hold_days : Z)
    : string :=
  let lessons :=
    ([ if Float.gt profit_pct 5 then "盈利交易，策略有效"
       else if Float.lt profit_pct (-5) then "亏损交易，需要改进"
       else "保本交易，控制风险" ]
     ++ (if (hold_days >? 10)%Z then ["持有时间较长，影响资金效率"]
         else if (hold_days <? 2)%Z then ["持有时间过短，可能错过收益"]
         else []))%list in
  match lessons with
  | [] => "正常交易"
  | _ => String.concat "；" lessons
  end.

(** [_execute_exit_trade(symbol, portfolio, current_price, trade_date,
    result)], whole body under [try ... except Exception].  What the call
    leaves behind: the portfolio and the result object. *)
Definition _execute_exit_trade (symbol : string) (portfolio : Portfolio.t)
    (current_price : PrimFloat.float) (trade_date : datetime)
    (result : BacktestResult.t) (w : World)
    : Portfolio.t * BacktestResult.t * World :=
  match Dict.get (Portfolio.positions portfolio) symbol with
  | None => (portfolio, result, w)                     (* KeyError, caught *)
  | Some position =>
      let quantity := Position.quantity position in
      let cost_price := Position.avg_cost position in
      match Float.of_int quantity with
      | Raise _ => (portfolio, result, w)
      | Ok q =>
          let commission :=
            current_price * q * 0.0003 + current_price * q * 0.001 in
          let revenue := current_price * q - commission in
          let profit_loss :=
            revenue - (cost_price * q + Position.total_cost position
                       - cost_price * q) in
          let hold_days :=
            (sub_days trade_date (Position.entry_date position) + 1)%Z in
          match Float.truediv current_price cost_price with
          | Raise _ => (portfolio, result, w)
          | Ok ratio =>
              let profit_loss_pct := (ratio - 1) * 100 in
              match Portfolio.remove_position portfolio symbol quantity
                      current_price commission w with
              | (Raise _, portfolio', w1) => (portfolio', result, w1)
              | (Ok _, portfolio', w1) =>
                  let trade_record :=
                    TradeRecord.mk
                      symbol
                      [Lit symbol; Lit "股票"]
                      SELL
                      quantity
                      current_price
                      (current_price * q)
                      commission
                      trade_date
                      [Lit "达到止盈止损条件"]
                      80.0
                      (Some cost_price)
                      profit_loss
                      profit_loss_pct
                      hold_days
                      [Lit "卖出"; FmtInt quantity; Lit "股，收益";
                       Fmt ".2f" profit_loss; Lit "元(";
                       Fmt "+.1f" profit_loss_pct;
                       Lit "%)，持有"; FmtInt hold_days; Lit "天"]
                      [Lit (_analyze_trade_lesson profit_loss_pct hold_days)] in
                  let result' :=
                    BacktestResult.append_trade_record result trade_record in
                  (* result.executed_trades += 1 *)
                  match BacktestResult.set_executed_trades result'
                          (BacktestResult.executed_trades result' + 1)%Z with
                  | Raise _ => (portfolio', result', w1)
                  | Ok result'' => (portfolio', result'', w1)
                  end
              end
          end
      end
  end.

End BacktestEngine.

End Binary64.

(* ====================================================================== *)
(** * Callers and fixtures used in the statements below *)
(* ====================================================================== *)

(** A caller of the portfolio: a sequence of [add_position] and
    [remove_position] calls, each with its arguments; a call that raises is
    abandoned and the next one is made, as the engine does. *)
Inductive call : Type :=
| open_position (symbol : string) (quantity : Z) (price commission : Q)
| close_position (symbol : string) (quantity : Z) (price commission : Q).

Definition run_call (c : call) (portfolio : Portfolio.t) (w : World)
    : Portfolio.t * World :=
  match c with
  | open_position symbol quantity price commission =>
      let '(_, portfolio', w') :=
        Portfolio.add_position portfolio symbol quantity price commission w in
      (portfolio', w')
  | close_position symbol quantity price commission =>
      let '(_, portfolio', w') :=
        Portfolio.remove_position portfolio symbol quantity price commission w in
      (portfolio', w')
  end.

Fixpoint run_calls (calls : list call) (portfolio : Portfolio.t) (w : World)
    : Portfolio.t * World :=
  match calls with
  | [] => (portfolio, w)
  | c :: rest =>
      let '(portfolio', w') := run_call c portfolio w in
      run_calls rest portfolio' w'
  end.

(** The next reading of the clock, the one [analyze_market_data]
    classifies. *)
Definition next_reading (w : World) : datetime := clock w (clock_reads w).

(** Monday 2024-01-01 is day 738886; Friday of that week is day 738890. *)
Definition monday : Z := 738886.
Definition friday : Z := 738890.

(** A world whose clock always shows the given time of day on that Monday,
    and whose generator always draws 0. *)
Definition world_at (t : time) : World :=
  mk_World (fun _ => mk_datetime monday t) 0 (fun _ => 0%Q) 0.

Definition at_0920 : World := world_at (mk_time 9 20).

(** A stock that opens 3% down at 10.00. *)
Definition falling_stock : MarketData.t :=
  MarketData.mk "600000" "浦发银行" 10 (-3) 1000000 10000000 "BK0917"
    (mk_datetime monday (mk_time 9 20)) Dict.empty.

(** A stock that does not move. *)
Definition steady_stock : MarketData.t :=
  MarketData.mk "000001" "平安银行" (21 # 2) 0 1000000 10500000 "BK0917"
    (mk_datetime monday (mk_time 9 20)) Dict.empty.

(** A strategy of the caller's: it answers every stock with a HOLD signal of
    confidence 70 and never enters or exits. *)
Definition cautious_strategy : TradingStrategy.t :=
  TradingStrategy.mk "cautious"
    (fun market_data config =>
       timestamp <- io datetime_now ;;
       signal <- lift (TradingSignal.positional
                         (MarketData.symbol market_data)
                         (MarketData.name market_data)
                         (MarketData.sector market_data)
                         HOLD 70 (MarketData.price market_data)
                         [Lit "watch"] timestamp) ;;
       ret (Some signal))
    BaseStrategy.should_enter_position
    BaseStrategy.should_exit_position.

(** A provider with one sector of two stocks, and an analyzer over it with
    the default configuration (threshold 80) and no notifier. *)
Definition two_stock_provider : MarketDataProvider.t :=
  MarketDataProvider.mk (fun sector => ret [falling_stock; steady_stock]).

Definition demo_analyzer : BullMarketAnalyzer.t :=
  BullMarketAnalyzer.mk AnalysisConfig.default
    [TPlusOneStrategy.instance; cautious_strategy]
    (Some two_stock_provider) None.

(** A use case over a provider that lists the falling stock twice, with
    the threshold lowered to 60. *)
Definition demo_use_case : ScanMarketUseCase.t :=
  ScanMarketUseCase.mk
    (BullMarketAnalyzer.mk
       (AnalysisConfig.mk ["BK0917"] 60 (1 # 10) true 8 15 true 300)
       [TPlusOneStrategy.instance; cautious_strategy]
       (Some (MarketDataProvider.mk
                (fun sector => ret [steady_stock; falling_stock; falling_stock])))
       None).

(** A caller's heap: a trade list with a winning and a losing sale, and a
    capital list of three values. *)
Definition sale (profit_loss : Q) : TradeRecord.t :=
  TradeRecord.mk "AAA" [Lit "AAA"] SELL 100 12 1200 (48 # 10)
    (mk_datetime monday 0) [Lit "exit"] 80 (Some 10%Q) profit_loss 0 1 [] [].

Definition demo_heap : PerformanceAnalyzer.Heap :=
  [ PerformanceAnalyzer.Trades [sale 500; sale (-200)];
    PerformanceAnalyzer.Floats [100000%Q; 101000%Q; 100500%Q] ].

(** A BUY signal for AAA at 64.00 asking for half of the cash. *)
Definition buy_AAA : TradingSignal.t :=
  TradingSignal.mk "AAA" "AAA" "BK0917" BUY 82 64 [Lit "dip"]
    (mk_datetime monday (mk_time 14 45)) [] Dict.empty MEDIUM (1 # 2) [] [] [].

(** Descending order of keys: [a] may stand before [b]. *)
Definition descending {A : Type} (key : A -> Q) (a b : A) : Prop :=
  (key b <= key a)%Q.

(** Every entry of the dict of signals sits under the key of its signal. *)
Definition keyed (d : Dict.t TradingSignal.t) : Prop :=
  Forall (fun entry => fst entry = ScanMarketUseCase.key (snd entry)) d.

(** Every position held is of a positive number of shares. *)
Definition held_positive (portfolio : Portfolio.t) : Prop :=
  Forall (fun entry => 0 < Position.quantity (snd entry))
         (Portfolio.positions portfolio).

(** A strategy all of whose signals satisfy [P]. *)
Definition signals_satisfy (P : TradingSignal.t -> Prop)
    (strategy : TradingStrategy.t) : Prop :=
  forall md config w signal w',
    TradingStrategy.analyze_market_data strategy md config w
    = (Ok (Some signal), w') ->
    P signal.

(** An analyzer with the four strategies of the factory. *)
Definition factory_analyzer : BullMarketAnalyzer.t :=
  BullMarketAnalyzer.mk AnalysisConfig.default
    StrategyFactory.create_all_strategies (Some two_stock_provider) None.

(** The trade path in binary64: a BUY signal for AAA at the given price,
    asking for the given share of the cash, and a portfolio with the given
    cash and no positions. *)
Definition buy_at (price position_size_pct : PrimFloat.float)
    : Binary64.TradingSignal.t :=
  Binary64.TradingSignal.mk "AAA" "AAA" "BK0917" BUY 82 price
    [Binary64.Lit "dip"] (mk_datetime monday (mk_time 14 45)) [] Dict.empty
    MEDIUM position_size_pct [] [] [].

Definition purse (cash : PrimFloat.float) : Binary64.Portfolio.t :=
  Binary64.Portfolio.mk cash Dict.empty cash 0 0.

(** The strategies of [StrategyFactory.create_all_strategies()], as far as
    the purchase calls them. *)
Definition entry_tests : list Binary64.TradingStrategy.t :=
  [ Binary64.TPlusOneStrategy.instance; Binary64.MomentumStrategy.instance;
    Binary64.VolumeStrategy.instance; Binary64.SentimentStrategy.instance ].

(* ====================================================================== *)
(** * Theorems *)
(* ====================================================================== *)

(** ** Comparisons on floats *)

Section FloatOrder.

Lemma float_lt_true (x y : Q) : float_lt x y = true <-> (x < y)%Q.
Proof.
  unfold float_lt. rewrite negb_true_iff. split.
  - intros H. apply Qnot_le_lt. intros Hle.
    apply Qle_bool_iff in Hle. congruence.
  - intros H. destruct (Qle_bool y x) eqn:E; [|reflexivity].
    apply Qle_bool_iff in E. exfalso. exact (Qlt_not_le _ _ H E).
Qed.

Lemma float_lt_false (x y : Q) : float_lt x y = false <-> (y <= x)%Q.
Proof.
  unfold float_lt. rewrite negb_false_iff. apply Qle_bool_iff.
Qed.

Lemma float_le_true (x y : Q) : float_le x y = true <-> (x <= y)%Q.
Proof. apply Qle_bool_iff. Qed.

Lemma float_ge_true (x y : Q) : float_ge x y = true <-> (y <= x)%Q.
Proof. apply Qle_bool_iff. Qed.

End FloatOrder.

(** ** The failures of a sale (C3) *)

(** C3, the claim as stated, fails: the two failures of [remove_position]
    are not of two error classes of their own.  Selling a symbol that is
    not held and selling more than is held both raise the builtin
    [ValueError]; neither is a [NoSuchPositionError] or an
    [OverSellError], classes that the code base does not define. *)
Lemma remove_position_error_class_counterexample :
  (let p := snd (fst (Portfolio.add_position Portfolio.default "AAA" 100 10 3
                        at_0920)) in
   exists missing oversold,
     fst (fst (Portfolio.remove_position p "BBB" 1 12 (48 # 10) at_0920))
     = Raise missing /\
     fst (fst (Portfolio.remove_position p "AAA" 101 12 (48 # 10) at_0920))
     = Raise oversold /\
     class_name missing = "ValueError" /\
     class_name oversold = "ValueError")
  /\
  ~ (forall (p : Portfolio.t) symbol quantity price commission w,
       Dict.get (Portfolio.positions p) symbol = None ->
       exists e,
         fst (fst (Portfolio.remove_position p symbol quantity price commission w))
         = Raise e /\
         class_name e = "NoSuchPositionError")
  /\
  ~ (forall (p : Portfolio.t) symbol quantity price commission w position,
       Dict.get (Portfolio.positions p) symbol = Some position ->
       quantity > Position.quantity position ->
       exists e,
         fst (fst (Portfolio.remove_position p symbol quantity price commission w))
         = Raise e /\
         class_name e = "OverSellError").
Proof.
  split; [|split].
  - do 2 eexists. repeat split.
  - intros H.
    destruct (H Portfolio.default "BBB" 1 12%Q (48 # 10)%Q at_0920 eq_refl)
      as (e & He & Hclass).
    vm_compute in He. inversion He; subst e. discriminate Hclass.
  - intros H.
    destruct (H (snd (fst (Portfolio.add_position Portfolio.default "AAA" 100 10 3
                             at_0920)))
                "AAA" 101 12%Q (48 # 10)%Q at_0920
                (Position.mk 100 10 1003 (mk_datetime monday (mk_time 9 20))
                   (mk_datetime monday (mk_time 9 20))) eq_refl eq_refl)
      as (e & He & Hclass).
    vm_compute in He. inversion He; subst e. discriminate Hclass.
Qed.

(** C3, amended: [remove_position] raises [ValueError] when the symbol has
    no position (with the "no position" message) and [ValueError] when the
    quantity exceeds the quantity held (with the "oversell" message, a
    different one); in both cases the portfolio after the call is the
    portfolio before it -- every position with its quantity, average cost
    and total cost, and the cash -- and the clock has not been read. *)
Theorem remove_position_errors
    (p : Portfolio.t) (symbol : string) (quantity : Z) (price commission : Q)
    (w : World) :
  (Dict.get (Portfolio.positions p) symbol = None ->
   Portfolio.remove_position p symbol quantity price commission w
   = (Raise (ValueError (Portfolio.msg_no_position symbol)), p, w))
  /\
  (forall position,
     Dict.get (Portfolio.positions p) symbol = Some position ->
     quantity > Position.quantity position ->
     Portfolio.remove_position p symbol quantity price commission w
     = (Raise (ValueError (Portfolio.msg_oversell quantity (Position.quantity position))),
        p, w))
  /\
  (forall held, Portfolio.msg_no_position symbol <> Portfolio.msg_oversell quantity held).
Proof.
  split; [|split].
  - intros H. unfold Portfolio.remove_position. rewrite H. reflexivity.
  - intros position H Hq. unfold Portfolio.remove_position. rewrite H.
    destruct (Z.gtb_spec quantity (Position.quantity position)) as [_|Hle];
      [reflexivity|lia].
  - intros held. unfold Portfolio.msg_no_position, Portfolio.msg_oversell.
    cbn. discriminate.
Qed.

(** C3 amended, at work: selling 101 of the 100 shares held, and selling a symbol
    that is not held. *)
Lemma remove_position_errors_witness :
  let p := snd (fst (Portfolio.add_position Portfolio.default "AAA" 100 10 3 at_0920)) in
  let w := snd (Portfolio.add_position Portfolio.default "AAA" 100 10 3 at_0920) in
  Portfolio.remove_position p "AAA" 101 12 (48 # 10) w
  = (Raise (ValueError "卖出数量 101 超过持仓数量 100"), p, w)
  /\
  Portfolio.remove_position p "BBB" 1 12 (48 # 10) w
  = (Raise (ValueError "没有找到股票 BBB 的持仓"), p, w).
Proof.
  intros p w.
  pose (position := Position.mk 100 10 1003 (mk_datetime monday (mk_time 9 20))
                      (mk_datetime monday (mk_time 9 20))).
  destruct (remove_position_errors p "AAA" 101 12 (48 # 10) w) as (_ & Hover & _).
  destruct (remove_position_errors p "BBB" 1 12 (48 # 10) w) as (Hnone & _ & _).
  split.
  - exact (Hover position eq_refl eq_refl).
  - exact (Hnone eq_refl).
Defined.

(** ** The time-sliced strategy (C7, C8) *)

Section TimeSlots.

Lemma analyze_market_data_non_trading md config w :
  BaseStrategy._get_time_slot (next_reading w) = "non_trading" ->
  fst (TPlusOneStrategy.analyze_market_data md config w) = Ok None.
Proof.
  intros H. unfold TPlusOneStrategy.analyze_market_data, bind, io, datetime_now.
  unfold next_reading in H. rewrite H. reflexivity.
Qed.


End TimeSlots.

(** C8, the claim as stated, fails at 09:30:00 sharp: the code classifies
    it as the pre-open slot, while the claim puts [09:30, 11:30] in the
    morning session and ends pre-open before 09:30. *)
Lemma time_slot_half_open_counterexample :
  BaseStrategy._get_time_slot (mk_datetime monday (mk_time 9 30)) = "early_morning"
  /\
  ~ (forall current_time : datetime,
       mk_time 9 30 <= time_of current_time <= mk_time 11 30 ->
       BaseStrategy._get_time_slot current_time = "morning_session").
Proof.
  split; [reflexivity|].
  intros H. specialize (H (mk_datetime monday (mk_time 9 30))).
  assert (Hin : mk_time 9 30 <= time_of (mk_datetime monday (mk_time 9 30)) <= mk_time 11 30)
    by (vm_compute; split; discriminate).
  specialize (H Hin). vm_compute in H. discriminate H.
Qed.

(** C8, amended: every time of day falls in exactly one class, with closed
    intervals and the earlier slot winning a shared end point: pre-open is
    [09:15, 09:30], the morning session (09:30, 11:30], the afternoon session
    [13:00, 14:30], the closing session (14:30, 15:00], and every other time
    is non-trading; for a non-trading reading of the clock the T+1 strategy
    returns no signal. *)
Theorem time_slot_classification (current_time : datetime) :
  let t := time_of current_time in
  let slot := BaseStrategy._get_time_slot current_time in
  (slot = "early_morning" <-> mk_time 9 15 <= t <= mk_time 9 30) /\
  (slot = "morning_session" <-> mk_time 9 30 < t <= mk_time 11 30) /\
  (slot = "afternoon_session" <-> mk_time 13 0 <= t <= mk_time 14 30) /\
  (slot = "late_afternoon" <-> mk_time 14 30 < t <= mk_time 15 0) /\
  (slot = "non_trading" <->
     ~ (mk_time 9 15 <= t <= mk_time 11 30) /\ ~ (mk_time 13 0 <= t <= mk_time 15 0)) /\
  (slot = "non_trading" ->
   forall md config w,
     next_reading w = current_time ->
     fst (TPlusOneStrategy.analyze_market_data md config w) = Ok None).
Proof.
  intros t slot.
  assert (Hlast : slot = "non_trading" ->
                  forall md config w,
                    next_reading w = current_time ->
                    fst (TPlusOneStrategy.analyze_market_data md config w) = Ok None).
  { intros Hs md config w Hw. apply analyze_market_data_non_trading.
    rewrite Hw. exact Hs. }
  revert Hlast. generalize (TPlusOneStrategy.analyze_market_data).
  intros analyze Hlast.
  subst slot. unfold BaseStrategy._get_time_slot in *.
  fold t in Hlast |- *. clearbody t.
  unfold BaseStrategy.time_slots, find in *.
  change (mk_time 9 15) with 33300000000 in *.
  change (mk_time 9 30) with 34200000000 in *.
  change (mk_time 11 30) with 41400000000 in *.
  change (mk_time 13 0) with 46800000000 in *.
  change (mk_time 14 30) with 52200000000 in *.
  change (mk_time 15 0) with 54000000000 in *.
  destruct (Z.leb_spec 33300000000 t), (Z.leb_spec t 34200000000),
           (Z.leb_spec 34200000000 t), (Z.leb_spec t 41400000000),
           (Z.leb_spec 46800000000 t), (Z.leb_spec t 52200000000),
           (Z.leb_spec 52200000000 t), (Z.leb_spec t 54000000000);
    cbn [andb] in *; try lia;
    (repeat split; try exact Hlast; intros; try discriminate; try lia;
     try reflexivity).
Qed.

(** C8 amended, at work: 12:00 is non-trading and yields no signal. *)
Lemma time_slot_classification_witness :
  BaseStrategy._get_time_slot (mk_datetime monday (mk_time 12 0)) = "non_trading"
  /\
  fst (TPlusOneStrategy.analyze_market_data falling_stock AnalysisConfig.default
         (world_at (mk_time 12 0))) = Ok None.
Proof.
  destruct (time_slot_classification (mk_datetime monday (mk_time 12 0)))
    as (_ & _ & _ & _ & _ & Hnone).
  split; [reflexivity|].
  exact (Hnone eq_refl falling_stock AnalysisConfig.default
           (world_at (mk_time 12 0)) eq_refl).
Defined.




(** ** The market scan (C1) *)

Section ScanMarket.

Lemma filter_Forall {A} (f : A -> bool) (P : A -> Prop) (l : list A) :
  (forall x, f x = true -> P x) -> Forall P (filter f l).
Proof.
  intros H. apply Forall_forall. intros x Hx.
  apply filter_In in Hx. apply H, Hx.
Qed.

Lemma float_ge_not_lt (x t : Q) : float_ge x t = true -> ~ (x < t)%Q.
Proof.
  intros H. apply float_ge_true in H. intros Hlt. exact (Qlt_not_le _ _ Hlt H).
Qed.

End ScanMarket.

(** C1: whatever the configuration, the provider's data, the strategies and
    the clock, a list returned by [scan_market] holds no signal whose
    confidence is strictly below [config.confidence_threshold]; and
    [scan_market] does return a list unless a notifier is configured (a
    notifier that raises is the only way for the call to raise). *)
Theorem scan_market_honors_threshold (self : BullMarketAnalyzer.t) (w : World) :
  match BullMarketAnalyzer.scan_market self w with
  | (Ok signals, _) =>
      Forall (fun s =>
                ~ (TradingSignal.confidence s
                   < AnalysisConfig.confidence_threshold (BullMarketAnalyzer.config self))%Q)
             signals
  | (Raise _, _) => BullMarketAnalyzer.notifier self <> None
  end.
Proof.
  unfold BullMarketAnalyzer.scan_market.
  destruct (BullMarketAnalyzer.data_provider self) as [provider|].
  - destruct (BullMarketAnalyzer.scan_sectors self provider _ [] w) as [signals w1].
    destruct (BullMarketAnalyzer.notifier self) as [notifier|].
    + unfold bind.
      destruct (BullMarketAnalyzer.notify_all notifier _ w1) as [[[]|e] w2].
      * cbn. apply filter_Forall. intros s. apply float_ge_not_lt.
      * discriminate.
    + apply filter_Forall. intros s. apply float_ge_not_lt.
  - cbn. constructor.
Qed.

(** C1 at work: at 09:20 the scan of a falling and a steady stock produces a
    SELL signal of confidence 85 and a HOLD signal of confidence 70; with the
    threshold at 80 only the first is returned. *)
Lemma scan_market_honors_threshold_witness :
  exists kept w',
    BullMarketAnalyzer.scan_market demo_analyzer at_0920 = (Ok kept, w') /\
    map TradingSignal.confidence kept = [85%Q] /\
    Forall (fun s => ~ (TradingSignal.confidence s < 80)%Q) kept.
Proof.
  pose proof (scan_market_honors_threshold demo_analyzer at_0920) as H.
  destruct (BullMarketAnalyzer.scan_market demo_analyzer at_0920) as [r w'] eqn:E.
  vm_compute in E. inversion E; subst r w'; clear E.
  eexists; eexists. split; [reflexivity|]. split; [reflexivity|]. exact H.
Defined.

(** ** The backtest run (C6) *)

Section BacktestRun.

Variable pow_half : Q -> Q.
Variable self : BacktestEngine.t.

(** No historical snapshot exists, so no signal is ever generated. *)
Lemma generate_loop_nothing trade_date (sectors : list string) :
  forall signals w,
    BacktestEngine.generate_loop self trade_date sectors signals w = (signals, w).
Proof.
  induction sectors as [|sector rest IH]; intros signals w; cbn; auto.
Qed.

(** A trading day on a portfolio without positions changes nothing. *)
Lemma process_trading_day_idle trade_date (portfolio : Portfolio.t) result w :
  Portfolio.positions portfolio = [] ->
  exists daily_result,
    BacktestEngine._process_trading_day self trade_date portfolio result w
    = (Ok daily_result, portfolio, result, w).
Proof.
  intros Hp. unfold BacktestEngine._process_trading_day,
    BacktestEngine._generate_signals.
  rewrite generate_loop_nothing. cbn [BacktestEngine.trade_loop].
  unfold BacktestEngine._check_exit_conditions. rewrite Hp. cbn.
  eexists. reflexivity.
Qed.

Lemma datetime_us_add_days d n :
  datetime_us (add_days d n) = datetime_us d + n * day_us.
Proof. unfold datetime_us, add_days. cbn. ring. Qed.

(** The loop over the days ends by its own condition when the fuel exceeds
    the number of days left, and leaves the result and the world as they
    were. *)
Lemma flow_loop_idle (fuel : nat) :
  forall current_date portfolio processed_days result w,
    Portfolio.positions portfolio = [] ->
    Z.max 0 ((datetime_us (BacktestResult.end_date result)
              - datetime_us current_date) / day_us + 1) < Z.of_nat fuel ->
    BacktestEngine.flow_loop fuel self current_date portfolio processed_days result w
    = Some (Ok tt, result, w).
Proof.
  induction fuel as [|fuel IH]; intros current_date portfolio processed_days
    result w Hp Hfuel; [lia|].
  cbn [BacktestEngine.flow_loop]. unfold datetime_le.
  destruct (Z.leb_spec (datetime_us current_date)
              (datetime_us (BacktestResult.end_date result))) as [Hle|Hgt];
    [|reflexivity].
  assert (Hday : 0 < day_us) by reflexivity.
  assert (Hnext :
            Z.max 0 ((datetime_us (BacktestResult.end_date result)
                      - datetime_us (add_days current_date 1)) / day_us + 1)
            < Z.of_nat fuel).
  { rewrite datetime_us_add_days.
    replace (datetime_us (BacktestResult.end_date result)
             - (datetime_us current_date + 1 * day_us))
      with (datetime_us (BacktestResult.end_date result)
            - datetime_us current_date + (-1) * day_us) by ring.
    rewrite Z.div_add by lia.
    assert (0 <= (datetime_us (BacktestResult.end_date result)
                  - datetime_us current_date) / day_us)
      by (apply Z.div_pos; lia).
    lia. }
  destruct (BacktestEngine._is_trading_day current_date).
  - destruct (process_trading_day_idle current_date portfolio result w Hp)
      as [daily_result Hd].
    rewrite Hd. apply IH; assumption.
  - apply IH; assumption.
Qed.

Lemma execute_backtest_flow_idle result w :
  BacktestEngine._execute_backtest_flow self result w = Some (Ok tt, result, w).
Proof.
  unfold BacktestEngine._execute_backtest_flow, BacktestEngine.flow_fuel.
  apply flow_loop_idle; [reflexivity|].
  unfold sub_days. lia.
Qed.

(** [_analyze_performance] stops at [result.final_portfolio]: the frozen
    dataclass has a field [final_portfolio_value] and no such attribute. *)
Lemma analyze_performance_raises result :
  BacktestEngine._analyze_performance pow_half self result
  = Raise (AttributeError "final_portfolio").
Proof. reflexivity. Qed.

(** Whatever the engine, the dates and the world, [run_backtest] terminates
    and raises [AttributeError]; it never returns a result. *)
Lemma run_backtest_raises start_date end_date w :
  BacktestEngine.run_backtest pow_half self start_date end_date w
  = Some (Raise (AttributeError "final_portfolio"), w).
Proof.
  unfold BacktestEngine.run_backtest.
  rewrite execute_backtest_flow_idle, analyze_performance_raises. reflexivity.
Qed.

End BacktestRun.

(** C6 (the code does not do what the claim says): over Monday to Friday
    of one week, with no historical snapshot on any day, [run_backtest]
    does not return a [BacktestResult] with [total_signals = 0] and
    [executed_trades = 0]: the days are processed without error, and then
    [_analyze_performance] raises [AttributeError] on
    [result.final_portfolio], which nothing catches. *)
Theorem run_backtest_five_weekdays (pow_half : Q -> Q) (self : BacktestEngine.t)
    (w : World) :
  map (fun day => weekday (mk_datetime day 0)) [monday; monday + 1; monday + 2;
                                                 monday + 3; friday]
  = [0; 1; 2; 3; 4]
  /\
  BacktestEngine.run_backtest pow_half self (mk_datetime monday 0)
    (mk_datetime friday 0) w
  = Some (Raise (AttributeError "final_portfolio"), w).
Proof.
  split; [reflexivity|apply run_backtest_raises].
Qed.

(** ** The performance analyzer (C9) *)

Section AnalyzerHeap.

Import PerformanceAnalyzer.
Local Open Scope list_scope.

Variable pow_half : Q -> Q.

Lemma nth_error_alloc_old (h : Heap) (o : object) (r : ref) :
  (r < List.length h)%nat -> nth_error (h ++ [o]) r = nth_error h r.
Proof. intros H. apply nth_error_app1, H. Qed.

Lemma nth_error_alloc_new (h : Heap) (o : object) :
  nth_error (h ++ [o]) (List.length h) = Some o.
Proof. rewrite nth_error_app2, Nat.sub_diag by lia. reflexivity. Qed.

Lemma trades_at_alloc_old (h : Heap) (o : object) (r : ref) :
  (r < List.length h)%nat -> trades_at (h ++ [o]) r = trades_at h r.
Proof. intros H. unfold trades_at. rewrite nth_error_alloc_old by exact H. reflexivity. Qed.

Lemma floats_at_alloc_old (h : Heap) (o : object) (r : ref) :
  (r < List.length h)%nat -> floats_at (h ++ [o]) r = floats_at h r.
Proof. intros H. unfold floats_at. rewrite nth_error_alloc_old by exact H. reflexivity. Qed.

Lemma trades_at_alloc_new (h : Heap) (items : list TradeRecord.t) :
  trades_at (h ++ [Trades items]) (List.length h) = items.
Proof. unfold trades_at. rewrite nth_error_alloc_new. reflexivity. Qed.

Lemma floats_at_alloc_new (h : Heap) (items : list Q) :
  floats_at (h ++ [Floats items]) (List.length h) = items.
Proof. unfold floats_at. rewrite nth_error_alloc_new. reflexivity. Qed.

Lemma update_length (h : Heap) (r : ref) (o : object) :
  List.length (update h r o) = List.length h.
Proof.
  revert r. induction h as [|x h IH]; intros [|r]; cbn; auto.
Qed.

Lemma nth_error_update_same (h : Heap) (r : ref) (o : object) :
  (r < List.length h)%nat -> nth_error (update h r o) r = Some o.
Proof.
  revert r. induction h as [|x h IH]; intros [|r] H; cbn in *; try lia; auto.
  apply IH. lia.
Qed.

Lemma nth_error_update_other (h : Heap) (r r' : ref) (o : object) :
  r' <> r -> nth_error (update h r o) r' = nth_error h r'.
Proof.
  revert r r'. induction h as [|x h IH]; intros [|r] [|r'] H; cbn;
    first [reflexivity | contradiction | apply IH; congruence].
Qed.

Lemma append_length (r : ref) (x : Q) (h : Heap) :
  List.length (append r x h) = List.length h.
Proof.
  unfold append. destruct (nth_error h r) as [[items|items]|]; auto.
  apply update_length.
Qed.

Lemma nth_error_append_other (r r' : ref) (x : Q) (h : Heap) :
  r' <> r -> nth_error (append r x h) r' = nth_error h r'.
Proof.
  intros H. unfold append. destruct (nth_error h r) as [[items|items]|]; auto.
  apply nth_error_update_other, H.
Qed.

Lemma nth_error_append_same (r : ref) (x : Q) (h : Heap) (items : list Q) :
  nth_error h r = Some (Floats items) ->
  nth_error (append r x h) r = Some (Floats (items ++ [x])).
Proof.
  intros H. unfold append. rewrite H. apply nth_error_update_same.
  apply nth_error_Some. congruence.
Qed.

Lemma extends_refl (h : Heap) : extends h h.
Proof. split; auto. Qed.

Lemma extends_trans (h1 h2 h3 : Heap) :
  extends h1 h2 -> extends h2 h3 -> extends h1 h3.
Proof.
  intros [L1 H1] [L2 H2]. split; [lia|].
  intros r Hr. rewrite H2 by lia. apply H1, Hr.
Qed.

Lemma extends_alloc (h : Heap) (o : object) : extends h (h ++ [o]).
Proof.
  split; [rewrite length_app; lia|]. intros r Hr. apply nth_error_alloc_old, Hr.
Qed.

Lemma extends_trades_at (h h' : Heap) (r : ref) :
  extends h h' -> (r < List.length h)%nat -> trades_at h' r = trades_at h r.
Proof. intros [_ H] Hr. unfold trades_at. rewrite H by exact Hr. reflexivity. Qed.

Lemma extends_floats_at (h h' : Heap) (r : ref) :
  extends h h' -> (r < List.length h)%nat -> floats_at h' r = floats_at h r.
Proof. intros [_ H] Hr. unfold floats_at. rewrite H by exact Hr. reflexivity. Qed.

(** [analyze_performance] returns what [analyze_performance_on] computes from
    the contents of the trade list, and leaves every object of its caller
    as it was. *)
Lemma analyze_performance_sound (trade_records : ref)
    (initial_capital final_capital : Q) (h : Heap) :
  (trade_records < List.length h)%nat ->
  fst (analyze_performance trade_records initial_capital final_capital h)
  = analyze_performance_on (trades_at h trade_records) initial_capital final_capital
  /\ extends h (snd (analyze_performance trade_records initial_capital final_capital h)).
Proof.
  intros Hr. unfold analyze_performance, analyze_performance_on.
  destruct (negb (nonempty (trades_at h trade_records))); [split; [reflexivity|apply extends_refl]|].
  unfold alloc.
  destruct (truediv final_capital initial_capital) as [ratio|e]; cbn [fst snd].
  - split.
    + repeat (rewrite ?trades_at_alloc_new, ?floats_at_alloc_new;
              rewrite ?trades_at_alloc_old by (rewrite ?length_app; cbn; lia)).
      reflexivity.
    + repeat (eapply extends_trans; [|apply extends_alloc]). apply extends_refl.
  - split; [reflexivity|].
    repeat (eapply extends_trans; [|apply extends_alloc]). apply extends_refl.
Qed.

(** The appends of the returns loop go to [returns] alone, and fill it with
    what [returns_loop_on] computes. *)
Lemma returns_loop_sound (capital_values returns : ref) (indices : list nat) :
  forall (h : Heap) (so_far : list Q),
    capital_values <> returns ->
    nth_error h returns = Some (Floats so_far) ->
    let '(r, h') := returns_loop capital_values returns indices h in
    List.length h' = List.length h /\
    (forall r', r' <> returns -> nth_error h' r' = nth_error h r') /\
    match returns_loop_on (floats_at h capital_values) indices so_far with
    | Ok all => r = Ok tt /\ nth_error h' returns = Some (Floats all)
    | Raise e => r = Raise e
    end.
Proof.
  induction indices as [|i rest IH]; intros h so_far Hne Hret; cbn [returns_loop returns_loop_on].
  - auto.
  - destruct (nth_error (floats_at h capital_values) i) as [current|];
      [|repeat split; auto].
    destruct (nth_error (floats_at h capital_values) (i - 1)) as [previous|];
      [|repeat split; auto].
    destruct (truediv (current - previous) previous) as [daily_return|e];
      [|repeat split; auto].
    specialize (IH (append returns daily_return h) (so_far ++ [daily_return]) Hne
                  (nth_error_append_same returns daily_return h so_far Hret)).
    assert (Hcv : floats_at (append returns daily_return h) capital_values
                  = floats_at h capital_values).
    { unfold floats_at. rewrite nth_error_append_other by exact Hne. reflexivity. }
    rewrite Hcv in IH.
    destruct (returns_loop capital_values returns rest (append returns daily_return h))
      as [r h'].
    destruct IH as (Hlen & Hother & Hres).
    split; [rewrite Hlen; apply append_length|].
    split; [|exact Hres].
    intros r' Hr'. rewrite Hother by exact Hr'.
    apply nth_error_append_other, Hr'.
Qed.

(** [calculate_risk_metrics] returns what [calculate_risk_metrics_on]
    computes from the contents of the two lists, and leaves every object of
    its caller as it was. *)
Lemma calculate_risk_metrics_sound (trade_records capital_values : ref) (h : Heap) :
  (trade_records < List.length h)%nat ->
  (capital_values < List.length h)%nat ->
  fst (calculate_risk_metrics pow_half trade_records capital_values h)
  = calculate_risk_metrics_on pow_half (trades_at h trade_records)
      (floats_at h capital_values)
  /\ extends h (snd (calculate_risk_metrics pow_half trade_records capital_values h)).
Proof.
  intros Ht Hc. unfold calculate_risk_metrics, calculate_risk_metrics_on.
  destruct (floats_at h capital_values) as [|first [|second later]] eqn:Hcv;
    try (split; [reflexivity|apply extends_refl]).
  destruct (drawdown_loop (first :: second :: later) 0 first) as [max_drawdown|e];
    [|split; [reflexivity|apply extends_refl]].
  unfold alloc.
  assert (Hcv1 : floats_at (h ++ [Floats []]) capital_values = first :: second :: later).
  { rewrite floats_at_alloc_old by exact Hc. exact Hcv. }
  rewrite Hcv1.
  pose proof (returns_loop_sound capital_values (List.length h)
                (range_from_1 (List.length (first :: second :: later)))
                (h ++ [Floats []]) [] ltac:(lia)
                (nth_error_alloc_new h (Floats []))) as Hloop.
  rewrite Hcv1 in Hloop.
  destruct (returns_loop capital_values (List.length h)
              (range_from_1 (List.length (first :: second :: later)))
              (h ++ [Floats []])) as [r h2].
  destruct Hloop as (Hlen & Hother & Hres).
  assert (Hext2 : extends h h2).
  { split.
    - rewrite Hlen, length_app. lia.
    - intros r' Hr'. rewrite Hother by lia. apply nth_error_alloc_old, Hr'. }
  assert (Hlen2 : List.length h2 = S (List.length h)).
  { rewrite Hlen, length_app. cbn. lia. }
  destruct (returns_loop_on (first :: second :: later)
              (range_from_1 (List.length (first :: second :: later))) [])
    as [returns|e].
  2: { subst r. split; [reflexivity|exact Hext2]. }
  destruct Hres as [-> Hreturns].
  assert (Hret2 : floats_at h2 (List.length h) = returns).
  { unfold floats_at. rewrite Hreturns. reflexivity. }
  rewrite Hret2.
  destruct (volatility_sharpe pow_half returns) as [[volatility sharpe_ratio]|e];
    [|split; [reflexivity|exact Hext2]].
  rewrite (extends_trades_at h h2 trade_records Hext2 Ht).
  set (closed := filter is_closed (trades_at h trade_records)).
  rewrite trades_at_alloc_new.
  destruct (nonempty closed) eqn:Hclosed; cbn [fst snd].
  - split.
    + repeat (rewrite ?trades_at_alloc_new, ?floats_at_alloc_new;
              rewrite ?trades_at_alloc_old, ?floats_at_alloc_old
                by (rewrite ?length_app; cbn; lia)).
      rewrite Hret2. reflexivity.
    + eapply extends_trans; [exact Hext2|].
      repeat (eapply extends_trans; [|apply extends_alloc]). apply extends_refl.
  - split.
    + repeat (rewrite ?trades_at_alloc_new, ?floats_at_alloc_new;
              rewrite ?trades_at_alloc_old, ?floats_at_alloc_old
                by (rewrite ?length_app; cbn; lia)).
      rewrite Hret2. reflexivity.
    + eapply extends_trans; [exact Hext2|].
      repeat (eapply extends_trans; [|apply extends_alloc]). apply extends_refl.
Qed.

(** Two rounds of the analyzer on the same two lists. *)
Lemma analyzer_twice (trade_records capital_values : ref)
    (initial_capital final_capital : Q) (h : Heap) :
  (trade_records < List.length h)%nat ->
  (capital_values < List.length h)%nat ->
  let '(performance1, h1) :=
    analyze_performance trade_records initial_capital final_capital h in
  let '(risk1, h2) :=
    calculate_risk_metrics pow_half trade_records capital_values h1 in
  let '(performance2, h3) :=
    analyze_performance trade_records initial_capital final_capital h2 in
  let '(risk2, h4) :=
    calculate_risk_metrics pow_half trade_records capital_values h3 in
  performance1 = performance2 /\ risk1 = risk2 /\ extends h h4.
Proof.
  intros Ht Hc.
  destruct (analyze_performance_sound trade_records initial_capital
              final_capital h Ht) as [E1 X1].
  destruct (analyze_performance trade_records initial_capital final_capital h)
    as [performance1 h1]. cbn [fst snd] in *.
  assert (Ht1 : (trade_records < List.length h1)%nat) by (destruct X1; lia).
  assert (Hc1 : (capital_values < List.length h1)%nat) by (destruct X1; lia).
  destruct (calculate_risk_metrics_sound trade_records capital_values h1 Ht1 Hc1)
    as [E2 X2].
  destruct (calculate_risk_metrics pow_half trade_records capital_values h1)
    as [risk1 h2]. cbn [fst snd] in *.
  assert (Ht2 : (trade_records < List.length h2)%nat) by (destruct X2; lia).
  assert (Hc2 : (capital_values < List.length h2)%nat) by (destruct X2; lia).
  destruct (analyze_performance_sound trade_records initial_capital
              final_capital h2 Ht2) as [E3 X3].
  destruct (analyze_performance trade_records initial_capital final_capital h2)
    as [performance2 h3]. cbn [fst snd] in *.
  assert (Ht3 : (trade_records < List.length h3)%nat) by (destruct X3; lia).
  assert (Hc3 : (capital_values < List.length h3)%nat) by (destruct X3; lia).
  destruct (calculate_risk_metrics_sound trade_records capital_values h3 Ht3 Hc3)
    as [E4 X4].
  destruct (calculate_risk_metrics pow_half trade_records capital_values h3)
    as [risk2 h4]. cbn [fst snd] in *.
  assert (X02 : extends h h2) by (eapply extends_trans; eassumption).
  assert (X03 : extends h h3) by (eapply extends_trans; eassumption).
  split; [|split].
  - rewrite E1, E3. rewrite (extends_trades_at h h2 trade_records X02 Ht).
    reflexivity.
  - rewrite E2, E4.
    rewrite (extends_trades_at h h1 trade_records X1 Ht),
            (extends_floats_at h h1 capital_values X1 Hc),
            (extends_trades_at h h3 trade_records X03 Ht),
            (extends_floats_at h h3 capital_values X03 Hc).
    reflexivity.
  - eapply extends_trans; eassumption.
Qed.

End AnalyzerHeap.

(** C9: called twice on the same trade list and capital list, in any heap
    that holds the two, [analyze_performance] and [calculate_risk_metrics]
    yield identical results both times (the same metrics, or the same
    exception), and after the four calls the trade list and the capital
    list -- like every list object that existed before -- hold what they
    held: the analyzer only allocates lists of its own and appends only to
    those. *)
Theorem performance_analyzer_reproducible (pow_half : Q -> Q)
    (trade_records capital_values : PerformanceAnalyzer.ref)
    (initial_capital final_capital : Q) (h : PerformanceAnalyzer.Heap) :
  (trade_records < List.length h)%nat ->
  (capital_values < List.length h)%nat ->
  let '(performance1, h1) :=
    PerformanceAnalyzer.analyze_performance trade_records initial_capital
      final_capital h in
  let '(risk1, h2) :=
    PerformanceAnalyzer.calculate_risk_metrics pow_half trade_records
      capital_values h1 in
  let '(performance2, h3) :=
    PerformanceAnalyzer.analyze_performance trade_records initial_capital
      final_capital h2 in
  let '(risk2, h4) :=
    PerformanceAnalyzer.calculate_risk_metrics pow_half trade_records
      capital_values h3 in
  performance1 = performance2 /\ risk1 = risk2 /\
  PerformanceAnalyzer.trades_at h4 trade_records
  = PerformanceAnalyzer.trades_at h trade_records /\
  PerformanceAnalyzer.floats_at h4 capital_values
  = PerformanceAnalyzer.floats_at h capital_values /\
  forall r, (r < List.length h)%nat -> nth_error h4 r = nth_error h r.
Proof.
  intros Ht Hc.
  pose proof (analyzer_twice pow_half trade_records capital_values
                initial_capital final_capital h Ht Hc) as H.
  destruct (PerformanceAnalyzer.analyze_performance trade_records
              initial_capital final_capital h) as [performance1 h1].
  destruct (PerformanceAnalyzer.calculate_risk_metrics pow_half trade_records
              capital_values h1) as [risk1 h2].
  destruct (PerformanceAnalyzer.analyze_performance trade_records
              initial_capital final_capital h2) as [performance2 h3].
  destruct (PerformanceAnalyzer.calculate_risk_metrics pow_half trade_records
              capital_values h3) as [risk2 h4].
  destruct H as (Hp & Hr & Hx).
  split; [exact Hp|]. split; [exact Hr|].
  split; [apply extends_trades_at; assumption|].
  split; [apply extends_floats_at; assumption|].
  apply Hx.
Qed.

(** C9 at work: one winning and one losing closed trade, a capital curve of
    three values, and the identity standing in for the square root. *)
Lemma performance_analyzer_reproducible_witness :
  let '(performance1, h1) :=
    PerformanceAnalyzer.analyze_performance 0%nat 100000 100500 demo_heap in
  let '(risk1, h2) :=
    PerformanceAnalyzer.calculate_risk_metrics (fun x => x) 0%nat 1%nat h1 in
  let '(performance2, h3) :=
    PerformanceAnalyzer.analyze_performance 0%nat 100000 100500 h2 in
  let '(risk2, h4) :=
    PerformanceAnalyzer.calculate_risk_metrics (fun x => x) 0%nat 1%nat h3 in
  is_ok performance1 = true /\ is_ok risk1 = true /\
  performance1 = performance2 /\ risk1 = risk2 /\
  List.length h4 = 20%nat /\
  firstn 2 h4 = demo_heap.
Proof.
  pose proof (performance_analyzer_reproducible (fun x => x) 0%nat 1%nat 100000
                100500 demo_heap ltac:(cbn; lia) ltac:(cbn; lia)) as H.
  destruct (PerformanceAnalyzer.analyze_performance 0%nat 100000 100500 demo_heap)
    as [performance1 h1] eqn:E1.
  destruct (PerformanceAnalyzer.calculate_risk_metrics (fun x => x) 0%nat 1%nat h1)
    as [risk1 h2] eqn:E2.
  destruct (PerformanceAnalyzer.analyze_performance 0%nat 100000 100500 h2)
    as [performance2 h3] eqn:E3.
  destruct (PerformanceAnalyzer.calculate_risk_metrics (fun x => x) 0%nat 1%nat h3)
    as [risk2 h4] eqn:E4.
  destruct H as (Hp & Hr & _).
  vm_compute in E1. inversion E1; subst performance1 h1; clear E1.
  vm_compute in E2. inversion E2; subst risk1 h2; clear E2.
  vm_compute in E3. inversion E3; subst performance2 h3; clear E3.
  vm_compute in E4. inversion E4; subst risk2 h4; clear E4.
  repeat split; try reflexivity; assumption.
Defined.

(** ** The use case's post-processing (C10) *)

Section Sorting.

Context {A : Type} (key : A -> Q).

Lemma insert_reverse_In (x y : A) (l : list A) :
  In y (insert_reverse key x l) <-> y = x \/ In y l.
Proof.
  induction l as [|z l IH]; cbn.
  - intuition auto.
  - destruct (float_lt (key x) (key z)); cbn; rewrite ?IH; intuition auto.
Qed.

Lemma sorted_reverse_In (y : A) (l : list A) :
  In y (sorted_reverse key l) <-> In y l.
Proof.
  induction l as [|x l IH]; cbn; [tauto|].
  rewrite insert_reverse_In, IH. intuition auto.
Qed.

Lemma insert_reverse_sorted (x : A) (l : list A) :
  StronglySorted (descending key) l ->
  StronglySorted (descending key) (insert_reverse key x l).
Proof.
  induction 1 as [|z l Hl IH Hz]; cbn.
  - constructor; constructor.
  - destruct (float_lt (key x) (key z)) eqn:E.
    + apply float_lt_true in E. constructor; [exact IH|].
      apply Forall_forall. intros y Hy. apply insert_reverse_In in Hy.
      destruct Hy as [->|Hy].
      * apply Qlt_le_weak, E.
      * rewrite Forall_forall in Hz. apply Hz, Hy.
    + apply float_lt_false in E. constructor.
      * constructor; assumption.
      * constructor; [exact E|].
        rewrite Forall_forall in Hz |- *. intros y Hy.
        unfold descending. apply Qle_trans with (key z); [apply Hz, Hy|exact E].
Qed.

Lemma sorted_reverse_sorted (l : list A) :
  StronglySorted (descending key) (sorted_reverse key l).
Proof.
  induction l as [|x l IH]; cbn; [constructor|].
  apply insert_reverse_sorted, IH.
Qed.

(** Taking one element out of a sorted list leaves it sorted. *)
Lemma StronglySorted_remove_middle (l1 : list A) (x : A) (l2 : list A) :
  StronglySorted (descending key) (l1 ++ x :: l2) ->
  StronglySorted (descending key) (l1 ++ l2).
Proof.
  induction l1 as [|y l1 IH]; cbn; intros H; inversion H as [|? ? Hs Hf]; subst.
  - exact Hs.
  - constructor; [apply IH, Hs|].
    rewrite Forall_forall in Hf |- *. intros z Hz. apply Hf.
    apply in_app_or in Hz. apply in_or_app. cbn. tauto.
Qed.

(** In a sorted list an element stands before the ones that follow it. *)
Lemma StronglySorted_before (l1 : list A) (x : A) (l2 : list A) (b : A) :
  StronglySorted (descending key) (l1 ++ x :: l2) -> In b l1 -> descending key b x.
Proof.
  induction l1 as [|y l1 IH]; cbn; intros H Hb; [contradiction|].
  inversion H as [|? ? Hs Hf]; subst. destruct Hb as [->|Hb].
  - rewrite Forall_forall in Hf. apply Hf, in_or_app. cbn. tauto.
  - apply IH; assumption.
Qed.

End Sorting.

Section DictFacts.

Context {V : Type}.

Lemma dict_mem_keys (d : Dict.t V) (k : string) :
  Dict.mem d k = true <-> In k (Dict.keys d).
Proof.
  unfold Dict.mem, Dict.keys.
  induction d as [|[k' v] d IH]; cbn; [intuition discriminate|].
  destruct (String.eqb_spec k' k) as [->|Hne]; [tauto|].
  rewrite IH. intuition congruence.
Qed.

Lemma dict_set_fresh (d : Dict.t V) (k : string) (v : V) :
  Dict.mem d k = false -> Dict.set d k v = (d ++ [(k, v)])%list.
Proof.
  unfold Dict.mem.
  induction d as [|[k' v'] d IH]; cbn; [reflexivity|].
  destruct (String.eqb k' k); [discriminate|].
  intros H. rewrite IH by exact H. reflexivity.
Qed.

End DictFacts.

Section SignalKey.

Lemma string_length_append (s t : string) :
  String.length (s ++ t) = (String.length s + String.length t)%nat.
Proof. induction s as [|c s IH]; cbn; [reflexivity|]. rewrite IH. reflexivity. Qed.

(** Two concatenations with tails of equal length agree piecewise. *)
Lemma append_same_tail_length (s1 s2 t1 t2 : string) :
  String.length t1 = String.length t2 ->
  s1 ++ t1 = s2 ++ t2 -> s1 = s2 /\ t1 = t2.
Proof.
  revert s2. induction s1 as [|c s1 IH]; intros [|c' s2] Hlen H; cbn in H.
  - auto.
  - exfalso. apply (f_equal String.length) in H. cbn in H.
    rewrite string_length_append in H. lia.
  - exfalso. apply (f_equal String.length) in H. cbn in H.
    rewrite string_length_append in H. lia.
  - inversion H as [[Hc Hrest]]. destruct (IH s2 Hlen Hrest) as [-> ->]. auto.
Qed.

Lemma SignalAction_value_inj (a b : SignalAction) :
  SignalAction_value a = SignalAction_value b -> a = b.
Proof. destruct a, b; cbn; intros H; try reflexivity; discriminate H. Qed.

(** The dict key separates the (symbol, action) pairs: every action value
    has the same length, so the key determines both components. *)
Lemma key_inj (s s' : TradingSignal.t) :
  ScanMarketUseCase.key s = ScanMarketUseCase.key s' ->
  TradingSignal.symbol s = TradingSignal.symbol s' /\
  TradingSignal.action s = TradingSignal.action s'.
Proof.
  unfold ScanMarketUseCase.key. intros H.
  apply append_same_tail_length in H.
  - destruct H as [Hs Ht]. split; [exact Hs|].
    apply SignalAction_value_inj. cbn in Ht. congruence.
  - destruct (TradingSignal.action s), (TradingSignal.action s'); reflexivity.
Qed.

Lemma key_of_pair (s s' : TradingSignal.t) :
  TradingSignal.symbol s = TradingSignal.symbol s' ->
  TradingSignal.action s = TradingSignal.action s' ->
  ScanMarketUseCase.key s = ScanMarketUseCase.key s'.
Proof. unfold ScanMarketUseCase.key. intros -> ->. reflexivity. Qed.

End SignalKey.

Section Dedup.


Lemma step_cases (d : Dict.t TradingSignal.t) (a : TradingSignal.t) :
  (Dict.mem d (ScanMarketUseCase.key a) = false /\
   ScanMarketUseCase.remember d a = (d ++ [(ScanMarketUseCase.key a, a)])%list) \/
  (Dict.mem d (ScanMarketUseCase.key a) = true /\ ScanMarketUseCase.remember d a = d).
Proof.
  unfold ScanMarketUseCase.remember.
  destruct (Dict.mem d (ScanMarketUseCase.key a)) eqn:E; cbn [negb].
  - right. auto.
  - left. split; [reflexivity|]. apply dict_set_fresh, E.
Qed.

Lemma keyed_keys (d : Dict.t TradingSignal.t) :
  keyed d -> Dict.keys d = map ScanMarketUseCase.key (Dict.values d).
Proof.
  unfold keyed, Dict.keys, Dict.values. induction 1 as [|[k v] d Hk _ IH]; cbn.
  - reflexivity.
  - cbn in Hk. rewrite Hk, IH. reflexivity.
Qed.

Lemma step_keyed (d : Dict.t TradingSignal.t) (a : TradingSignal.t) :
  keyed d -> keyed (ScanMarketUseCase.remember d a).
Proof.
  intros H. destruct (step_cases d a) as [[_ ->]|[_ ->]]; [|exact H].
  apply Forall_app. split; [exact H|]. constructor; [reflexivity|constructor].
Qed.

(** A key met before hides a signal that is already stored. *)
Lemma mem_stored (d : Dict.t TradingSignal.t) (a : TradingSignal.t) :
  keyed d -> Dict.mem d (ScanMarketUseCase.key a) = true ->
  exists b, In b (Dict.values d) /\ ScanMarketUseCase.key b = ScanMarketUseCase.key a.
Proof.
  intros Hk Hm. apply dict_mem_keys in Hm. rewrite (keyed_keys d Hk) in Hm.
  apply in_map_iff in Hm. destruct Hm as (b & Hb & Hin). exists b. auto.
Qed.

Lemma keys_fresh (d : Dict.t TradingSignal.t) (k : string) (a : TradingSignal.t) :
  Dict.mem d k = false -> NoDup (Dict.keys d) ->
  NoDup (Dict.keys (d ++ [(k, a)])%list).
Proof.
  intros Hm Hn. unfold Dict.keys. rewrite map_app. cbn.
  apply NoDup_app; [exact Hn|repeat constructor; intros []|].
  intros k' Hin [Hk|[]]. subst k'.
  apply (proj2 (dict_mem_keys d k)) in Hin. congruence.
Qed.

Lemma values_app (d1 d2 : Dict.t TradingSignal.t) :
  Dict.values (d1 ++ d2)%list = (Dict.values d1 ++ Dict.values d2)%list.
Proof. unfold Dict.values. apply map_app. Qed.

Lemma fold_keeps (l : list TradingSignal.t) :
  forall d x, In x (Dict.values d) -> In x (Dict.values (fold_left ScanMarketUseCase.remember l d)).
Proof.
  induction l as [|a l IH]; intros d x Hx; [exact Hx|].
  cbn [fold_left]. apply IH.
  destruct (step_cases d a) as [[_ ->]|[_ ->]]; [|exact Hx].
  rewrite values_app. apply in_or_app. auto.
Qed.

Lemma fold_from (l : list TradingSignal.t) :
  forall d x, In x (Dict.values (fold_left ScanMarketUseCase.remember l d)) ->
              In x (Dict.values d) \/ In x l.
Proof.
  induction l as [|a l IH]; intros d x Hx; [left; exact Hx|].
  cbn [fold_left] in Hx. apply IH in Hx. destruct Hx as [Hx|Hx]; [|cbn; tauto].
  destruct (step_cases d a) as [[_ E]|[_ E]]; rewrite E in Hx; [|tauto].
  rewrite values_app in Hx. apply in_app_or in Hx. cbn in *. tauto.
Qed.

Lemma fold_nodup (l : list TradingSignal.t) :
  forall d, keyed d -> NoDup (Dict.keys d) ->
            NoDup (map ScanMarketUseCase.key
                       (Dict.values (fold_left ScanMarketUseCase.remember l d))).
Proof.
  induction l as [|a l IH]; intros d Hk Hn.
  - cbn [fold_left]. rewrite <- keyed_keys by exact Hk. exact Hn.
  - cbn [fold_left]. apply IH; [apply step_keyed, Hk|].
    destruct (step_cases d a) as [[Hm ->]|[_ ->]]; [|exact Hn].
    apply keys_fresh; assumption.
Qed.

Lemma fold_sorted (l : list TradingSignal.t) :
  forall d,
    StronglySorted (descending TradingSignal.confidence) (Dict.values d ++ l) ->
    StronglySorted (descending TradingSignal.confidence)
      (Dict.values (fold_left ScanMarketUseCase.remember l d)).
Proof.
  induction l as [|a l IH]; intros d Hs.
  - cbn [fold_left]. rewrite app_nil_r in Hs. exact Hs.
  - cbn [fold_left]. apply IH.
    destruct (step_cases d a) as [[_ ->]|[_ ->]].
    + rewrite values_app. cbn. rewrite <- app_assoc. exact Hs.
    + eapply StronglySorted_remove_middle. exact Hs.
Qed.

Lemma same_key_same_signal (l : list TradingSignal.t) (s s' : TradingSignal.t) :
  NoDup (map ScanMarketUseCase.key l) -> In s l -> In s' l ->
  ScanMarketUseCase.key s' = ScanMarketUseCase.key s -> s' = s.
Proof.
  induction l as [|x l IH]; cbn; intros Hn Hs Hs' Hk; [contradiction|].
  inversion Hn as [|? ? Hx Hl]; subst.
  destruct Hs as [->|Hs], Hs' as [->|Hs'].
  - reflexivity.
  - exfalso. apply Hx. rewrite <- Hk. apply in_map, Hs'.
  - exfalso. apply Hx. rewrite Hk. apply in_map, Hs.
  - apply IH; assumption.
Qed.

(** A stored signal has the highest confidence among the signals of its
    key, stored or still to come. *)
Lemma fold_highest (l : list TradingSignal.t) :
  forall d,
    keyed d -> NoDup (Dict.keys d) ->
    StronglySorted (descending TradingSignal.confidence) (Dict.values d ++ l) ->
    forall s s',
      In s (Dict.values (fold_left ScanMarketUseCase.remember l d)) ->
      In s' (Dict.values d ++ l) ->
      ScanMarketUseCase.key s' = ScanMarketUseCase.key s ->
      (TradingSignal.confidence s' <= TradingSignal.confidence s)%Q.
Proof.
  induction l as [|a l IH]; intros d Hk Hn Hs s s' Hin Hin' Hkey.
  - cbn [fold_left] in Hin. rewrite app_nil_r in Hin'.
    rewrite (keyed_keys d Hk) in Hn.
    rewrite (same_key_same_signal _ s s' Hn Hin Hin' Hkey). apply Qle_refl.
  - cbn [fold_left] in Hin.
    destruct (step_cases d a) as [[Hm E]|[Hm E]]; rewrite E in Hin.
    + apply (IH (d ++ [(ScanMarketUseCase.key a, a)])%list); try assumption.
      * rewrite <- E. apply step_keyed, Hk.
      * apply keys_fresh; assumption.
      * rewrite values_app. cbn. rewrite <- app_assoc. exact Hs.
      * rewrite values_app. cbn. rewrite <- app_assoc. exact Hin'.
    + assert (Hs' : StronglySorted (descending TradingSignal.confidence) (Dict.values d ++ l))
        by (eapply StronglySorted_remove_middle; exact Hs).
      apply in_app_or in Hin'. cbn in Hin'.
      destruct Hin' as [Hd|[->|Hl]].
      * apply (IH d Hk Hn Hs' s s' Hin); [apply in_or_app; auto|exact Hkey].
      * destruct (mem_stored d s' Hk Hm) as (b & Hb & Hbk).
        apply Qle_trans with (TradingSignal.confidence b).
        -- exact (StronglySorted_before TradingSignal.confidence _ _ _ b Hs Hb).
        -- apply (IH d Hk Hn Hs' s b Hin); [apply in_or_app; auto|congruence].
      * apply (IH d Hk Hn Hs' s s' Hin); [apply in_or_app; auto|exact Hkey].
Qed.

(** Every signal met has a stored signal of its key. *)
Lemma fold_covers (l : list TradingSignal.t) :
  forall d,
    keyed d ->
    forall s', In s' (Dict.values d ++ l) ->
               exists s,
                 In s (Dict.values (fold_left ScanMarketUseCase.remember l d)) /\
                 ScanMarketUseCase.key s = ScanMarketUseCase.key s'.
Proof.
  induction l as [|a l IH]; intros d Hk s' Hin.
  - rewrite app_nil_r in Hin. exists s'. auto.
  - cbn [fold_left]. apply in_app_or in Hin. cbn in Hin.
    destruct (step_cases d a) as [[Hm E]|[Hm E]]; rewrite E.
    + apply IH; [rewrite <- E; apply step_keyed, Hk|].
      rewrite values_app. cbn. rewrite <- app_assoc. apply in_or_app. cbn.
      tauto.
    + destruct Hin as [Hd|[->|Hl]].
      * apply IH; [exact Hk|apply in_or_app; auto].
      * destruct (mem_stored d s' Hk Hm) as (b & Hb & Hbk).
        exists b. split; [apply fold_keeps, Hb|exact Hbk].
      * apply IH; [exact Hk|apply in_or_app; auto].
Qed.

(** What [_process_signals] returns. *)
Lemma process_signals_spec (signals : list TradingSignal.t) :
  let out := ScanMarketUseCase._process_signals signals in
  StronglySorted (descending TradingSignal.confidence) out /\
  NoDup (map ScanMarketUseCase.key out) /\
  (forall s, In s out ->
     In s signals /\
     forall s', In s' signals -> ScanMarketUseCase.key s' = ScanMarketUseCase.key s ->
                (TradingSignal.confidence s' <= TradingSignal.confidence s)%Q) /\
  (forall s', In s' signals ->
     exists s, In s out /\ ScanMarketUseCase.key s = ScanMarketUseCase.key s').
Proof.
  unfold ScanMarketUseCase._process_signals. cbn zeta.
  set (sorted := sorted_reverse TradingSignal.confidence signals).
  assert (Hsorted : StronglySorted (descending TradingSignal.confidence) sorted)
    by apply sorted_reverse_sorted.
  assert (Hk : keyed (@Dict.empty TradingSignal.t)) by constructor.
  assert (Hn : NoDup (Dict.keys (@Dict.empty TradingSignal.t))) by constructor.
  split; [|split; [|split]].
  - apply fold_sorted. exact Hsorted.
  - apply fold_nodup; assumption.
  - intros s Hs. split.
    + apply fold_from in Hs. destruct Hs as [[]|Hs].
      apply (sorted_reverse_In TradingSignal.confidence). exact Hs.
    + intros s' Hs' Hkey.
      apply (fold_highest sorted Dict.empty Hk Hn Hsorted s s' Hs); [|exact Hkey].
      apply (sorted_reverse_In TradingSignal.confidence). exact Hs'.
  - intros s' Hs'. apply fold_covers; [exact Hk|].
    apply (sorted_reverse_In TradingSignal.confidence). exact Hs'.
Qed.

End Dedup.

(** C10: [execute] always returns a list; the list is sorted by confidence
    in descending order and holds at most one signal per (symbol, action)
    pair; and when the scan returned a list, every signal returned is one of
    the scan whose confidence is the highest among the scan's signals of its
    pair, and every pair of the scan is represented.  (When the scan raised,
    [execute] returns the empty list.) *)
Theorem execute_sorted_unique (self : ScanMarketUseCase.t) (w : World) :
  exists out w',
    ScanMarketUseCase.execute self w = (Ok out, w') /\
    StronglySorted (descending TradingSignal.confidence) out /\
    NoDup (map (fun s => (TradingSignal.symbol s, TradingSignal.action s)) out) /\
    forall signals w1,
      BullMarketAnalyzer.scan_market (ScanMarketUseCase.analyzer self) w
      = (Ok signals, w1) ->
      (forall s, In s out ->
         In s signals /\
         forall s', In s' signals ->
                    TradingSignal.symbol s' = TradingSignal.symbol s ->
                    TradingSignal.action s' = TradingSignal.action s ->
                    (TradingSignal.confidence s' <= TradingSignal.confidence s)%Q) /\
      (forall s', In s' signals ->
         exists s, In s out /\
                   TradingSignal.symbol s = TradingSignal.symbol s' /\
                   TradingSignal.action s = TradingSignal.action s').
Proof.
  unfold ScanMarketUseCase.execute, try_except, bind.
  destruct (BullMarketAnalyzer.scan_market (ScanMarketUseCase.analyzer self) w)
    as [[signals|e] w1].
  - exists (ScanMarketUseCase._process_signals signals), w1.
    destruct (process_signals_spec signals) as (Hsorted & Hnodup & Hmax & Hcover).
    split; [reflexivity|]. split; [exact Hsorted|]. split.
    + apply (NoDup_map_inv
               (fun pair : string * SignalAction =>
                  fst pair ++ "_" ++ SignalAction_value (snd pair))).
      rewrite map_map. exact Hnodup.
    + intros signals' w1' E. inversion E; subst signals' w1'. split.
      * intros s Hs. destruct (Hmax s Hs) as [Hin Hle]. split; [exact Hin|].
        intros s' Hs' Hsym Hact. apply Hle; [exact Hs'|].
        apply key_of_pair; assumption.
      * intros s' Hs'. destruct (Hcover s' Hs') as (s & Hs & Hkey).
        exists s. split; [exact Hs|]. apply key_inj, Hkey.
  - exists [], w1. split; [reflexivity|]. split; [constructor|].
    split; [constructor|]. intros signals w1' E. discriminate E.
Qed.

(** C10 at work: the scan yields HOLD 70 for the steady stock and SELL 85
    twice for the falling stock; [execute] returns SELL 85 once, then
    HOLD 70. *)
Lemma execute_sorted_unique_witness :
  exists out w',
    ScanMarketUseCase.execute demo_use_case at_0920 = (Ok out, w') /\
    map (fun s => (TradingSignal.symbol s, TradingSignal.action s,
                   TradingSignal.confidence s)) out
    = [("600000", SELL, 85%Q); ("000001", HOLD, 70%Q)] /\
    StronglySorted (descending TradingSignal.confidence) out.
Proof.
  destruct (execute_sorted_unique demo_use_case at_0920)
    as (out & w' & E & Hsorted & _).
  exists out, w'. split; [exact E|]. split; [|exact Hsorted].
  vm_compute in E. inversion E. reflexivity.
Defined.

(* ====================================================================== *)
(** * Further properties of the code *)
(* ====================================================================== *)

(** ** The portfolio *)

Section DictLaws.

Context {V : Type}.

Lemma dict_get_set_same (d : Dict.t V) (k : string) (v : V) :
  Dict.get (Dict.set d k v) k = Some v.
Proof.
  induction d as [|[k' v'] d IH]; cbn.
  - rewrite String.eqb_refl. reflexivity.
  - destruct (String.eqb k' k) eqn:E; cbn; rewrite E; [reflexivity|exact IH].
Qed.



Lemma dict_get_In (d : Dict.t V) (k : string) (v : V) :
  Dict.get d k = Some v -> In (k, v) d.
Proof.
  induction d as [|[k' v'] d IH]; cbn; [discriminate|].
  destruct (String.eqb_spec k' k) as [->|Hne].
  - intros H; inversion H; auto.
  - auto.
Qed.

Lemma dict_Forall_set (P : V -> Prop) (d : Dict.t V) (k : string) (v : V) :
  Forall (fun entry => P (snd entry)) d -> P v ->
  Forall (fun entry => P (snd entry)) (Dict.set d k v).
Proof.
  intros Hd Hv. induction Hd as [|[k' v'] d Hx Hd IH]; cbn.
  - constructor; [exact Hv|constructor].
  - destruct (String.eqb k' k); constructor; auto.
Qed.

(** Deleting the key just written deletes the entry written. *)
Lemma dict_Forall_del_set (P : V -> Prop) (d : Dict.t V) (k : string) (v : V) :
  Forall (fun entry => P (snd entry)) d ->
  Forall (fun entry => P (snd entry)) (Dict.del (Dict.set d k v) k).
Proof.
  intros Hd. induction Hd as [|[k' v'] d Hx Hd IH]; cbn.
  - rewrite String.eqb_refl. constructor.
  - destruct (String.eqb k' k) eqn:E; cbn; rewrite E; [exact Hd|].
    constructor; auto.
Qed.

Lemma dict_get_None_mem (d : Dict.t V) (k : string) :
  Dict.mem d k = false <-> Dict.get d k = None.
Proof. unfold Dict.mem. destruct (Dict.get d k); intuition discriminate. Qed.

End DictLaws.

Section PortfolioLaws.




End PortfolioLaws.



Section PortfolioInvariant.

Lemma add_position_keeps_positive (p : Portfolio.t) symbol quantity price commission w :
  held_positive p -> 0 < quantity ->
  held_positive (snd (fst (Portfolio.add_position p symbol quantity price commission w))).
Proof.
  unfold held_positive. intros Hp Hq. unfold Portfolio.add_position.
  destruct (Dict.get (Portfolio.positions p) symbol) as [existing|] eqn:E.
  - destruct (truediv _ _); [|exact Hp].
    unfold datetime_now. cbn.
    apply (dict_Forall_set (fun position => 0 < Position.quantity position));
      [exact Hp|].
    cbn. apply dict_get_In in E.
    rewrite Forall_forall in Hp. specialize (Hp _ E). cbn in Hp. lia.
  - unfold datetime_now. cbn.
    apply (dict_Forall_set (fun position => 0 < Position.quantity position));
      [exact Hp|exact Hq].
Qed.

Lemma remove_position_keeps_positive (p : Portfolio.t) symbol quantity price commission w :
  held_positive p ->
  held_positive (snd (fst (Portfolio.remove_position p symbol quantity price commission w))).
Proof.
  unfold held_positive. intros Hp. unfold Portfolio.remove_position.
  destruct (Dict.get (Portfolio.positions p) symbol) as [position|] eqn:E;
    [|exact Hp].
  destruct (quantity >? Position.quantity position) eqn:Hgt; [exact Hp|].
  unfold datetime_now. cbn.
  destruct (Position.quantity position - quantity =? 0) eqn:Hz; cbn.
  - apply (dict_Forall_del_set (fun position => 0 < Position.quantity position)).
    exact Hp.
  - apply (dict_Forall_set (fun position => 0 < Position.quantity position));
      [exact Hp|].
    cbn. apply Z.eqb_neq in Hz. rewrite Z.gtb_ltb in Hgt.
    apply Z.ltb_ge in Hgt. lia.
Qed.

End PortfolioInvariant.

(** X2: over any sequence of [add_position] and [remove_position] calls
    (a call that raises is skipped) in which every purchase is of a
    positive quantity, a portfolio whose positions all have a positive
    quantity keeps that property: a position sold out is deleted, and none
    is left with zero or fewer shares. *)
Theorem positions_stay_positive (calls : list call) :
  forall (p : Portfolio.t) (w : World),
    Forall (fun c => match c with
                     | open_position _ quantity _ _ => 0 < quantity
                     | close_position _ _ _ _ => True
                     end) calls ->
    held_positive p ->
    held_positive (fst (run_calls calls p w)).
Proof.
  induction calls as [|c rest IH]; intros p w Hcalls Hp; [exact Hp|].
  inversion Hcalls as [|c' rest' Hc Hrest]; subst.
  cbn [run_calls].
  destruct (run_call c p w) as [p' w'] eqn:E.
  apply IH; [exact Hrest|].
  destruct c as [s q pr cm | s q pr cm]; unfold run_call in E.
  - pose proof (add_position_keeps_positive p s q pr cm w Hp Hc) as H.
    destruct (Portfolio.add_position p s q pr cm w) as [[r p1] w1].
    inversion E; subst. exact H.
  - pose proof (remove_position_keeps_positive p s q pr cm w Hp) as H.
    destruct (Portfolio.remove_position p s q pr cm w) as [[r p1] w1].
    inversion E; subst. exact H.
Qed.

(** X2 at work: AAA is bought, sold in part, topped up and sold out. *)
Lemma positions_stay_positive_witness :
  held_positive
    (fst (run_calls [open_position "AAA" 100 10 3; close_position "AAA" 40 12 (48 # 10);
                     open_position "AAA" 50 11 3; close_position "AAA" 110 12 5]
            Portfolio.default at_0920)).
Proof.
  apply positions_stay_positive.
  - repeat constructor.
  - constructor.
Defined.

Section DictUnique.

Context {V : Type}.

Lemma dict_get_not_key (d : Dict.t V) (k : string) :
  ~ In k (Dict.keys d) -> Dict.get d k = None.
Proof.
  intros H. apply dict_get_None_mem.
  destruct (Dict.mem d k) eqn:E; [|reflexivity].
  apply dict_mem_keys in E. contradiction.
Qed.

(** In a dict (keys unique), a deleted key is gone. *)
Lemma dict_get_del_same (d : Dict.t V) (k : string) :
  NoDup (Dict.keys d) -> Dict.get (Dict.del d k) k = None.
Proof.
  unfold Dict.keys.
  induction d as [|[k' v'] d IH]; cbn; [reflexivity|].
  intros Hnd. inversion Hnd as [|? ? Hnotin Hnd']; subst.
  destruct (String.eqb_spec k' k) as [->|Hne].
  - apply dict_get_not_key. exact Hnotin.
  - cbn. destruct (String.eqb_spec k' k); [contradiction|]. apply IH, Hnd'.
Qed.

Lemma dict_keys_set (d : Dict.t V) (k : string) (v old : V) :
  Dict.get d k = Some old -> Dict.keys (Dict.set d k v) = Dict.keys d.
Proof.
  unfold Dict.keys.
  induction d as [|[k' v'] d IH]; cbn; [discriminate|].
  destruct (String.eqb_spec k' k) as [->|Hne]; cbn; [reflexivity|].
  intros H. rewrite IH by exact H. reflexivity.
Qed.

End DictUnique.

(** ** Value objects and business rules *)

Section FloatCases.

Lemma float_le_false (x y : Q) : float_le x y = false <-> (y < x)%Q.
Proof.
  unfold float_le. split.
  - intros H. apply Qnot_le_lt. intros Hle. apply Qle_bool_iff in Hle. congruence.
  - intros H. destruct (Qle_bool x y) eqn:E; [|reflexivity].
    apply Qle_bool_iff in E. exfalso. exact (Qlt_not_le _ _ H E).
Qed.

Lemma float_gt_true (x y : Q) : float_gt x y = true <-> (y < x)%Q.
Proof. unfold float_gt. apply float_lt_true. Qed.

Lemma float_gt_false (x y : Q) : float_gt x y = false <-> (x <= y)%Q.
Proof. unfold float_gt. apply float_lt_false. Qed.

End FloatCases.

(** Case analysis on every comparison of floats in the goal, each case
    with the order it stands for. *)
Ltac no_comparison t :=
  lazymatch t with
  | context [float_lt _ _] => fail
  | context [float_le _ _] => fail
  | _ => idtac
  end.

Ltac float_cases :=
  repeat match goal with
  | |- context [float_lt ?a ?b] =>
      no_comparison a; no_comparison b;
      let E := fresh "E" in
      destruct (float_lt a b) eqn:E;
      [apply float_lt_true in E | apply float_lt_false in E];
      cbv iota
  | |- context [float_le ?a ?b] =>
      no_comparison a; no_comparison b;
      let E := fresh "E" in
      destruct (float_le a b) eqn:E;
      [apply float_le_true in E | apply float_le_false in E];
      cbv iota
  end.

Ltac float_unfold :=
  unfold Py.max, Py.min, float_gt, float_ge in *.

(** The clamp at the end of both scores. *)
Lemma clamp_range (score : Q) : (0 <= Py.max 0 (Py.min 100 score) <= 100)%Q.
Proof. float_unfold. float_cases; lra. Qed.

(** X6: the range of [risk_score] and where it saturates.  The score lies
    between 0 and 100, as its docstring says.  With a maximum drawdown of
    at most 0.1 it is 100 -- the rewards for the Sharpe ratio and the win
    rate are added on top of 100 and cut off again, so they show only once
    the drawdown penalty applies; with a maximum drawdown of 0.38 or more
    it is 0, as the penalty of 500 per unit then outweighs the two rewards
    of at most 20 each. *)
Theorem risk_score_saturates (metrics : RiskMetrics.t) :
  (0 <= RiskMetrics.risk_score metrics <= 100)%Q /\
  ((RiskMetrics.max_drawdown metrics <= 1 # 10)%Q ->
   RiskMetrics.risk_score metrics = 100%Q) /\
  ((38 # 100 <= RiskMetrics.max_drawdown metrics)%Q ->
   RiskMetrics.risk_score metrics = 0%Q).
Proof.
  split; [apply clamp_range|].
  unfold RiskMetrics.risk_score. cbn zeta.
  split; intros H; float_unfold; float_cases; try reflexivity; exfalso; lra.
Qed.

(** X6 at work: the figures of [assess_risk] score 100; a drawdown of 0.5
    scores 0 even with a Sharpe ratio of 3 and a win rate of 1. *)
Lemma risk_score_saturates_witness :
  RiskMetrics.risk_score
    (BullMarketAnalyzer.assess_risk demo_analyzer Portfolio.default []) = 100%Q /\
  RiskMetrics.risk_score (RiskMetrics.mk (1 # 2) 3 0 1 0 0 0 0 0) = 0%Q.
Proof.
  split.
  - apply (proj1 (proj2 (risk_score_saturates
                    (BullMarketAnalyzer.assess_risk demo_analyzer Portfolio.default [])))).
    apply Qle_bool_iff. reflexivity.
  - apply (proj2 (proj2 (risk_score_saturates (RiskMetrics.mk (1 # 2) 3 0 1 0 0 0 0 0)))).
    apply Qle_bool_iff. reflexivity.
Defined.

(** X7: a deeper drawdown never improves the score: with every other
    figure equal, [risk_score] is antitone in [max_drawdown]. *)
Theorem risk_score_falls_with_drawdown (metrics : RiskMetrics.t) (deeper : Q) :
  (RiskMetrics.max_drawdown metrics <= deeper)%Q ->
  (RiskMetrics.risk_score
     (RiskMetrics.mk deeper
        (RiskMetrics.sharpe_ratio metrics) (RiskMetrics.volatility metrics)
        (RiskMetrics.win_rate metrics) (RiskMetrics.profit_loss_ratio metrics)
        (RiskMetrics.calmar_ratio metrics) (RiskMetrics.sortino_ratio metrics)
        (RiskMetrics.max_consecutive_losses metrics)
        (RiskMetrics.recovery_factor metrics))
   <= RiskMetrics.risk_score metrics)%Q.
Proof.
  intros H. unfold RiskMetrics.risk_score. cbn zeta.
  cbn [RiskMetrics.max_drawdown RiskMetrics.sharpe_ratio RiskMetrics.win_rate].
  float_unfold; float_cases; lra.
Qed.

(** X7 at work: a drawdown of 0.2 against none. *)
Lemma risk_score_falls_with_drawdown_witness :
  (RiskMetrics.risk_score (RiskMetrics.mk (2 # 10) 0 0 0 0 0 0 0 0)
   <= RiskMetrics.risk_score RiskMetrics.default)%Q.
Proof.
  apply (risk_score_falls_with_drawdown RiskMetrics.default (2 # 10)).
  apply Qle_bool_iff. reflexivity.
Defined.

(** X9: the two updates of an [AnalysisConfig] build a new object and so
    run the validation again.  On a configuration that passed it,
    [with_updated_sectors] always succeeds and changes the sectors only;
    [with_updated_threshold] succeeds exactly when the new threshold is
    above 0 and at most 100, changing the threshold only, and otherwise
    raises the [ValueError] of the threshold check. *)
Theorem config_updates_revalidate (self : AnalysisConfig.t)
    (sectors : list string) (threshold : Q) :
  AnalysisConfig.__post_init__ self = Ok tt ->
  AnalysisConfig.with_updated_sectors self sectors
  = Ok (AnalysisConfig.mk sectors
          (AnalysisConfig.confidence_threshold self)
          (AnalysisConfig.max_position_size self)
          (AnalysisConfig.enable_parallel self)
          (AnalysisConfig.max_workers self)
          (AnalysisConfig.analysis_timeout self)
          (AnalysisConfig.enable_caching self)
          (AnalysisConfig.cache_ttl self))
  /\
  match AnalysisConfig.with_updated_threshold self threshold with
  | Ok config =>
      (0 < threshold <= 100)%Q /\
      config = AnalysisConfig.mk (AnalysisConfig.sectors self) threshold
                 (AnalysisConfig.max_position_size self)
                 (AnalysisConfig.enable_parallel self)
                 (AnalysisConfig.max_workers self)
                 (AnalysisConfig.analysis_timeout self)
                 (AnalysisConfig.enable_caching self)
                 (AnalysisConfig.cache_ttl self)
  | Raise e =>
      ~ (0 < threshold <= 100)%Q /\ e = ValueError "置信度阈值必须在0-100之间"
  end.
Proof.
  unfold AnalysisConfig.with_updated_sectors, AnalysisConfig.with_updated_threshold,
    AnalysisConfig.new, AnalysisConfig.__post_init__.
  cbn [AnalysisConfig.confidence_threshold AnalysisConfig.max_position_size].
  destruct (float_lt 0 (AnalysisConfig.confidence_threshold self)
            && float_le (AnalysisConfig.confidence_threshold self) 100);
    cbn [negb]; [|discriminate].
  destruct (float_lt 0 (AnalysisConfig.max_position_size self)
            && float_le (AnalysisConfig.max_position_size self) 1);
    cbn [negb]; [|discriminate].
  intros _. split; [reflexivity|].
  destruct (float_lt 0 threshold) eqn:E1; cbn [andb negb].
  - destruct (float_le threshold 100) eqn:E2; cbn [negb].
    + apply float_lt_true in E1. apply float_le_true in E2.
      split; [split; assumption|reflexivity].
    + apply float_le_false in E2. split; [|reflexivity]. intros [_ H]. lra.
  - apply float_lt_false in E1. split; [|reflexivity]. intros [H _]. lra.
Qed.

(** X9 at work, on the default configuration: new sectors are accepted, a
    threshold of 150 is refused. *)
Lemma config_updates_revalidate_witness :
  AnalysisConfig.with_updated_sectors AnalysisConfig.default ["BK0001"]
  = Ok (AnalysisConfig.mk ["BK0001"] 80 (1 # 10) true 8 15 true 300)
  /\
  AnalysisConfig.with_updated_threshold AnalysisConfig.default 150
  = Raise (ValueError "置信度阈值必须在0-100之间").
Proof.
  destruct (config_updates_revalidate AnalysisConfig.default ["BK0001"] 150 eq_refl)
    as [Hsectors Hthreshold].
  split; [exact Hsectors|].
  destruct (AnalysisConfig.with_updated_threshold AnalysisConfig.default 150)
    as [config|e].
  - destruct Hthreshold as [[_ H] _]. exfalso. apply (Qle_not_lt _ _ H). reflexivity.
  - destruct Hthreshold as [_ ->]. reflexivity.
Defined.

(** X10: the views that a [BacktestResult] gives of its outcome agree:
    [is_profitable] holds exactly when [total_return_pct] is above 0; and
    [performance_score] lies between 0 and 100, as its docstring says. *)
Theorem backtest_result_views (result : BacktestResult.t) :
  BacktestResult.is_profitable result
  = float_gt (BacktestResult.total_return_pct result) 0
  /\
  (0 <= BacktestResult.performance_score result <= 100)%Q.
Proof.
  split; [|apply clamp_range].
  unfold BacktestResult.is_profitable, BacktestResult.total_return_pct, Qdiv.
  change (/ 100000)%Q with (1 # 100000)%Q.
  float_unfold; float_cases; try reflexivity; exfalso; lra.
Qed.

Section Slots.

Variable time : datetime.

Lemma contains_slot (name start_time end_time : string) (a b : Py.time) :
  TimeSlot.strptime_HM start_time = Ok a ->
  TimeSlot.strptime_HM end_time = Ok b ->
  TimeSlot.contains (TimeSlot.mk name start_time end_time) time
  = Ok ((a <=? time_of time) && (time_of time <=? b)).
Proof.
  intros Ha Hb. unfold TimeSlot.contains.
  cbn [TimeSlot.start_time TimeSlot.end_time]. rewrite Ha, Hb. reflexivity.
Qed.

(** What the four slots of [trading_slots] test. *)
Lemma trading_slots_contain (slot : TimeSlot.t) :
  In slot TimeSlot.trading_slots ->
  exists a b,
    In (a, b) [ (mk_time 9 15, mk_time 9 30); (mk_time 9 30, mk_time 11 30);
                (mk_time 13 0, mk_time 14 30); (mk_time 14 30, mk_time 15 0) ] /\
    TimeSlot.contains slot time = Ok ((a <=? time_of time) && (time_of time <=? b)).
Proof.
  intros [<-|[<-|[<-|[<-|[]]]]]; eexists; eexists;
    (split; [|apply contains_slot; reflexivity]); cbn; tauto.
Qed.

End Slots.

(** The slots of [TimeSlot.trading_slots()] and the classification of the
    strategies agree. *)
Lemma trading_slots_agree (time : datetime) :
  (exists slot, In slot TimeSlot.trading_slots /\
                TimeSlot.contains slot time = Ok true)
  <-> BaseStrategy._get_time_slot time <> "non_trading".
Proof.
  unfold BaseStrategy._get_time_slot, BaseStrategy.time_slots. cbn [find].
  split.
  - intros (slot & Hin & Hc).
    destruct (trading_slots_contain time slot Hin) as (a & b & Hab & Hslot).
    rewrite Hslot in Hc. inversion Hc as [Htrue]. clear Hc Hslot.
    cbn [In] in Hab.
    destruct Hab as [E|[E|[E|[E|[]]]]]; inversion E; subst a b; clear E;
      repeat match goal with
      | |- context [if ?c then _ else _] =>
          destruct c eqn:?; try discriminate; try congruence
      end.
  - intros H.
    destruct ((mk_time 9 15 <=? time_of time) && (time_of time <=? mk_time 9 30)) eqn:E1.
    { exists (TimeSlot.mk "早盘竞价" "09:15" "09:30"). split; [cbn; tauto|].
      rewrite (contains_slot time _ _ _ (mk_time 9 15) (mk_time 9 30)) by reflexivity.
      rewrite E1. reflexivity. }
    destruct ((mk_time 9 30 <=? time_of time) && (time_of time <=? mk_time 11 30)) eqn:E2.
    { exists (TimeSlot.mk "上午交易" "09:30" "11:30"). split; [cbn; tauto|].
      rewrite (contains_slot time _ _ _ (mk_time 9 30) (mk_time 11 30)) by reflexivity.
      rewrite E2. reflexivity. }
    destruct ((mk_time 13 0 <=? time_of time) && (time_of time <=? mk_time 14 30)) eqn:E3.
    { exists (TimeSlot.mk "下午交易" "13:00" "14:30"). split; [cbn; tauto|].
      rewrite (contains_slot time _ _ _ (mk_time 13 0) (mk_time 14 30)) by reflexivity.
      rewrite E3. reflexivity. }
    destruct ((mk_time 14 30 <=? time_of time) && (time_of time <=? mk_time 15 0)) eqn:E4.
    { exists (TimeSlot.mk "尾盘交易" "14:30" "15:00"). split; [cbn; tauto|].
      rewrite (contains_slot time _ _ _ (mk_time 14 30) (mk_time 15 0)) by reflexivity.
      rewrite E4. reflexivity. }
    exfalso. apply H. reflexivity.
Qed.

(** The slots overlap at their shared bounds and nowhere else. *)
Lemma trading_slots_overlap (time : datetime) :
  (exists slot1 slot2,
     In slot1 TimeSlot.trading_slots /\ In slot2 TimeSlot.trading_slots /\
     slot1 <> slot2 /\
     TimeSlot.contains slot1 time = Ok true /\
     TimeSlot.contains slot2 time = Ok true)
  <-> time_of time = mk_time 9 30 \/ time_of time = mk_time 14 30.
Proof.
  split.
  - intros (slot1 & slot2 & Hin1 & Hin2 & Hne & Hc1 & Hc2).
    cbn [TimeSlot.trading_slots In] in Hin1, Hin2.
    destruct Hin1 as [<-|[<-|[<-|[<-|[]]]]];
      destruct Hin2 as [<-|[<-|[<-|[<-|[]]]]];
      try congruence;
      match type of Hc1 with
      | TimeSlot.contains (TimeSlot.mk _ ?s ?e) _ = _ =>
          rewrite (contains_slot time _ s e _ _ eq_refl eq_refl) in Hc1
      end;
      match type of Hc2 with
      | TimeSlot.contains (TimeSlot.mk _ ?s ?e) _ = _ =>
          rewrite (contains_slot time _ s e _ _ eq_refl eq_refl) in Hc2
      end;
      inversion Hc1 as [H1]; inversion Hc2 as [H2];
      apply andb_true_iff in H1; apply andb_true_iff in H2;
      rewrite !Z.leb_le in H1, H2; unfold mk_time in *; lia.
  - intros [H|H].
    + exists (TimeSlot.mk "早盘竞价" "09:15" "09:30"),
             (TimeSlot.mk "上午交易" "09:30" "11:30").
      split; [cbn; tauto|]. split; [cbn; tauto|]. split; [discriminate|].
      rewrite (contains_slot time _ "09:15" "09:30" _ _ eq_refl eq_refl),
              (contains_slot time _ "09:30" "11:30" _ _ eq_refl eq_refl), H.
      split; reflexivity.
    + exists (TimeSlot.mk "下午交易" "13:00" "14:30"),
             (TimeSlot.mk "尾盘交易" "14:30" "15:00").
      split; [cbn; tauto|]. split; [cbn; tauto|]. split; [discriminate|].
      rewrite (contains_slot time _ "13:00" "14:30" _ _ eq_refl eq_refl),
              (contains_slot time _ "14:30" "15:00" _ _ eq_refl eq_refl), H.
      split; reflexivity.
Qed.

(** X13: the four slots of [TimeSlot.trading_slots()], tested by
    [TimeSlot.contains] (which parses the bounds of the slot), against the
    classification of the strategies.  A time lies in one of the slots
    exactly when [_get_time_slot] does not answer non-trading; and it lies
    in two different slots exactly when it is 09:30:00 or 14:30:00 sharp:
    the slots are closed intervals that meet at their bounds. *)
Theorem trading_slots_cover_and_meet (time : datetime) :
  ((exists slot, In slot TimeSlot.trading_slots /\
                 TimeSlot.contains slot time = Ok true)
   <-> BaseStrategy._get_time_slot time <> "non_trading")
  /\
  ((exists slot1 slot2,
      In slot1 TimeSlot.trading_slots /\ In slot2 TimeSlot.trading_slots /\
      slot1 <> slot2 /\
      TimeSlot.contains slot1 time = Ok true /\
      TimeSlot.contains slot2 time = Ok true)
   <-> time_of time = mk_time 9 30 \/ time_of time = mk_time 14 30).
Proof.
  split; [apply trading_slots_agree|apply trading_slots_overlap].
Qed.

(** ** The strategies *)

Section Probe.

(** The throw-away signal of the strategies has price 0: its constructor
    raises, whatever the confidence. *)
Lemma probe_raises (action : SignalAction) (confidence : Q) (timestamp : datetime) :
  TradingSignal.positional EmptyString EmptyString EmptyString action confidence 0
    [] timestamp
  = Raise (ValueError (if float_le 0 confidence && float_le confidence 100
                       then "价格必须大于0" else "置信度必须在0-100之间")).
Proof.
  unfold TradingSignal.positional, TradingSignal.new, TradingSignal.__post_init__.
  cbn [TradingSignal.confidence TradingSignal.price].
  destruct (float_le 0 confidence && float_le confidence 100); reflexivity.
Qed.

End Probe.

Section TPlusOneBranches.

Variable md : MarketData.t.
Variable config : AnalysisConfig.t.

(** Which branch [analyze_market_data] takes: none, or one of the three
    strategies of the slots, run after the clock has been read once. *)
Lemma t_plus_one_dispatch (w : World) :
  let w1 := snd (datetime_now w) in
  TPlusOneStrategy.analyze_market_data md config w = (Ok None, w1) \/
  (BaseStrategy._get_time_slot (next_reading w) = "early_morning" /\
   TPlusOneStrategy.analyze_market_data md config w
   = TPlusOneStrategy._early_morning_strategy md config w1) \/
  TPlusOneStrategy.analyze_market_data md config w
  = TPlusOneStrategy._intraday_trading_strategy md config w1 \/
  TPlusOneStrategy.analyze_market_data md config w
  = TPlusOneStrategy._late_afternoon_strategy md config w1.
Proof.
  cbn zeta. unfold next_reading.
  remember (TPlusOneStrategy.analyze_market_data md config w) as outcome eqn:Ho.
  unfold TPlusOneStrategy.analyze_market_data in Ho.
  unfold bind at 1, io at 1, datetime_now in Ho. cbn zeta beta iota in Ho.
  unfold datetime_now. cbn [snd].
  set (slot := BaseStrategy._get_time_slot (clock w (clock_reads w))) in *.
  destruct (slot =? "non_trading")%string; [left; exact Ho|].
  destruct (slot =? "early_morning")%string eqn:E1.
  { right; left. apply String.eqb_eq in E1. split; [exact E1|exact Ho]. }
  destruct (existsb (String.eqb slot) ["morning_session"; "afternoon_session"]);
    [right; right; left; exact Ho|].
  destruct (slot =? "late_afternoon")%string;
    [right; right; right; exact Ho|left; exact Ho].
Qed.

(** A signal of the pre-open branch. *)
Lemma early_morning_signal (w w' : World) (signal : TradingSignal.t) :
  TPlusOneStrategy._early_morning_strategy md config w = (Ok (Some signal), w') ->
  (MarketData.change_pct md < -2)%Q /\
  TradingSignal.action signal = SELL /\
  TradingSignal.confidence signal = 85%Q.
Proof.
  unfold TPlusOneStrategy._early_morning_strategy.
  destruct (float_lt (MarketData.change_pct md) (-2)) eqn:Hc; [|discriminate].
  apply float_lt_true in Hc. intros H. split; [exact Hc|].
  unfold bind, io, datetime_now, lift, TradingSignal.new in H.
  cbn zeta beta iota in H.
  destruct (TradingSignal.__post_init__ _); [|discriminate].
  unfold ret in H. inversion H; subst. split; reflexivity.
Qed.

(** The intraday and the closing branch return no signal. *)
Lemma intraday_silent (w w' : World) (signal : TradingSignal.t) :
  TPlusOneStrategy._intraday_trading_strategy md config w <> (Ok (Some signal), w').
Proof.
  unfold TPlusOneStrategy._intraday_trading_strategy.
  destruct (_ && _); [|discriminate].
  unfold bind, io, datetime_now, lift. cbn zeta beta iota.
  destruct (truediv _ _); [|discriminate].
  rewrite probe_raises. discriminate.
Qed.

Lemma late_afternoon_silent (w w' : World) (signal : TradingSignal.t) :
  TPlusOneStrategy._late_afternoon_strategy md config w <> (Ok (Some signal), w').
Proof.
  unfold TPlusOneStrategy._late_afternoon_strategy.
  destruct (float_lt _ _); [|discriminate].
  unfold bind, io, datetime_now, lift. cbn zeta beta iota.
  rewrite probe_raises. discriminate.
Qed.

End TPlusOneBranches.

(** X14: the only signals the T+1 strategy ever returns are the SELL
    signals of the pre-open slot: whenever [analyze_market_data] returns a
    signal, the clock read 09:15 to 09:30, the stock is more than 2% down,
    and the signal is a SELL of confidence 85.  In the other slots the
    strategy returns no signal or raises: the signal it would return there
    takes its position size from a throw-away [TradingSignal] with price
    0, whose constructor raises. *)
Theorem t_plus_one_signals_are_pre_open_sells (md : MarketData.t)
    (config : AnalysisConfig.t) (w w' : World) (signal : TradingSignal.t) :
  TPlusOneStrategy.analyze_market_data md config w = (Ok (Some signal), w') ->
  BaseStrategy._get_time_slot (next_reading w) = "early_morning" /\
  (MarketData.change_pct md < -2)%Q /\
  TradingSignal.action signal = SELL /\
  TradingSignal.confidence signal = 85%Q.
Proof.
  intros H.
  destruct (t_plus_one_dispatch md config w) as [E|[[Hslot E]|[E|E]]];
    rewrite E in H.
  - discriminate H.
  - split; [exact Hslot|]. exact (early_morning_signal md config _ _ _ H).
  - exfalso. exact (intraday_silent md config _ _ _ H).
  - exfalso. exact (late_afternoon_silent md config _ _ _ H).
Qed.

(** X14 at work: 09:20, a stock 3% down. *)
Lemma t_plus_one_signals_are_pre_open_sells_witness :
  exists signal w',
    TPlusOneStrategy.analyze_market_data falling_stock AnalysisConfig.default at_0920
    = (Ok (Some signal), w') /\
    TradingSignal.action signal = SELL /\
    TradingSignal.confidence signal = 85%Q.
Proof.
  destruct (TPlusOneStrategy.analyze_market_data falling_stock
              AnalysisConfig.default at_0920) as [[[signal|]|e] w'] eqn:E;
    try (vm_compute in E; discriminate E).
  exists signal, w'. split; [reflexivity|].
  destruct (t_plus_one_signals_are_pre_open_sells _ _ _ _ _ E) as (_ & _ & Ha & Hc).
  split; assumption.
Defined.

(** The three outcomes of the momentum strategy. *)
Lemma momentum_outcome (md : MarketData.t) (config : AnalysisConfig.t)
    (w : World) :
  let triggered :=
    (5 < MarketData.change_pct md)%Q /\
    (MarketData.additional md "avg_volume" 0 * 2 < float (MarketData.volume md))%Q in
  match fst (MomentumStrategy.analyze_market_data md config w) with
  | Ok (Some _) => False
  | Ok None => ~ triggered
  | Raise e =>
      triggered /\
      e = if Qeq_bool (MarketData.additional md "avg_volume" 1) 0
          then ZeroDivisionError else ValueError "价格必须大于0"
  end.
Proof.
  cbn zeta. unfold MomentumStrategy.analyze_market_data.
  destruct (float_gt (MarketData.change_pct md) 5) eqn:E1; cbn [andb].
  - apply float_gt_true in E1.
    destruct (float_gt (float (MarketData.volume md)) _) eqn:E2.
    + apply float_gt_true in E2.
      unfold bind, io, datetime_now, lift, truediv. cbn zeta beta iota.
      destruct (Qeq_bool (MarketData.additional md "avg_volume" 1) 0).
      * cbn. split; [split; assumption|reflexivity].
      * rewrite probe_raises. cbn [fst].
        split; [split; assumption|].
        replace (float_le 0 (Py.min 95 (MarketData.change_pct md))
                 && float_le (Py.min 95 (MarketData.change_pct md)) 100)
          with true; [reflexivity|].
        symmetry. apply andb_true_iff.
        split; apply float_le_true; unfold Py.min;
          destruct (float_lt (MarketData.change_pct md) 95) eqn:E3;
          try apply float_lt_true in E3; lra.
    + apply float_gt_false in E2. cbn. intros [_ H]. lra.
  - apply float_gt_false in E1. cbn. intros [H _]. lra.
Qed.

(** The three outcomes of the volume strategy. *)
Lemma volume_outcome (md : MarketData.t) (config : AnalysisConfig.t)
    (w : World) :
  let avg_volume := MarketData.additional md "avg_volume" 1 in
  match fst (VolumeStrategy.analyze_market_data md config w) with
  | Ok (Some _) => False
  | Ok None =>
      ~ (avg_volume == 0)%Q /\ (float (MarketData.volume md) / avg_volume <= 3)%Q
  | Raise e =>
      ((avg_volume == 0)%Q /\ e = ZeroDivisionError) \/
      (~ (avg_volume == 0)%Q /\
       (3 < float (MarketData.volume md) / avg_volume)%Q /\
       e = ValueError "价格必须大于0")
  end.
Proof.
  cbn zeta. unfold VolumeStrategy.analyze_market_data.
  unfold bind at 1, lift at 1, truediv.
  destruct (Qeq_bool (MarketData.additional md "avg_volume" 1) 0) eqn:Ez.
  - apply Qeq_bool_eq in Ez. cbn. left. split; [exact Ez|reflexivity].
  - apply Qeq_bool_neq in Ez.
    set (volume_ratio := (float (MarketData.volume md)
                          / MarketData.additional md "avg_volume" 1)%Q).
    destruct (float_gt volume_ratio 3) eqn:E1.
    + apply float_gt_true in E1.
      unfold bind, io, datetime_now, lift. cbn zeta beta iota.
      rewrite probe_raises. cbn [fst]. right.
      split; [exact Ez|]. split; [exact E1|].
      replace (float_le 0 (Py.min 90 (volume_ratio * 10))
               && float_le (Py.min 90 (volume_ratio * 10)) 100)
        with true; [reflexivity|].
      symmetry. apply andb_true_iff.
      split; apply float_le_true; unfold Py.min;
        destruct (float_lt (volume_ratio * 10) 90) eqn:E3;
        try apply float_lt_true in E3; lra.
    + apply float_gt_false in E1. cbn. split; assumption.
Qed.

(** The three outcomes of the sentiment strategy. *)
Lemma sentiment_outcome (md : MarketData.t) (config : AnalysisConfig.t)
    (w : World) :
  let sentiment_score := (0 + (100 - 0) * rng w (rng_draws w))%Q in
  let triggered :=
    (80 < sentiment_score)%Q /\ (1 < MarketData.change_pct md)%Q in
  match fst (SentimentStrategy.analyze_market_data md config w) with
  | Ok (Some _) => False
  | Ok None => ~ triggered
  | Raise e => triggered /\ exists msg, e = ValueError msg
  end.
Proof.
  cbn zeta. unfold SentimentStrategy.analyze_market_data.
  unfold bind at 1, io at 1, random_uniform, random_random. cbn zeta beta iota.
  destruct (float_gt (0 + (100 - 0) * rng w (rng_draws w)) 80) eqn:E1; cbn [andb].
  - apply float_gt_true in E1.
    destruct (float_gt (MarketData.change_pct md) 1) eqn:E2.
    + apply float_gt_true in E2.
      unfold bind, io, datetime_now, lift. cbn zeta beta iota.
      rewrite probe_raises. cbn [fst].
      split; [split; assumption|]. eexists. reflexivity.
    + apply float_gt_false in E2. cbn. intros [_ H]. lra.
  - apply float_gt_false in E1. cbn. intros [H _]. lra.
Qed.


Section ScanInvariant.

Variable P : TradingSignal.t -> Prop.

Lemma try_strategies_satisfy (strategies : list TradingStrategy.t) :
  Forall (signals_satisfy P) strategies ->
  forall md config w signal w',
    BullMarketAnalyzer.try_strategies strategies md config w
    = (Ok (Some signal), w') ->
    P signal.
Proof.
  induction 1 as [|strategy rest Hs Hrest IH]; intros md config w signal w';
    cbn [BullMarketAnalyzer.try_strategies].
  - discriminate.
  - unfold bind.
    destruct (TradingStrategy.analyze_market_data strategy md config w)
      as [[[s|]|e] w1] eqn:E.
    + unfold ret. intros H; inversion H; subst. exact (Hs _ _ _ _ _ E).
    + apply IH.
    + discriminate.
Qed.

Lemma analyze_single_stock_satisfy (self : BullMarketAnalyzer.t) :
  Forall (signals_satisfy P) (BullMarketAnalyzer.strategies self) ->
  forall md w signal w',
    BullMarketAnalyzer.analyze_single_stock self md w = (Ok (Some signal), w') ->
    P signal.
Proof.
  intros Hs md w signal w'. unfold BullMarketAnalyzer.analyze_single_stock.
  destruct (BullMarketAnalyzer.strategies self) as [|strategy rest] eqn:E.
  - discriminate.
  - apply try_strategies_satisfy. exact Hs.
Qed.

Lemma scan_stocks_satisfy (self : BullMarketAnalyzer.t)
    (sector_data : list MarketData.t) :
  Forall (signals_satisfy P) (BullMarketAnalyzer.strategies self) ->
  forall signals w,
    Forall P signals ->
    Forall P (fst (BullMarketAnalyzer.scan_stocks self sector_data signals w)).
Proof.
  intros Hs. induction sector_data as [|md rest IH]; intros signals w Hsig;
    cbn [BullMarketAnalyzer.scan_stocks]; [exact Hsig|].
  destruct (BullMarketAnalyzer.analyze_single_stock self md w)
    as [[[signal|]|e] w1] eqn:E.
  - apply IH. apply Forall_app. split; [exact Hsig|].
    constructor; [|constructor].
    exact (analyze_single_stock_satisfy self Hs _ _ _ _ E).
  - apply IH, Hsig.
  - exact Hsig.
Qed.

Lemma scan_sectors_satisfy (self : BullMarketAnalyzer.t)
    (provider : MarketDataProvider.t) (sectors : list string) :
  Forall (signals_satisfy P) (BullMarketAnalyzer.strategies self) ->
  forall signals w,
    Forall P signals ->
    Forall P (fst (BullMarketAnalyzer.scan_sectors self provider sectors signals w)).
Proof.
  intros Hs. induction sectors as [|sector rest IH]; intros signals w Hsig;
    cbn [BullMarketAnalyzer.scan_sectors]; [exact Hsig|].
  destruct (MarketDataProvider.get_sector_stocks provider sector w)
    as [[sector_data|e] w1].
  - pose proof (scan_stocks_satisfy self sector_data Hs signals w1 Hsig) as H.
    destruct (BullMarketAnalyzer.scan_stocks self sector_data signals w1)
      as [signals' w2].
    apply IH. exact H.
  - apply IH, Hsig.
Qed.

Lemma scan_market_satisfy (self : BullMarketAnalyzer.t) (w w' : World)
    (signals : list TradingSignal.t) :
  Forall (signals_satisfy P) (BullMarketAnalyzer.strategies self) ->
  BullMarketAnalyzer.scan_market self w = (Ok signals, w') ->
  Forall P signals.
Proof.
  intros Hs. unfold BullMarketAnalyzer.scan_market.
  destruct (BullMarketAnalyzer.data_provider self) as [provider|].
  - pose proof (scan_sectors_satisfy self provider
                  (AnalysisConfig.sectors (BullMarketAnalyzer.config self))
                  Hs [] w (Forall_nil _)) as H.
    destruct (BullMarketAnalyzer.scan_sectors self provider _ [] w)
      as [found w1].
    cbn [fst] in H.
    assert (Hf : Forall P (filter (fun s => float_ge (TradingSignal.confidence s)
                   (AnalysisConfig.confidence_threshold (BullMarketAnalyzer.config self)))
                   found)).
    { rewrite Forall_forall in *. intros s Hin. apply filter_In in Hin.
      apply H, Hin. }
    destruct (BullMarketAnalyzer.notifier self) as [notifier|].
    + unfold bind.
      destruct (BullMarketAnalyzer.notify_all notifier _ w1) as [[[]|e] w2].
      * unfold ret. intros E; inversion E; subst. exact Hf.
      * discriminate.
    + intros E; inversion E; subst. exact Hf.
  - unfold ret. intros E; inversion E; subst. constructor.
Qed.

End ScanInvariant.

(** X16: with strategies from [StrategyFactory.create_all_strategies()]
    (all four or any selection of them), every signal that [scan_market]
    returns is a SELL of confidence 85 (so [is_sell_signal] holds of it and
    [is_buy_signal] does not): the scan never yields a BUY or a HOLD
    signal, since the pre-open branch of the T+1 strategy is the only code
    of the four that can return a signal. *)
Theorem stock_strategies_only_sell (self : BullMarketAnalyzer.t) (w w' : World)
    (signals : list TradingSignal.t) :
  Forall (fun strategy => In strategy StrategyFactory.create_all_strategies)
         (BullMarketAnalyzer.strategies self) ->
  BullMarketAnalyzer.scan_market self w = (Ok signals, w') ->
  Forall (fun signal => TradingSignal.action signal = SELL /\
                        TradingSignal.confidence signal = 85%Q /\
                        TradingSignal.is_sell_signal signal = true /\
                        TradingSignal.is_buy_signal signal = false) signals.
Proof.
  intros Hs Hscan.
  apply (Forall_impl _ (P := fun signal =>
                              TradingSignal.action signal = SELL /\
                              TradingSignal.confidence signal = 85%Q)).
  { intros signal [Haction Hconfidence].
    unfold TradingSignal.is_sell_signal, TradingSignal.is_buy_signal.
    rewrite Haction. repeat split; try reflexivity; assumption. }
  revert Hscan. apply scan_market_satisfy.
  eapply Forall_impl; [|exact Hs].
  intros strategy Hin md config w0 signal w0' E.
  cbn [StrategyFactory.create_all_strategies In] in Hin.
  destruct Hin as [<-|[<-|[<-|[<-|[]]]]].
  - cbn [TradingStrategy.analyze_market_data TPlusOneStrategy.instance] in E.
    destruct (t_plus_one_dispatch md config w0) as [D|[[_ D]|[D|D]]];
      rewrite D in E.
    + discriminate E.
    + apply early_morning_signal in E. tauto.
    + exfalso. exact (intraday_silent md config _ _ _ E).
    + exfalso. exact (late_afternoon_silent md config _ _ _ E).
  - pose proof (momentum_outcome md config w0) as H.
    cbn [TradingStrategy.analyze_market_data MomentumStrategy.instance] in E.
    rewrite E in H. contradiction.
  - pose proof (volume_outcome md config w0) as H.
    cbn [TradingStrategy.analyze_market_data VolumeStrategy.instance] in E.
    rewrite E in H. contradiction.
  - pose proof (sentiment_outcome md config w0) as H.
    cbn [TradingStrategy.analyze_market_data SentimentStrategy.instance] in E.
    rewrite E in H. contradiction.
Qed.

(** X16 at work: at 09:20 the four strategies scan a falling and a steady
    stock.  The falling stock gives the SELL signal; on the steady stock
    the volume strategy raises, which ends the sector. *)
Lemma stock_strategies_only_sell_witness :
  exists signals w',
    BullMarketAnalyzer.scan_market factory_analyzer at_0920 = (Ok signals, w') /\
    map TradingSignal.symbol signals = ["600000"] /\
    Forall (fun signal => TradingSignal.action signal = SELL /\
                          TradingSignal.confidence signal = 85%Q /\
                          TradingSignal.is_sell_signal signal = true /\
                          TradingSignal.is_buy_signal signal = false) signals.
Proof.
  destruct (BullMarketAnalyzer.scan_market factory_analyzer at_0920)
    as [[signals|e] w'] eqn:E; [|vm_compute in E; discriminate E].
  exists signals, w'. split; [reflexivity|]. split.
  - vm_compute in E. inversion E. reflexivity.
  - apply (stock_strategies_only_sell factory_analyzer at_0920 w' signals);
      [|exact E].
    repeat constructor; cbn; tauto.
Defined.

(** X17: the position size of a signal stays within the configured limit:
    for a configuration and a signal that passed their validation,
    [_calculate_position_size] is between 0 and [max_position_size], which
    is itself at most 1. *)
Theorem position_size_within_limit (signal : TradingSignal.t)
    (config : AnalysisConfig.t) :
  AnalysisConfig.__post_init__ config = Ok tt ->
  TradingSignal.__post_init__ signal = Ok tt ->
  (0 <= BaseStrategy._calculate_position_size signal config
     <= AnalysisConfig.max_position_size config)%Q /\
  (AnalysisConfig.max_position_size config <= 1)%Q.
Proof.
  unfold AnalysisConfig.__post_init__, TradingSignal.__post_init__,
    BaseStrategy._calculate_position_size.
  destruct (float_lt 0 (AnalysisConfig.confidence_threshold config)
            && float_le (AnalysisConfig.confidence_threshold config) 100);
    cbn [negb]; [|discriminate].
  destruct (float_lt 0 (AnalysisConfig.max_position_size config)) eqn:E1;
    cbn [andb negb]; [|discriminate].
  destruct (float_le (AnalysisConfig.max_position_size config) 1) eqn:E2;
    cbn [negb]; [|discriminate].
  intros _.
  destruct (float_le 0 (TradingSignal.confidence signal)) eqn:E3;
    cbn [andb negb]; [|discriminate].
  destruct (float_le (TradingSignal.confidence signal) 100) eqn:E4;
    cbn [negb]; [|discriminate].
  intros _.
  apply float_lt_true in E1. apply float_le_true in E2.
  apply float_le_true in E3. apply float_le_true in E4.
  unfold Qdiv. change (/ 100)%Q with (1 # 100)%Q.
  set (m := AnalysisConfig.max_position_size config) in *.
  set (c := TradingSignal.confidence signal) in *.
  split; [split|exact E2]; nra.
Qed.

(** X17 at work: the default configuration and a signal of confidence 82. *)
Lemma position_size_within_limit_witness :
  (0 <= BaseStrategy._calculate_position_size buy_AAA AnalysisConfig.default
     <= AnalysisConfig.max_position_size AnalysisConfig.default)%Q /\
  (AnalysisConfig.max_position_size AnalysisConfig.default <= 1)%Q.
Proof.
  apply (position_size_within_limit buy_AAA AnalysisConfig.default);
    reflexivity.
Defined.

(** X19: [StrategyFactory.create_strategy] knows four names, without
    regard to case: it succeeds exactly when the lower-cased name is one of
    the four keys, gives one of the strategies of
    [create_all_strategies()] (which are what the four keys give, in
    order), gives the same for the lower-cased name, and for any other name
    raises [ValueError] with the name as passed. *)
Theorem factory_creates_known_strategies (strategy_name : string) :
  let keys := ["t_plus_one"; "momentum"; "volume"; "sentiment"] in
  map StrategyFactory.create_strategy keys
  = map Ok StrategyFactory.create_all_strategies
  /\
  match StrategyFactory.create_strategy strategy_name with
  | Ok strategy =>
      In (StrategyFactory.lower strategy_name) keys /\
      In strategy StrategyFactory.create_all_strategies /\
      StrategyFactory.create_strategy (StrategyFactory.lower strategy_name)
      = Ok strategy
  | Raise e =>
      ~ In (StrategyFactory.lower strategy_name) keys /\
      e = ValueError ("未知策略: " ++ strategy_name)
  end.
Proof.
  cbn zeta. split; [reflexivity|].
  assert (Hidem : forall s, StrategyFactory.lower (StrategyFactory.lower s)
                            = StrategyFactory.lower s).
  { induction s as [|c s IH]; cbn [StrategyFactory.lower]; [reflexivity|].
    rewrite IH. f_equal.
    unfold StrategyFactory.lower_byte.
    destruct ((65 <=? nat_of_ascii c) && (nat_of_ascii c <=? 90))%nat eqn:E.
    - rewrite nat_ascii_embedding.
      + apply andb_true_iff in E. destruct E as [E1 E2].
        apply Nat.leb_le in E1. apply Nat.leb_le in E2.
        replace ((65 <=? nat_of_ascii c + 32) && (nat_of_ascii c + 32 <=? 90))%nat
          with false; [reflexivity|].
        symmetry. apply andb_false_iff. right. apply Nat.leb_gt. lia.
      + apply andb_true_iff in E. destruct E as [_ E2].
        apply Nat.leb_le in E2. lia.
    - rewrite E. reflexivity. }
  unfold StrategyFactory.create_strategy. rewrite Hidem.
  unfold StrategyFactory.strategies.
  cbn [Dict.get].
  repeat match goal with
  | |- context [String.eqb ?k (StrategyFactory.lower strategy_name)] =>
      destruct (String.eqb_spec k (StrategyFactory.lower strategy_name)) as [<-|?]
  end; cbn [In StrategyFactory.create_all_strategies];
    try (split; [tauto|split; [tauto|reflexivity]]).
  split; [|reflexivity]. intuition.
Qed.

(** ** The backtest engine *)

(** X21: [_is_trading_day] takes Monday to Friday: of any seven
    consecutive days, exactly five are trading days. *)
Theorem five_trading_days_a_week (date : datetime) :
  List.length (filter BacktestEngine._is_trading_day
                 (map (add_days date) [0; 1; 2; 3; 4; 5; 6]))
  = 5%nat.
Proof.
  unfold BacktestEngine._is_trading_day, weekday, add_days.
  cbn [map ordinal filter].
  assert (Hshift : forall k, (ordinal date + k + 6) mod 7
                             = ((ordinal date + 6) mod 7 + k) mod 7).
  { intros k. rewrite Zplus_mod_idemp_l. f_equal. lia. }
  rewrite !Hshift.
  pose proof (Z.mod_pos_bound (ordinal date + 6) 7 eq_refl) as Hr.
  set (r := (ordinal date + 6) mod 7) in *.
  assert (Hcases : r = 0 \/ r = 1 \/ r = 2 \/ r = 3 \/ r = 4 \/ r = 5 \/ r = 6)
    by lia.
  destruct Hcases as [->|[->|[->|[->|[->|[->| ->]]]]]]; reflexivity.
Qed.

(** X22: [_analyze_trade_lesson] never answers with its fallback text:
    the list of lessons always holds a verdict on the profit (above 5%,
    below -5%, or in between), so the text returned starts with one of the
    three verdicts and the branch for an empty list is dead. *)
Theorem trade_lesson_never_default (profit_pct : Q) (hold_days : Z) :
  BacktestEngine._analyze_trade_lesson profit_pct hold_days <> "正常交易" /\
  exists verdict,
    In verdict ["盈利交易，策略有效"; "亏损交易，需要改进"; "保本交易，控制风险"] /\
    String.prefix verdict (BacktestEngine._analyze_trade_lesson profit_pct hold_days)
    = true.
Proof.
  unfold BacktestEngine._analyze_trade_lesson.
  destruct (float_gt profit_pct 5); [|destruct (float_lt profit_pct (-5))].
  - split; [destruct (hold_days >? 10), (hold_days <? 2); discriminate|].
    exists "盈利交易，策略有效". split; [cbn; tauto|].
    destruct (hold_days >? 10), (hold_days <? 2); reflexivity.
  - split; [destruct (hold_days >? 10), (hold_days <? 2); discriminate|].
    exists "亏损交易，需要改进". split; [cbn; tauto|].
    destruct (hold_days >? 10), (hold_days <? 2); reflexivity.
  - split; [destruct (hold_days >? 10), (hold_days <? 2); discriminate|].
    exists "保本交易，控制风险". split; [cbn; tauto|].
    destruct (hold_days >? 10), (hold_days <? 2); reflexivity.
Qed.

(** ** The analyzer and the use case *)


(** X25: with caching enabled, what [_get_cached_data] has returned for a
    key is what the cache then holds for it: a following call for the key
    whose clock reading is less than [ttl] after the stored time returns
    the same data, does not call its data provider (any provider gives the
    same outcome, one that raises included), and leaves the cache as it
    is. *)
Theorem cached_data_is_served (A : Type) (timestamp : datetime -> Q)
    (self : BullMarketAnalyzer.t) (store store1 : BullMarketAnalyzer.cache A)
    (cache_key : string) (data_provider other_provider : M A) (ttl : Q)
    (w w1 : World) (data : A) :
  AnalysisConfig.enable_caching (BullMarketAnalyzer.config self) = true ->
  BullMarketAnalyzer._get_cached_data A timestamp self store cache_key
    data_provider ttl w = (Ok data, store1, w1) ->
  (timestamp (next_reading w1)
   - match Dict.get (BullMarketAnalyzer._cache_timestamps A store1) cache_key with
     | Some stamp => stamp
     | None => 0
     end < ttl)%Q ->
  BullMarketAnalyzer._get_cached_data A timestamp self store1 cache_key
    other_provider ttl w1
  = (Ok data, store1, snd (datetime_now w1)).
Proof.
  intros Hon Hfirst Hage.
  assert (Hcached : Dict.get (BullMarketAnalyzer._cache A store1) cache_key = Some data).
  { revert Hfirst. unfold BullMarketAnalyzer._get_cached_data. rewrite Hon.
    assert (Hfetch : forall w0,
              BullMarketAnalyzer.fetch A timestamp self store cache_key data_provider w0
              = (Ok data, store1, w1) ->
              Dict.get (BullMarketAnalyzer._cache A store1) cache_key = Some data).
    { intros w0. unfold BullMarketAnalyzer.fetch. rewrite Hon.
      destruct (data_provider w0) as [[d|e] w0']; [|discriminate].
      unfold datetime_now. cbn zeta beta iota.
      intros H; inversion H; subst. cbn [BullMarketAnalyzer._cache].
      apply dict_get_set_same. }
    destruct (Dict.get (BullMarketAnalyzer._cache A store) cache_key)
      as [cached|] eqn:E.
    - unfold datetime_now. cbn zeta beta iota.
      destruct (float_lt _ ttl).
      + intros H; inversion H; subst. exact E.
      + apply Hfetch.
    - apply Hfetch. }
  unfold BullMarketAnalyzer._get_cached_data. rewrite Hon, Hcached.
  unfold datetime_now, next_reading in *. cbn zeta beta iota.
  apply float_lt_true in Hage. rewrite Hage. reflexivity.
Qed.

(** X25 at work: the second call is served from the cache although its
    provider raises. *)
Lemma cached_data_is_served_witness :
  let timestamp := fun d : datetime => (inject_Z (datetime_us d) / 1000000)%Q in
  let store := BullMarketAnalyzer.mk_cache Z [] [] in
  let first :=
    BullMarketAnalyzer._get_cached_data Z timestamp demo_analyzer store "BK0917"
      (ret 7) 300 at_0920 in
  fst (fst first) = Ok 7 /\
  BullMarketAnalyzer._get_cached_data Z timestamp demo_analyzer (snd (fst first))
    "BK0917" (lift (Raise (Exception "down"))) 300 (snd first)
  = (Ok 7, snd (fst first), snd (datetime_now (snd first))).
Proof.
  intros timestamp store first. split; [reflexivity|].
  apply (cached_data_is_served Z timestamp demo_analyzer store (snd (fst first))
           "BK0917" (ret 7) (lift (Raise (Exception "down"))) 300 at_0920
           (snd first) 7).
  - reflexivity.
  - reflexivity.
  - reflexivity.
Defined.

Section Sequential.

Variable self : BullMarketAnalyzer.t.

Lemma sequential_loop_scan (sector_data : list MarketData.t) :
  forall (found signals l : list TradingSignal.t) (w w' : World),
    BullMarketAnalyzer.sequential_loop self sector_data found w = (Ok l, w') ->
    BullMarketAnalyzer.scan_stocks self sector_data (signals ++ found) w
    = ((signals ++ l)%list, w').
Proof.
  induction sector_data as [|md rest IH]; intros found signals l w w';
    cbn [BullMarketAnalyzer.sequential_loop BullMarketAnalyzer.scan_stocks].
  - unfold ret. intros H; inversion H; subst. reflexivity.
  - unfold bind.
    destruct (BullMarketAnalyzer.analyze_single_stock self md w)
      as [[[signal|]|e] w1].
    + intros H. rewrite <- app_assoc. apply IH. exact H.
    + apply IH.
    + discriminate.
Qed.

End Sequential.

(** X26: the two loops over a sector's stocks agree when no strategy
    raises: if [_analyze_sector_sequential] returns a list, the inner loop
    of [scan_market] on the same stocks appends exactly that list to the
    signals found so far.  (When a strategy raises, the first lets the
    exception pass, and the second ends the sector with what it has.) *)
Theorem sequential_analysis_is_the_scan (self : BullMarketAnalyzer.t)
    (sector_data : list MarketData.t) (found : list TradingSignal.t)
    (w w' : World) :
  BullMarketAnalyzer._analyze_sector_sequential self sector_data w = (Ok found, w') ->
  forall signals,
    BullMarketAnalyzer.scan_stocks self sector_data signals w
    = ((signals ++ found)%list, w').
Proof.
  unfold BullMarketAnalyzer._analyze_sector_sequential. intros H signals.
  pose proof (sequential_loop_scan self sector_data [] signals found w w' H) as E.
  rewrite app_nil_r in E. exact E.
Qed.

(** X26 at work: 09:20, a falling and a steady stock. *)
Lemma sequential_analysis_is_the_scan_witness :
  exists found w',
    BullMarketAnalyzer._analyze_sector_sequential demo_analyzer
      [falling_stock; steady_stock] at_0920 = (Ok found, w') /\
    map TradingSignal.action found = [SELL; HOLD] /\
    BullMarketAnalyzer.scan_stocks demo_analyzer [falling_stock; steady_stock] []
      at_0920 = (found, w').
Proof.
  destruct (BullMarketAnalyzer._analyze_sector_sequential demo_analyzer
              [falling_stock; steady_stock] at_0920) as [[found|e] w'] eqn:E;
    [|vm_compute in E; discriminate E].
  exists found, w'. split; [reflexivity|]. split.
  - vm_compute in E. inversion E. reflexivity.
  - exact (sequential_analysis_is_the_scan demo_analyzer
             [falling_stock; steady_stock] found at_0920 w' E []).
Defined.

Section Options.

Lemma with_config_back (self : ScanMarketUseCase.t) (config : AnalysisConfig.t) :
  ScanMarketUseCase.with_config (ScanMarketUseCase.with_config self config)
    (BullMarketAnalyzer.config (ScanMarketUseCase.analyzer self))
  = self.
Proof. destruct self as [[c s d n]]. reflexivity. Qed.

Lemma with_config_same (self : ScanMarketUseCase.t) :
  ScanMarketUseCase.with_config self
    (BullMarketAnalyzer.config (ScanMarketUseCase.analyzer self))
  = self.
Proof. destruct self as [[c s d n]]. reflexivity. Qed.

(** The signals of [execute] are signals of the scan. *)
Lemma execute_from_scan (self : ScanMarketUseCase.t) (w : World) :
  exists out w',
    ScanMarketUseCase.execute self w = (Ok out, w') /\
    forall s, In s out ->
      exists signals w1,
        BullMarketAnalyzer.scan_market (ScanMarketUseCase.analyzer self) w
        = (Ok signals, w1) /\ In s signals.
Proof.
  unfold ScanMarketUseCase.execute, try_except, bind.
  destruct (BullMarketAnalyzer.scan_market (ScanMarketUseCase.analyzer self) w)
    as [[signals|e] w1].
  - eexists; eexists. split; [reflexivity|].
    intros s Hs. exists signals, w1. split; [reflexivity|].
    destruct (process_signals_spec signals) as (_ & _ & Hfrom & _).
    apply Hfrom, Hs.
  - eexists; eexists. split; [reflexivity|]. intros s [].
Qed.

(** The signals of the scan are at or above the threshold. *)
Lemma scan_market_at_least (self : BullMarketAnalyzer.t) (w w' : World)
    (signals : list TradingSignal.t) :
  BullMarketAnalyzer.scan_market self w = (Ok signals, w') ->
  Forall (fun s => (AnalysisConfig.confidence_threshold (BullMarketAnalyzer.config self)
                    <= TradingSignal.confidence s)%Q) signals.
Proof.
  unfold BullMarketAnalyzer.scan_market.
  destruct (BullMarketAnalyzer.data_provider self) as [provider|].
  - destruct (BullMarketAnalyzer.scan_sectors self provider _ [] w) as [found w1].
    assert (Hf : Forall (fun s => (AnalysisConfig.confidence_threshold
                                     (BullMarketAnalyzer.config self)
                                   <= TradingSignal.confidence s)%Q)
                   (filter (fun s => float_ge (TradingSignal.confidence s)
                      (AnalysisConfig.confidence_threshold (BullMarketAnalyzer.config self)))
                      found)).
    { apply filter_Forall. intros s. apply float_ge_true. }
    destruct (BullMarketAnalyzer.notifier self) as [notifier|].
    + unfold bind.
      destruct (BullMarketAnalyzer.notify_all notifier _ w1) as [[[]|e] w2].
      * unfold ret. intros E; inversion E; subst. exact Hf.
      * discriminate.
    + intros E; inversion E; subst. exact Hf.
  - unfold ret. intros E; inversion E; subst. constructor.
Qed.

End Options.

(** X27: [execute_with_options] with a threshold above 0 and at most 100,
    on an analyzer whose configuration passed its validation: the call
    returns a list, every signal of which has a confidence at or above the
    threshold passed, and the use case and its analyzer are afterwards as
    they were -- the temporary configuration is gone. *)
Theorem options_threshold_honoured (self : ScanMarketUseCase.t)
    (sectors : option (list string)) (threshold : Q) (w : World) :
  AnalysisConfig.__post_init__
    (BullMarketAnalyzer.config (ScanMarketUseCase.analyzer self)) = Ok tt ->
  (0 < threshold <= 100)%Q ->
  exists out w',
    ScanMarketUseCase.execute_with_options self sectors (Some threshold) w
    = (Ok out, self, w') /\
    Forall (fun s => (threshold <= TradingSignal.confidence s)%Q) out.
Proof.
  intros Hvalid [Hlow Hhigh].
  unfold ScanMarketUseCase.execute_with_options. cbn zeta.
  replace (match sectors with
           | Some (_ :: _) => true
           | _ => true
           end) with true by (destruct sectors as [[|? ?]|]; reflexivity).
  unfold ScanMarketUseCase.threshold_or.
  assert (Hnz : Qeq_bool threshold 0 = false).
  { destruct (Qeq_bool threshold 0) eqn:E; [|reflexivity].
    apply Qeq_bool_eq in E. lra. }
  rewrite Hnz.
  unfold AnalysisConfig.new.
  assert (Hok : forall s,
            AnalysisConfig.__post_init__
              (AnalysisConfig.mk s threshold
                 (AnalysisConfig.max_position_size
                    (BullMarketAnalyzer.config (ScanMarketUseCase.analyzer self)))
                 (AnalysisConfig.enable_parallel
                    (BullMarketAnalyzer.config (ScanMarketUseCase.analyzer self)))
                 (AnalysisConfig.max_workers
                    (BullMarketAnalyzer.config (ScanMarketUseCase.analyzer self)))
                 (AnalysisConfig.analysis_timeout
                    (BullMarketAnalyzer.config (ScanMarketUseCase.analyzer self)))
                 (AnalysisConfig.enable_caching
                    (BullMarketAnalyzer.config (ScanMarketUseCase.analyzer self)))
                 (AnalysisConfig.cache_ttl
                    (BullMarketAnalyzer.config (ScanMarketUseCase.analyzer self))))
            = Ok tt).
  { intros s. revert Hvalid. unfold AnalysisConfig.__post_init__.
    cbn [AnalysisConfig.confidence_threshold AnalysisConfig.max_position_size].
    apply float_lt_true in Hlow. apply float_le_true in Hhigh.
    rewrite Hlow, Hhigh. cbn [andb negb].
    destruct (float_lt 0 (AnalysisConfig.confidence_threshold _)
              && float_le (AnalysisConfig.confidence_threshold _) 100);
      cbn [negb]; [|discriminate].
    destruct (float_lt 0 (AnalysisConfig.max_position_size _)
              && float_le (AnalysisConfig.max_position_size _) 1);
      cbn [negb]; [reflexivity|discriminate]. }
  rewrite Hok.
  set (temp_config := AnalysisConfig.mk _ threshold _ _ _ _ _ _).
  destruct (execute_from_scan (ScanMarketUseCase.with_config self temp_config) w)
    as (out & w' & E & Hfrom).
  rewrite E. exists out, w'. split.
  - rewrite with_config_back. reflexivity.
  - apply Forall_forall. intros s Hs.
    destruct (Hfrom s Hs) as (signals & w1 & Hscan & Hin).
    pose proof (scan_market_at_least _ _ _ _ Hscan) as Hall.
    rewrite Forall_forall in Hall. exact (Hall s Hin).
Qed.

(** X27 at work: the use case whose own threshold is 60, asked for 80. *)
Lemma options_threshold_honoured_witness :
  exists out w',
    ScanMarketUseCase.execute_with_options demo_use_case None (Some 80%Q) at_0920
    = (Ok out, demo_use_case, w') /\
    Forall (fun s => (80 <= TradingSignal.confidence s)%Q) out.
Proof.
  apply (options_threshold_honoured demo_use_case None 80 at_0920).
  - reflexivity.
  - split; [reflexivity|]. apply Qle_bool_iff. reflexivity.
Defined.

(** X28: the thresholds that [execute_with_options] does not take.  A
    threshold of 0 is taken as not given ([0.0 or ...]): the call does
    what [execute()] does, with the analyzer's own threshold.  A negative
    threshold or one above 100 makes the constructor of the temporary
    configuration raise, and the [ValueError] leaves the method -- unlike
    [execute()], which catches every exception; the analyzer keeps its
    configuration. *)
Theorem options_threshold_edges (self : ScanMarketUseCase.t) (threshold : Q)
    (w : World) :
  AnalysisConfig.__post_init__
    (BullMarketAnalyzer.config (ScanMarketUseCase.analyzer self)) = Ok tt ->
  ((threshold == 0)%Q ->
   ScanMarketUseCase.execute_with_options self None (Some threshold) w
   = (fst (ScanMarketUseCase.execute self w), self,
      snd (ScanMarketUseCase.execute self w))) /\
  ((threshold < 0)%Q \/ (100 < threshold)%Q ->
   ScanMarketUseCase.execute_with_options self None (Some threshold) w
   = (Raise (ValueError "置信度阈值必须在0-100之间"), self, w)).
Proof.
  intros Hvalid.
  unfold ScanMarketUseCase.execute_with_options. cbn zeta.
  unfold ScanMarketUseCase.threshold_or, ScanMarketUseCase.sectors_or,
    AnalysisConfig.new.
  split.
  - intros Hz. apply Qeq_bool_iff in Hz. rewrite Hz.
    replace (AnalysisConfig.mk _ _ _ _ _ _ _ _)
      with (BullMarketAnalyzer.config (ScanMarketUseCase.analyzer self))
      by (destruct (BullMarketAnalyzer.config (ScanMarketUseCase.analyzer self));
          reflexivity).
    rewrite Hvalid, with_config_same.
    destruct (ScanMarketUseCase.execute self w) as [outcome w1].
    rewrite with_config_same. reflexivity.
  - intros Hout.
    assert (Hnz : Qeq_bool threshold 0 = false).
    { destruct (Qeq_bool threshold 0) eqn:E; [|reflexivity].
      apply Qeq_bool_eq in E. lra. }
    rewrite Hnz. unfold AnalysisConfig.__post_init__.
    cbn [AnalysisConfig.confidence_threshold].
    replace (float_lt 0 threshold && float_le threshold 100) with false.
    + cbn [negb]. rewrite with_config_same. reflexivity.
    + symmetry. apply andb_false_iff.
      destruct Hout as [H|H]; [left; apply float_lt_false|right; apply float_le_false];
        lra.
Qed.

(** X28 at work: thresholds 0 and 150. *)
Lemma options_threshold_edges_witness :
  ScanMarketUseCase.execute_with_options demo_use_case None (Some 0%Q) at_0920
  = (fst (ScanMarketUseCase.execute demo_use_case at_0920), demo_use_case,
     snd (ScanMarketUseCase.execute demo_use_case at_0920))
  /\
  ScanMarketUseCase.execute_with_options demo_use_case None (Some 150%Q) at_0920
  = (Raise (ValueError "置信度阈值必须在0-100之间"), demo_use_case, at_0920).
Proof.
  split.
  - apply (proj1 (options_threshold_edges demo_use_case 0 at_0920 eq_refl)).
    reflexivity.
  - apply (proj2 (options_threshold_edges demo_use_case 150 at_0920 eq_refl)).
    right. reflexivity.
Defined.

(** ** The performance analyzer *)

Section AnalyzerFigures.

Import PerformanceAnalyzer.










End AnalyzerFigures.

(* ====================================================================== *)
(** * The trade path in binary64 (C2, C4, C5 and further properties) *)
(* ====================================================================== *)

(** ** Comparisons in binary64 *)

Section Binary64Order.

Import SpecFloat.
Import Binary64.

Lemma SFcompare_antisym (x y : spec_float) :
  SFcompare y x = option_map CompOpp (SFcompare x y).
Proof.
  destruct x as [sx|sx| |sx mx ex], y as [sy|sy| |sy my ey]; cbn;
    try destruct sx; try destruct sy; try reflexivity.
  - rewrite (Z.compare_antisym ex ey).
    change (PosDef.Pos.compare_cont Eq my mx) with (Pos.compare my mx).
    change (PosDef.Pos.compare_cont Eq mx my) with (Pos.compare mx my).
    rewrite (Pos.compare_antisym mx my).
    destruct (ex ?= ey)%Z; cbn; [|reflexivity|reflexivity].
    destruct (mx ?= my)%positive; reflexivity.
  - rewrite (Z.compare_antisym ex ey).
    change (PosDef.Pos.compare_cont Eq my mx) with (Pos.compare my mx).
    change (PosDef.Pos.compare_cont Eq mx my) with (Pos.compare mx my).
    rewrite (Pos.compare_antisym mx my).
    destruct (ex ?= ey)%Z; cbn; reflexivity.
Qed.

Lemma SFcompare_None (x y : spec_float) :
  SFcompare x y = None <-> Float.is_S754_nan x || Float.is_S754_nan y = true.
Proof.
  destruct x as [sx|sx| |sx mx ex], y as [sy|sy| |sy my ey]; cbn;
    split; intros H; try discriminate H; reflexivity.
Qed.

Lemma SFcompare_refl (x : spec_float) :
  SFcompare x x = if Float.is_S754_nan x then None else Some Eq.
Proof.
  destruct x as [s|s| |s m e]; cbn; try reflexivity.
  - destruct s; reflexivity.
  - rewrite Z.compare_refl.
    change (PosDef.Pos.compare_cont Eq m m) with (Pos.compare m m).
    rewrite Pos.compare_refl. destruct s; reflexivity.
Qed.

Lemma SFleb_SFltb (x y : spec_float) :
  SFleb x y
  = negb (SFltb y x) && negb (Float.is_S754_nan x) && negb (Float.is_S754_nan y).
Proof.
  unfold SFleb, SFltb. rewrite (SFcompare_antisym x y).
  destruct (Float.is_S754_nan x || Float.is_S754_nan y) eqn:Hn.
  - pose proof Hn as Hc. apply SFcompare_None in Hc. rewrite Hc.
    apply orb_true_iff in Hn. destruct Hn as [-> | ->]; cbn;
      [reflexivity|apply eq_sym, andb_false_r].
  - destruct (SFcompare x y) as [c|] eqn:E.
    + apply orb_false_iff in Hn. destruct Hn as [-> ->].
      destruct c; reflexivity.
    + apply SFcompare_None in E. congruence.
Qed.

Lemma isnan_spec (x : PrimFloat.float) : Float.isnan x = Float.is_S754_nan (FloatOps.Prim2SF x).
Proof.
  unfold Float.isnan, PrimFloat.is_nan. rewrite FloatAxioms.eqb_spec.
  unfold SFeqb. rewrite SFcompare_refl.
  destruct (Float.is_S754_nan (FloatOps.Prim2SF x)); reflexivity.
Qed.

(** [x <= y] holds exactly when [y < x] fails and neither is a NaN. *)
Lemma le_lt (x y : PrimFloat.float) :
  Float.le x y = negb (Float.lt y x) && negb (Float.isnan x) && negb (Float.isnan y).
Proof.
  unfold Float.le, Float.lt.
  rewrite FloatAxioms.leb_spec, FloatAxioms.ltb_spec, !isnan_spec.
  apply SFleb_SFltb.
Qed.

(** A float that compares below another is not a NaN, nor is the other. *)
Lemma lt_not_nan (x y : PrimFloat.float) :
  Float.lt x y = true -> Float.isnan x = false /\ Float.isnan y = false.
Proof.
  unfold Float.lt. rewrite FloatAxioms.ltb_spec, !isnan_spec. unfold SFltb.
  destruct (SFcompare _ _) as [c|] eqn:E; [|discriminate].
  intros _.
  destruct (Float.is_S754_nan (FloatOps.Prim2SF x) || Float.is_S754_nan (FloatOps.Prim2SF y))
    eqn:Hn.
  - apply SFcompare_None in Hn. congruence.
  - apply orb_false_iff in Hn. exact Hn.
Qed.

(** Nothing at or above 50 is below 0. *)
Lemma le_50_le_0 (x : PrimFloat.float) : Float.le 50 x = true -> Float.le 0 x = true.
Proof.
  unfold Float.le. rewrite !FloatAxioms.leb_spec.
  replace (FloatOps.Prim2SF 50) with (S754_finite false 7036874417766400 (-47))
    by (vm_compute; reflexivity).
  replace (FloatOps.Prim2SF 0) with (S754_zero false) by (vm_compute; reflexivity).
  destruct (FloatOps.Prim2SF x) as [s|s| |s m e]; cbn; try discriminate;
    destruct s; try discriminate; reflexivity.
Qed.

End Binary64Order.

Section Binary64Portfolio.

Import Binary64.

(** A call of [add_position] that raises has raised before the clock was
    read or anything was written, and what it raised is the
    [OverflowError] of an int operand beyond the range of a float or the
    [ZeroDivisionError] of a top-up to a total quantity of 0. *)
Lemma add_position_raises (p : Portfolio.t) symbol quantity price commission w
    e p' w' :
  Portfolio.add_position p symbol quantity price commission w = (Raise e, p', w') ->
  (e = OverflowError \/ e = ZeroDivisionError) /\ p' = p /\ w' = w.
Proof.
  unfold Portfolio.add_position.
  destruct (Dict.get (Portfolio.positions p) symbol) as [existing|].
  - destruct (Portfolio.topped_up existing quantity price commission)
      as [[[tq tc] avg]|e0] eqn:E; [discriminate|].
    intros H; inversion H; subst. split; [|split; reflexivity].
    revert E. unfold Portfolio.topped_up, Float.of_int, Float.truediv.
    destruct (SpecFloat.binary_normalize _ _ quantity 0 false);
      try (intros E; inversion E; left; reflexivity);
      destruct (SpecFloat.binary_normalize _ _ _ 0 false);
      try (intros E; inversion E; left; reflexivity);
      destruct (PrimFloat.is_zero _);
      intros E; inversion E; right; reflexivity.
  - unfold Float.of_int.
    destruct (SpecFloat.binary_normalize _ _ quantity 0 false);
      try discriminate; intros H; inversion H; subst;
      (split; [left; reflexivity|split; reflexivity]).
Qed.

(** [add_position] never writes the cash. *)
Lemma add_position_keeps_cash (p : Portfolio.t) symbol quantity price commission w :
  Portfolio.cash
    (snd (fst (Portfolio.add_position p symbol quantity price commission w)))
  = Portfolio.cash p.
Proof.
  unfold Portfolio.add_position.
  destruct (Dict.get (Portfolio.positions p) symbol) as [existing|].
  - destruct (Portfolio.topped_up existing quantity price commission)
      as [[[tq tc] avg]|e0]; reflexivity.
  - destruct (Float.of_int quantity); reflexivity.
Qed.

End Binary64Portfolio.

Section Binary64Claims.

Import Binary64.

(** C2: [add_position] keeps no account of the cash.  Whatever the
    portfolio and the purchase, the cash after the call is the cash before
    it; the call has no test of the funds and no failure for a lack of
    them -- it returns, or it raises the [OverflowError] of a quantity
    beyond the range of a float or the [ZeroDivisionError] of a top-up to
    a total quantity of 0, before anything is written; and a purchase of a
    symbol that is not held is booked whatever it costs. *)
Theorem add_position_never_debits (p : Portfolio.t) (symbol : string)
    (quantity : Z) (price commission : PrimFloat.float) (w : World) :
  let '(r, p', w') :=
    Portfolio.add_position p symbol quantity price commission w in
  Portfolio.cash p' = Portfolio.cash p
  /\
  (r = Ok tt \/
   (r = Raise OverflowError \/ r = Raise ZeroDivisionError) /\ p' = p /\ w' = w)
  /\
  (forall q,
     Dict.mem (Portfolio.positions p) symbol = false ->
     Float.of_int quantity = Ok q ->
     r = Ok tt /\
     exists entry_date last_update,
       Dict.get (Portfolio.positions p') symbol
       = Some (Position.mk quantity price (q * price + commission)%float
                 entry_date last_update)).
Proof.
  pose proof (add_position_keeps_cash p symbol quantity price commission w) as Hcash.
  pose proof (add_position_raises p symbol quantity price commission w) as Hraise.
  destruct (Portfolio.add_position p symbol quantity price commission w)
    as [[r p'] w'] eqn:E.
  split; [exact Hcash|]. split.
  - destruct r as [[]|e]; [left; reflexivity|right].
    destruct (Hraise e p' w' eq_refl) as ([->| ->] & Hp & Hw); auto.
  - intros q Hheld Hq. revert E. unfold Portfolio.add_position.
    apply dict_get_None_mem in Hheld. rewrite Hheld, Hq.
    unfold datetime_now. intros E; inversion E; subst. split; [reflexivity|].
    do 2 eexists. cbn [Portfolio.positions Portfolio.with_positions].
    apply dict_get_set_same.
Qed.

(** C2 at work: with 1000.00 in cash, 100 shares at 10.00 and a commission
    of 3.00 cost more than the cash; the purchase is booked and the cash is
    still 1000.00. *)
Lemma add_position_never_debits_witness :
  let '(r, p', _) := Portfolio.add_position (purse 1000) "AAA" 100 10 3 at_0920 in
  r = Ok tt /\
  Portfolio.cash p' = 1000%float /\
  exists position,
    Dict.get (Portfolio.positions p') "AAA" = Some position /\
    Float.lt (Portfolio.cash p') (Position.total_cost position) = true.
Proof.
  pose proof (add_position_never_debits (purse 1000) "AAA" 100 10 3 at_0920) as H.
  destruct (Portfolio.add_position (purse 1000) "AAA" 100 10 3 at_0920)
    as [[r p'] w'].
  destruct H as (Hcash & _ & Hfresh).
  destruct (Hfresh 100%float eq_refl eq_refl) as (Hr & d1 & d2 & Hget).
  split; [exact Hr|]. split; [exact Hcash|].
  eexists. split; [exact Hget|]. rewrite Hcash. reflexivity.
Defined.

(** C4: what scenario A leaves behind.  [add_position("AAA", 100, 10.0,
    3.0)] on a portfolio with cash 100000 and no positions succeeds; the
    cash is still 100000, not 98997, and the position recorded for AAA has
    quantity 100, total cost 1003 and the bare price 10.0 as its average
    cost, not 10.03.  The other branch of the same method does fold the
    commission into the average cost: the same 100 shares bought in two
    halves, with the commission halved, end at the average cost 10.03. *)
Theorem scenario_A_outcome (w : World) :
  (let '(r, p', _) := Portfolio.add_position Portfolio.default "AAA" 100 10 3 w in
   r = Ok tt /\
   Portfolio.cash p' = 100000%float /\
   Float.eq (Portfolio.cash p') 98997 = false /\
   exists position,
     Dict.get (Portfolio.positions p') "AAA" = Some position /\
     Position.quantity position = 100 /\
     Position.total_cost position = 1003%float /\
     Position.avg_cost position = 10%float /\
     Float.eq (Position.avg_cost position) 10.03 = false)
  /\
  (let '(_, p1, w1) := Portfolio.add_position Portfolio.default "AAA" 50 10 1.5 w in
   let '(r, p2, _) := Portfolio.add_position p1 "AAA" 50 10 1.5 w1 in
   r = Ok tt /\
   exists position,
     Dict.get (Portfolio.positions p2) "AAA" = Some position /\
     Position.quantity position = 100 /\
     Position.total_cost position = 1003%float /\
     Position.avg_cost position = 10.03%float).
Proof.
  split.
  - vm_compute. split; [reflexivity|]. split; [reflexivity|].
    split; [reflexivity|]. eexists. split; [reflexivity|].
    repeat split.
  - vm_compute. split; [reflexivity|]. eexists. split; [reflexivity|].
    repeat split.
Qed.

End Binary64Claims.

Section Binary64Trade.

Import Binary64.

(** The ways out of [_execute_trade]: a record is returned only after a
    strategy has accepted the signal, the quantity computed is at least 100
    and [add_position] has booked it; on every other path the portfolio is
    the one passed in. *)
Lemma execute_trade_cases (strategies : list TradingStrategy.t)
    (signal : TradingSignal.t) (portfolio : Portfolio.t)
    (trade_date : datetime) (w : World) :
  match BacktestEngine._execute_trade strategies signal portfolio trade_date w with
  | (Some record, portfolio', w') =>
      exists strategy w1 q,
        BacktestEngine.entering_strategy strategies signal portfolio w
        = (Ok (Some strategy), w1) /\
        BacktestEngine.trade_quantity signal portfolio
        = Ok (TradeRecord.quantity record) /\
        100 <= TradeRecord.quantity record /\
        Float.of_int (TradeRecord.quantity record) = Ok q /\
        Portfolio.add_position portfolio (TradingSignal.symbol signal)
          (TradeRecord.quantity record) (TradingSignal.price signal)
          (q * TradingSignal.price signal * 0.0003)%float w1
        = (Ok tt, portfolio', w')
  | (None, portfolio', _) => portfolio' = portfolio
  end.
Proof.
  unfold BacktestEngine._execute_trade.
  destruct (BacktestEngine.entering_strategy strategies signal portfolio w)
    as [[[strategy|]|e] w1] eqn:Hs; [|reflexivity|reflexivity].
  destruct (BacktestEngine.trade_quantity signal portfolio) as [quantity|e]
    eqn:Hquantity; [|reflexivity].
  destruct (Z.ltb_spec quantity 100) as [Hlt|Hge]; [reflexivity|].
  destruct (Float.of_int quantity) as [q|e] eqn:Hq; [|reflexivity].
  pose proof (add_position_raises portfolio (TradingSignal.symbol signal) quantity
                (TradingSignal.price signal)
                (q * TradingSignal.price signal * 0.0003)%float w1) as Hraise.
  destruct (Portfolio.add_position portfolio (TradingSignal.symbol signal) quantity
              (TradingSignal.price signal) _ w1) as [[[[]|e] p'] w2] eqn:Hadd.
  - cbn. exists strategy, w1, q. repeat split; assumption.
  - destruct (Hraise e p' w2 eq_refl) as (_ & Hp & _). exact Hp.
Qed.

(** C5, the claim as stated, fails: with cash 100000, a (well-formed) BUY
    signal at 64.00 asking for half of the cash is accepted by the T+1
    strategy and executed for 781 shares -- the integer part of
    50000/64 = 781.25, exact in binary64 -- which is not a multiple of 100
    (the claim's lot rounding would give 700). *)
Lemma lot_rounding_counterexample :
  TradingSignal.new (buy_at 64 0.5) = Ok (buy_at 64 0.5)
  /\
  (exists record p' w',
     BacktestEngine._execute_trade [TPlusOneStrategy.instance] (buy_at 64 0.5)
       Portfolio.default (mk_datetime monday (mk_time 14 45)) at_0920
     = (Some record, p', w')
     /\ TradeRecord.quantity record = 781)
  /\
  ~ (forall strategies signal portfolio trade_date w record p' w' shares,
       TradingSignal.action signal = BUY ->
       BacktestEngine._execute_trade strategies signal portfolio trade_date w
       = (Some record, p', w') ->
       BacktestEngine.trade_quantity signal portfolio = Ok shares ->
       TradeRecord.quantity record = 100 * (shares / 100)).
Proof.
  split; [reflexivity|]. split.
  - do 3 eexists. split; [vm_compute; reflexivity|reflexivity].
  - intros H.
    specialize (H [TPlusOneStrategy.instance] (buy_at 64 0.5) Portfolio.default
                  (mk_datetime monday (mk_time 14 45)) at_0920).
    destruct (BacktestEngine._execute_trade [TPlusOneStrategy.instance]
                (buy_at 64 0.5) Portfolio.default
                (mk_datetime monday (mk_time 14 45)) at_0920)
      as [[[record|] p'] w'] eqn:E; vm_compute in E; [|discriminate E].
    specialize (H record p' w' 781 eq_refl eq_refl eq_refl).
    inversion E; subst record p' w'; clear E.
    vm_compute in H. discriminate H.
Qed.

(** C5, amended: an executed trade is for the quantity that the code
    computes in floating point, [int((cash * position_size_pct) / price)];
    that quantity is at least 100 and is not rounded to a lot.  Whenever it
    is below 100 no trade is executed: the function returns no record and
    the portfolio is unchanged.  (A call that returns no record always
    leaves the portfolio unchanged.) *)
Theorem execute_trade_quantity (strategies : list TradingStrategy.t)
    (signal : TradingSignal.t) (portfolio : Portfolio.t)
    (trade_date : datetime) (w : World) :
  match BacktestEngine._execute_trade strategies signal portfolio trade_date w with
  | (Some record, _, _) =>
      BacktestEngine.trade_quantity signal portfolio
      = Ok (TradeRecord.quantity record)
      /\ 100 <= TradeRecord.quantity record
  | (None, portfolio', _) => portfolio' = portfolio
  end
  /\
  (forall quantity,
     BacktestEngine.trade_quantity signal portfolio = Ok quantity ->
     quantity < 100 ->
     exists w',
       BacktestEngine._execute_trade strategies signal portfolio trade_date w
       = (None, portfolio, w')).
Proof.
  split.
  - pose proof (execute_trade_cases strategies signal portfolio trade_date w) as H.
    destruct (BacktestEngine._execute_trade strategies signal portfolio trade_date w)
      as [[[record|] p'] w']; [|exact H].
    destruct H as (_ & _ & _ & _ & Hq & Hge & _). split; assumption.
  - intros quantity Hq Hlt. unfold BacktestEngine._execute_trade.
    destruct (BacktestEngine.entering_strategy strategies signal portfolio w)
      as [[[strategy|]|e] w1]; try (eexists; reflexivity).
    rewrite Hq. apply Z.ltb_lt in Hlt. rewrite Hlt. eexists; reflexivity.
Qed.

(** C5 amended, at work: a tenth of 100000 buys 5 shares at 2000.00, so no
    trade is executed and the portfolio is unchanged; half of 100000 buys
    781 shares at 64.00; and all of 10.00 buys 100 shares at 0.10, the
    float quotient 10.0 / 0.1 being 100.0. *)
Lemma execute_trade_quantity_witness :
  (exists w',
     BacktestEngine._execute_trade entry_tests (buy_at 2000 0.1) Portfolio.default
       (mk_datetime monday (mk_time 14 45)) at_0920
     = (None, Portfolio.default, w'))
  /\
  match BacktestEngine._execute_trade entry_tests (buy_at 64 0.5) Portfolio.default
          (mk_datetime monday (mk_time 14 45)) at_0920 with
  | (Some record, _, _) => TradeRecord.quantity record = 781
  | _ => False
  end
  /\
  match BacktestEngine._execute_trade entry_tests (buy_at 0.1 1) (purse 10)
          (mk_datetime monday (mk_time 14 45)) at_0920 with
  | (Some record, _, _) => TradeRecord.quantity record = 100
  | _ => False
  end.
Proof.
  split; [|split].
  - destruct (execute_trade_quantity entry_tests (buy_at 2000 0.1) Portfolio.default
                (mk_datetime monday (mk_time 14 45)) at_0920) as [_ Hsmall].
    apply (Hsmall 5); reflexivity.
  - destruct (execute_trade_quantity entry_tests (buy_at 64 0.5) Portfolio.default
                (mk_datetime monday (mk_time 14 45)) at_0920) as [Hdone _].
    destruct (BacktestEngine._execute_trade entry_tests (buy_at 64 0.5)
                Portfolio.default (mk_datetime monday (mk_time 14 45)) at_0920)
      as [[[record|] p'] w'] eqn:E; vm_compute in E; [|discriminate E].
    destruct Hdone as [Hq _]. vm_compute in Hq.
    inversion Hq as [Hn]. symmetry. exact Hn.
  - destruct (execute_trade_quantity entry_tests (buy_at 0.1 1) (purse 10)
                (mk_datetime monday (mk_time 14 45)) at_0920) as [Hdone _].
    destruct (BacktestEngine._execute_trade entry_tests (buy_at 0.1 1) (purse 10)
                (mk_datetime monday (mk_time 14 45)) at_0920)
      as [[[record|] p'] w'] eqn:E; vm_compute in E; [|discriminate E].
    destruct Hdone as [Hq _]. vm_compute in Hq.
    inversion Hq as [Hn]. symmetry. exact Hn.
Defined.

(** X18: in a backtest engine that runs the T+1 strategy alone, a trade is
    executed only if [should_enter_position] answers yes, and then for at
    least 100 shares of a symbol that was not held and is held afterwards;
    when the gate answers no, nothing is traded and the portfolio is as
    before.  The gate's test [cash * pct >= price * 100] does not stand in
    for the engine's own test of the minimum: with 17.00 in cash and a
    signal at 0.17 asking for all of it, the gate answers yes
    (17.0 >= 0.17 * 100 in binary64) and the quantity is
    [int(17.0 / 0.17)] = 99, so nothing is traded. *)
Theorem gate_decides_execution (signal : TradingSignal.t)
    (portfolio : Portfolio.t) (trade_date : datetime) (w : World) :
  match BacktestEngine._execute_trade [TPlusOneStrategy.instance] signal
          portfolio trade_date w with
  | (Some record, portfolio', _) =>
      TPlusOneStrategy.should_enter_position signal portfolio w = (Ok true, w) /\
      100 <= TradeRecord.quantity record /\
      Dict.mem (Portfolio.positions portfolio) (TradingSignal.symbol signal) = false /\
      Dict.mem (Portfolio.positions portfolio') (TradingSignal.symbol signal) = true
  | (None, portfolio', _) => portfolio' = portfolio
  end
  /\
  (TPlusOneStrategy.should_enter_position signal portfolio w = (Ok false, w) ->
   BacktestEngine._execute_trade [TPlusOneStrategy.instance] signal portfolio
     trade_date w
   = (None, portfolio, w))
  /\
  (TPlusOneStrategy.should_enter_position (buy_at 0.17 1) (purse 17) w
   = (Ok true, w) /\
   Float.gt (TradingSignal.price (buy_at 0.17 1)) 0 = true /\
   BacktestEngine.trade_quantity (buy_at 0.17 1) (purse 17) = Ok 99 /\
   BacktestEngine._execute_trade [TPlusOneStrategy.instance] (buy_at 0.17 1)
     (purse 17) trade_date w
   = (None, purse 17, w)).
Proof.
  split; [|split; [|repeat split]].
  - pose proof (execute_trade_cases [TPlusOneStrategy.instance] signal portfolio
                  trade_date w) as H.
    destruct (BacktestEngine._execute_trade [TPlusOneStrategy.instance] signal
                portfolio trade_date w) as [[[record|] p'] w']; [|exact H].
    destruct H as (strategy & w1 & q & Hs & _ & Hge & Hq & Hadd).
    revert Hs Hadd.
    cbn [BacktestEngine.entering_strategy TradingStrategy.should_enter_position
         TPlusOneStrategy.instance].
    unfold bind, TPlusOneStrategy.should_enter_position.
    destruct (negb (SignalAction_eqb (TradingSignal.action signal) BUY));
      [discriminate|].
    destruct (Float.lt _ _); [discriminate|].
    destruct (Dict.mem (Portfolio.positions portfolio) (TradingSignal.symbol signal))
      eqn:Hheld; [discriminate|].
    unfold ret. intros Hs Hadd. inversion Hs; subst w1.
    split; [reflexivity|]. split; [exact Hge|]. split; [reflexivity|].
    revert Hadd. unfold Portfolio.add_position.
    apply dict_get_None_mem in Hheld. rewrite Hheld, Hq.
    unfold datetime_now. intros Hadd; inversion Hadd.
    cbn [Portfolio.positions Portfolio.with_positions]. unfold Dict.mem.
    rewrite dict_get_set_same. reflexivity.
  - intros Hgate. unfold BacktestEngine._execute_trade.
    cbn [BacktestEngine.entering_strategy TradingStrategy.should_enter_position
         TPlusOneStrategy.instance].
    unfold bind. rewrite Hgate. reflexivity.
Qed.

End Binary64Trade.

Section Binary64Rules.

Import Binary64.

(** X8: the risk rule and the value object agree except on a NaN.
    [is_acceptable_risk] holds exactly when [should_apply_risk_control]
    does not and none of the three figures -- maximum drawdown, Sharpe
    ratio, win rate -- is a NaN: the two use the same limits (0.15, 1.0,
    0.55), so a call for risk control always means unacceptable risk, and
    for figures that are numbers the one is the negation of the other; but
    metrics with a NaN among the three figures and no figure beyond its
    limit are not acceptable and call for no risk control either. *)
Theorem risk_control_is_unacceptable_risk (metrics : RiskMetrics.t) :
  let not_a_number :=
    Float.isnan (RiskMetrics.max_drawdown metrics)
    || Float.isnan (RiskMetrics.sharpe_ratio metrics)
    || Float.isnan (RiskMetrics.win_rate metrics) in
  RiskMetrics.is_acceptable_risk metrics
  = negb (BusinessRules.should_apply_risk_control metrics) && negb not_a_number
  /\
  (BusinessRules.should_apply_risk_control metrics = true ->
   RiskMetrics.is_acceptable_risk metrics = false)
  /\
  (not_a_number = false ->
   BusinessRules.should_apply_risk_control metrics
   = negb (RiskMetrics.is_acceptable_risk metrics))
  /\
  (let metrics' :=
     RiskMetrics.mk PrimFloat.nan (RiskMetrics.sharpe_ratio metrics)
       (RiskMetrics.volatility metrics) (RiskMetrics.win_rate metrics)
       (RiskMetrics.profit_loss_ratio metrics) (RiskMetrics.calmar_ratio metrics)
       (RiskMetrics.sortino_ratio metrics)
       (RiskMetrics.max_consecutive_losses metrics)
       (RiskMetrics.recovery_factor metrics) in
   RiskMetrics.is_acceptable_risk metrics' = false /\
   (Float.ge (RiskMetrics.sharpe_ratio metrics) 1 = true ->
    Float.ge (RiskMetrics.win_rate metrics) 0.55 = true ->
    BusinessRules.should_apply_risk_control metrics' = false)).
Proof.
  intros not_a_number.
  assert (Heq : RiskMetrics.is_acceptable_risk metrics
                = negb (BusinessRules.should_apply_risk_control metrics)
                  && negb not_a_number).
  { subst not_a_number.
    unfold RiskMetrics.is_acceptable_risk, BusinessRules.should_apply_risk_control,
      BusinessRules.MAX_DRAWDOWN, BusinessRules.MIN_SHARPE_RATIO,
      BusinessRules.MIN_WIN_RATE, Float.ge, Float.gt.
    fold (Float.le (RiskMetrics.max_drawdown metrics) 0.15).
    fold (Float.le 1 (RiskMetrics.sharpe_ratio metrics)).
    fold (Float.le 0.55 (RiskMetrics.win_rate metrics)).
    fold (Float.lt 0.15 (RiskMetrics.max_drawdown metrics)).
    rewrite !le_lt.
    change (Float.isnan 0.15) with false.
    change (Float.isnan 1) with false.
    change (Float.isnan 0.55) with false.
    destruct (Float.lt 0.15 (RiskMetrics.max_drawdown metrics)),
      (Float.lt (RiskMetrics.sharpe_ratio metrics) 1),
      (Float.lt (RiskMetrics.win_rate metrics) 0.55),
      (Float.isnan (RiskMetrics.max_drawdown metrics)),
      (Float.isnan (RiskMetrics.sharpe_ratio metrics)),
      (Float.isnan (RiskMetrics.win_rate metrics)); reflexivity. }
  split; [exact Heq|]. split; [|split].
  - intros H. rewrite Heq, H. reflexivity.
  - intros H. rewrite Heq, H, andb_true_r, negb_involutive. reflexivity.
  - cbn zeta. split.
    + unfold RiskMetrics.is_acceptable_risk. cbn [RiskMetrics.max_drawdown].
      reflexivity.
    + intros Hs Hw.
      unfold BusinessRules.should_apply_risk_control.
      cbn [RiskMetrics.max_drawdown RiskMetrics.sharpe_ratio RiskMetrics.win_rate].
      unfold Float.ge, BusinessRules.MIN_SHARPE_RATIO, BusinessRules.MIN_WIN_RATE in *.
      fold (Float.le 1 (RiskMetrics.sharpe_ratio metrics)) in Hs.
      fold (Float.le 0.55 (RiskMetrics.win_rate metrics)) in Hw.
      rewrite le_lt in Hs, Hw.
      apply andb_true_iff in Hs. destruct Hs as [Hs _].
      apply andb_true_iff in Hs. destruct Hs as [Hs _].
      apply andb_true_iff in Hw. destruct Hw as [Hw _].
      apply andb_true_iff in Hw. destruct Hw as [Hw _].
      apply negb_true_iff in Hs, Hw. rewrite Hs, Hw. reflexivity.
Qed.

(** X12: [validate_signal] accepts the signals that pass the check of the
    [TradingSignal] constructor (confidence within 0..100, price not at or
    below 0), have a confidence of at least 50 and a symbol that is not
    empty -- and whose price is not a NaN: the constructor lets a NaN price
    through ([nan <= 0] is false), [validate_signal] does not ([nan > 0] is
    false as well). *)
Theorem valid_signal_is_constructible (signal : TradingSignal.t) :
  BusinessRules.validate_signal signal
  = is_ok (TradingSignal.__post_init__ signal)
    && Float.ge (TradingSignal.confidence signal) 50
    && negb (String.eqb (TradingSignal.symbol signal) EmptyString)
    && negb (Float.isnan (TradingSignal.price signal)).
Proof.
  unfold BusinessRules.validate_signal, TradingSignal.__post_init__,
    BusinessRules.MIN_CONFIDENCE, BusinessRules.MAX_CONFIDENCE, Float.ge, Float.gt.
  fold (Float.le 50 (TradingSignal.confidence signal)).
  fold (Float.lt 0 (TradingSignal.price signal)).
  rewrite (le_lt (TradingSignal.price signal) 0).
  change (Float.isnan 0) with false.
  assert (Hsym : (Z.of_nat (String.length (TradingSignal.symbol signal)) >? 0)
                 = negb (String.eqb (TradingSignal.symbol signal) EmptyString)).
  { destruct (TradingSignal.symbol signal); reflexivity. }
  rewrite Hsym. clear Hsym.
  unfold Float.lt, Float.le in *.
  set (confidence := TradingSignal.confidence signal).
  set (price := TradingSignal.price signal).
  destruct (PrimFloat.leb 50 confidence) eqn:H50.
  - pose proof (le_50_le_0 confidence H50) as H0. unfold Float.le in H0.
    rewrite H0.
    destruct (PrimFloat.leb confidence 100); [|reflexivity].
    destruct (PrimFloat.ltb 0 price) eqn:Hp.
    + destruct (lt_not_nan 0 price Hp) as [_ Hn]. rewrite Hn.
      destruct (String.eqb _ _); reflexivity.
    + destruct (Float.isnan price); destruct (String.eqb _ _); reflexivity.
  - destruct (PrimFloat.leb 0 confidence && PrimFloat.leb confidence 100);
      [|reflexivity].
    destruct (PrimFloat.ltb 0 price), (Float.isnan price); reflexivity.
Qed.

End Binary64Rules.

Section Binary64Exit.

Import Binary64.

(** X23: what [_execute_exit_trade] leaves behind for a held symbol whose
    quantity is within the range of a float and whose average cost is not
    zero (the portfolio's positions being a dict): the whole position is
    sold and the symbol is no longer held; one SELL record (a closed trade)
    for the quantity held, at the price of the sale and with the average
    cost as its cost price, is appended to [result.trade_records]; and
    [result.executed_trades] is what it was -- the increment is an
    assignment to a frozen dataclass, which raises and is swallowed by the
    method's handler. *)
Theorem exit_trade_books_sale (symbol : string) (portfolio : Portfolio.t)
    (current_price : PrimFloat.float) (trade_date : datetime)
    (result : BacktestResult.t) (w : World) (position : Position.t)
    (q : PrimFloat.float) :
  NoDup (Dict.keys (Portfolio.positions portfolio)) ->
  Dict.get (Portfolio.positions portfolio) symbol = Some position ->
  Float.of_int (Position.quantity position) = Ok q ->
  Float.eq (Position.avg_cost position) 0 = false ->
  match BacktestEngine._execute_exit_trade symbol portfolio current_price
          trade_date result w with
  | (portfolio', result', _) =>
      Dict.mem (Portfolio.positions portfolio') symbol = false /\
      BacktestResult.executed_trades result' = BacktestResult.executed_trades result /\
      exists record,
        BacktestResult.trade_records result'
        = (BacktestResult.trade_records result ++ [record])%list /\
        TradeRecord.action record = SELL /\
        TradeRecord.is_closed_trade record = true /\
        TradeRecord.quantity record = Position.quantity position /\
        TradeRecord.price record = current_price /\
        TradeRecord.cost_price record = Some (Position.avg_cost position)
  end.
Proof.
  intros Hnd Hget Hq Hcost. unfold BacktestEngine._execute_exit_trade.
  rewrite Hget, Hq. unfold Float.truediv.
  unfold Float.eq in Hcost. unfold PrimFloat.is_zero.
  change PrimFloat.zero with 0%float. rewrite Hcost.
  unfold Portfolio.remove_position. rewrite Hget, Hq.
  rewrite Z.gtb_ltb, Z.ltb_irrefl.
  unfold datetime_now. cbn zeta beta iota. cbn [Position.quantity].
  rewrite Z.sub_diag. cbn [Z.eqb].
  unfold BacktestResult.set_executed_trades. cbn iota beta.
  split; [|split].
  - cbn [Portfolio.positions Portfolio.with_positions].
    apply dict_get_None_mem. apply dict_get_del_same.
    rewrite (dict_keys_set _ _ _ position) by exact Hget. exact Hnd.
  - reflexivity.
  - eexists. split; [reflexivity|]. cbn. repeat split.
Qed.

(** X23 at work: 100 shares of AAA, bought at 10.00, sold at 12.00. *)
Lemma exit_trade_books_sale_witness :
  let portfolio :=
    snd (fst (Portfolio.add_position Portfolio.default "AAA" 100 10 3 at_0920)) in
  let result :=
    BacktestResult.new AnalysisConfig.default (mk_datetime monday 0)
      (mk_datetime friday 0) 4 0 0 in
  match BacktestEngine._execute_exit_trade "AAA" portfolio 12
          (mk_datetime friday 0) result at_0920 with
  | (portfolio', result', _) =>
      Dict.mem (Portfolio.positions portfolio') "AAA" = false /\
      BacktestResult.executed_trades result' = 0 /\
      List.length (BacktestResult.trade_records result') = 1%nat
  end.
Proof.
  intros portfolio result.
  pose proof (exit_trade_books_sale "AAA" portfolio 12
                (mk_datetime friday 0) result at_0920
                (Position.mk 100 10 1003 (mk_datetime monday (mk_time 9 20))
                   (mk_datetime monday (mk_time 9 20))) 100%float) as H.
  destruct (BacktestEngine._execute_exit_trade "AAA" portfolio 12
              (mk_datetime friday 0) result at_0920) as [[portfolio' result'] w'].
  destruct H as (Hgone & Hcount & record & Hrecords & _).
  - repeat constructor. cbn. tauto.
  - reflexivity.
  - reflexivity.
  - reflexivity.
  - split; [exact Hgone|]. split; [exact Hcount|].
    rewrite Hrecords. reflexivity.
Defined.

End Binary64Exit.
